(** * codex-viz: the indexing and timeline engine (lib/indexer)

    A shallow embedding of the session-log indexer: the File Summarizer
    ([buildFileIndex]), the manifest-driven Index Builder
    ([buildOrUpdateIndex]), the Timeline Extractor ([buildTimeline]) and
    the timeline query ([getSessionTimeline]), followed by the properties
    of the specification that concern them.

    Conventions of the embedding.
    - A decoded JSON record is a value of type [json]; a property read
      [o.k] / [o?.k] is [get k o], where [None] stands for [undefined].
    - JavaScript strings are byte strings holding UTF-8.
    - Counters are JavaScript numbers holding small naturals; they are
      integers of [Z] here.
    - The builtins [JSON.parse] and [new Date(string)] belong to the
      JavaScript runtime, not to the program: they are the two members of
      the class [JsRuntime], and every general theorem holds for all
      runtimes.  A reference runtime is given for evaluation on concrete
      log files.
    - The file system is explicit: a listing, a fallible [stat] and the
      lines of each file. *)

From Stdlib Require Import ZArith Ascii String List Bool Lia.
From stdpp Require Import gmap strings list fin_maps.

Local Open Scope string_scope.
Local Open Scope Z_scope.
Local Set Warnings "-register-all".

(** ** JSON values *)

(** A number keeps its decimal literal: [JNum m e] is [m * 10^e]. *)
Inductive json : Type :=
| JNull
| JBool (b : bool)
| JNum (m e : Z)
| JStr (s : string)
| JArr (xs : list json)
| JObj (kvs : list (string * json)).

(** [JSON.parse] keeps the last binding of a repeated key. *)
Fixpoint assoc_last (k : string) (kvs : list (string * json)) : option json :=
  match kvs with
  | [] => None
  | (k', v) :: rest =>
      match assoc_last k rest with
      | Some w => Some w
      | None => if String.eqb k k' then Some v else None
      end
  end.

(** Property read.  On [undefined], [null] (through [?.]) and on
    primitives and arrays none of the names the program reads exists, so
    the read yields [undefined]. *)
Definition get (k : string) (o : option json) : option json :=
  match o with
  | Some (JObj kvs) => assoc_last k kvs
  | _ => None
  end.

(** [a ?? b] *)
Definition nullish_or (a b : option json) : option json :=
  match a with
  | None | Some JNull => b
  | Some _ => a
  end.

(** [typeof v === "string" ? v : null] *)
Definition as_string (v : option json) : option string :=
  match v with
  | Some (JStr s) => Some s
  | _ => None
  end.

(** [v === s] for a string [s] *)
Definition is_str (s : string) (v : option json) : bool :=
  match v with
  | Some (JStr s') => String.eqb s' s
  | _ => false
  end.

(** The double nearest to [m * 10^e] is zero when [m] is, or when the
    magnitude is at most half the least subnormal, [2^-1075]. *)
Definition num_is_zero (m e : Z) : bool :=
  if 0 <=? e then m =? 0
  else Z.abs m * 2 ^ 1075 <=? 10 ^ (- e).

(** Truthiness of a decoded value, as in [if (!obj)]. *)
Definition truthy (v : json) : bool :=
  match v with
  | JNull => false
  | JBool b => b
  | JNum m e => negb (num_is_zero m e)
  | JStr s => negb (String.eqb s "")
  | JArr _ | JObj _ => true
  end.

(** Truthiness of a [string | null]. *)
Definition nonempty (s : option string) : bool :=
  match s with
  | Some s => negb (String.eqb s "")
  | None => false
  end.

(** ** String builtins *)

Definition lower (c : ascii) : ascii :=
  let n := nat_of_ascii c in
  if (Nat.leb 65 n && Nat.leb n 90)%bool then ascii_of_nat (n + 32) else c.

Fixpoint prefix_ci (p s : string) : bool :=
  match p, s with
  | EmptyString, _ => true
  | String a p', String b s' => Ascii.eqb (lower a) (lower b) && prefix_ci p' s'
  | String _ _, EmptyString => false
  end.

(** Case-insensitive substring search, for patterns of ASCII letters. *)
Fixpoint contains_ci (p s : string) : bool :=
  prefix_ci p s ||
  match s with
  | EmptyString => false
  | String _ s' => contains_ci p s'
  end.

(** [/error|exception|traceback/i.test(out)] *)
Definition error_pattern (out : string) : bool :=
  contains_ci "error" out || contains_ci "exception" out || contains_ci "traceback" out.

(** [s.startsWith(p)] *)
Definition startsWith (p s : string) : bool := String.prefix p s.

(** [parts.join(sep)] *)
Fixpoint join (sep : string) (parts : list string) : string :=
  match parts with
  | [] => ""
  | [p] => p
  | p :: rest => p ++ sep ++ join sep rest
  end.

(** [s.slice(0, n)] *)
Fixpoint slice0 (n : nat) (s : string) : string :=
  match n, s with
  | S n', String c s' => String c (slice0 n' s')
  | _, _ => ""
  end.

Definition bytes (l : list nat) : string :=
  string_of_list_ascii (map ascii_of_nat l).

(** White space and line terminators of ECMAScript, in UTF-8: TAB, LF,
    VT, FF, CR, SP, U+00A0, U+1680, U+2000..U+200A, U+2028, U+2029,
    U+202F, U+205F, U+3000, U+FEFF. *)
Definition js_whitespace : list string :=
  map bytes
    [[9]; [10]; [11]; [12]; [13]; [32]; [194; 160]; [225; 154; 128];
     [226; 128; 128]; [226; 128; 129]; [226; 128; 130]; [226; 128; 131];
     [226; 128; 132]; [226; 128; 133]; [226; 128; 134]; [226; 128; 135];
     [226; 128; 136]; [226; 128; 137]; [226; 128; 138]; [226; 128; 168];
     [226; 128; 169]; [226; 128; 175]; [226; 129; 159]; [227; 128; 128];
     [239; 187; 191]]%nat.

Fixpoint drop_str (n : nat) (s : string) : string :=
  match n, s with
  | S n', String _ s' => drop_str n' s'
  | _, _ => s
  end.

Definition strip_one (ws : list string) (s : string) : option string :=
  match filter (fun w => String.prefix w s) ws with
  | w :: _ => Some (drop_str (String.length w) s)
  | [] => None
  end.

Fixpoint trim_start_aux (fuel : nat) (ws : list string) (s : string) : string :=
  match fuel with
  | O => s
  | S f =>
      match strip_one ws s with
      | Some s' => trim_start_aux f ws s'
      | None => s
      end
  end.

Definition trimStart (s : string) : string :=
  trim_start_aux (String.length s) js_whitespace s.

Definition rev_str (s : string) : string :=
  string_of_list_ascii (rev (list_ascii_of_string s)).

Definition trimEnd (s : string) : string :=
  rev_str (trim_start_aux (String.length s) (map rev_str js_whitespace) (rev_str s)).

(** [s.trim()] *)
Definition trim (s : string) : string := trimEnd (trimStart s).

(** [dq s] is [s] with every apostrophe turned into a double quote: the
    log lines of the examples are written with apostrophes. *)
Fixpoint dq (s : string) : string :=
  match s with
  | EmptyString => EmptyString
  | String c r => String (if Ascii.eqb c "039" then "034"%char else c) (dq r)
  end.

(** ** The runtime *)

Class JsRuntime := {
  (** [JSON.parse(s)]; [None] when it throws. *)
  JSON_parse : string -> option json;
  (** The time value of [new Date(s)] in milliseconds since the epoch,
      before clipping; [None] for an invalid date. *)
  Date_parse : string -> option Z
}.

(** ** Dates *)

(** Civil date of a day number counted from 1970-01-01, proleptic
    Gregorian calendar. *)
Definition civil_from_days (z : Z) : Z * Z * Z :=
  let z := z + 719468 in
  let era := z / 146097 in
  let doe := z mod 146097 in
  let yoe := (doe - doe / 1460 + doe / 36524 - doe / 146096) / 365 in
  let doy := doe - (365 * yoe + yoe / 4 - yoe / 100) in
  let mp := (5 * doy + 2) / 153 in
  let d := doy - (153 * mp + 2) / 5 + 1 in
  let m := if mp <? 10 then mp + 3 else mp - 9 in
  let y := yoe + era * 400 in
  (if m <=? 2 then y + 1 else y, m, d).

Definition digit (n : Z) : ascii := ascii_of_nat (48 + Z.to_nat (n mod 10)).

Fixpoint pad (width : nat) (n : Z) (acc : string) : string :=
  match width with
  | O => acc
  | S w => pad w (n / 10) (String (digit n) acc)
  end.

Definition year_string (y : Z) : string :=
  if (0 <=? y) && (y <=? 9999) then pad 4 y ""
  else (if y <? 0 then "-" else "+") ++ pad 6 (Z.abs y) "".

(** [YYYY-MM-DD] (with the expanded year outside 0..9999) *)
Definition date_string (t : Z) : string :=
  let '(y, m, d) := civil_from_days (t / 86400000) in
  year_string y ++ "-" ++ pad 2 m "" ++ "-" ++ pad 2 d "".

(** [new Date(t).toISOString()] *)
Definition toISOString (t : Z) : string :=
  let ms := t mod 86400000 in
  date_string t ++ "T" ++ pad 2 (ms / 3600000) "" ++ ":" ++
  pad 2 (ms / 60000 mod 60) "" ++ ":" ++ pad 2 (ms / 1000 mod 60) "" ++ "." ++
  pad 3 (ms mod 1000) "" ++ "Z".

(** ** Paths *)

Fixpoint drop_slashes (cs : list ascii) : list ascii :=
  match cs with
  | "/"%char :: r => drop_slashes r
  | _ => cs
  end.

Fixpoint take_segment (cs : list ascii) : list ascii :=
  match cs with
  | [] => []
  | c :: r => if Ascii.eqb c "/" then [] else c :: take_segment r
  end.

Definition strip_suffix (ext base : string) : string :=
  let n := (String.length base - String.length ext)%nat in
  if String.eqb (drop_str n base) ext && negb (String.eqb base ext)
  then slice0 n base else base.

(** [path.basename(p, ext)] on POSIX paths: the empty string when the
    path is [ext] itself; otherwise the last segment, trailing slashes
    ignored, without [ext] unless the segment is [ext] itself.  The paths
    of a listing come from [path.join] and do not end in a slash. *)
Definition basename (p ext : string) : string :=
  if String.eqb p ext && negb (String.eqb ext "") then "" else
  let seg := rev (take_segment (drop_slashes (rev (list_ascii_of_string p)))) in
  strip_suffix ext (string_of_list_ascii seg).

(** ** Data model *)

(** The summary of one session.  [s_id] and [s_file] are the fields [id]
    and [file]; [id] is whatever the metadata record carries, a string
    in well-formed logs. *)
Record SessionSummary := {
  s_id : json;
  s_file : string;
  startedAt : option string;
  endedAt : option string;
  durationSec : option Z;
  cwd : option string;
  originator : option string;
  cliVersion : option string;
  messages : Z;
  toolCalls : Z;
  errors : Z
}.

Definition add_messages (n : Z) (s : SessionSummary) : SessionSummary :=
  {| s_id := s_id s; s_file := s_file s; startedAt := startedAt s;
     endedAt := endedAt s; durationSec := durationSec s; cwd := cwd s;
     originator := originator s; cliVersion := cliVersion s;
     messages := messages s + n; toolCalls := toolCalls s; errors := errors s |}.

Definition add_toolCalls (n : Z) (s : SessionSummary) : SessionSummary :=
  {| s_id := s_id s; s_file := s_file s; startedAt := startedAt s;
     endedAt := endedAt s; durationSec := durationSec s; cwd := cwd s;
     originator := originator s; cliVersion := cliVersion s;
     messages := messages s; toolCalls := toolCalls s + n; errors := errors s |}.

Definition add_errors (n : Z) (s : SessionSummary) : SessionSummary :=
  {| s_id := s_id s; s_file := s_file s; startedAt := startedAt s;
     endedAt := endedAt s; durationSec := durationSec s; cwd := cwd s;
     originator := originator s; cliVersion := cliVersion s;
     messages := messages s; toolCalls := toolCalls s; errors := errors s + n |}.

Definition set_times (sa ea : option string) (d : option Z) (s : SessionSummary)
  : SessionSummary :=
  {| s_id := s_id s; s_file := s_file s; startedAt := sa;
     endedAt := ea; durationSec := d; cwd := cwd s;
     originator := originator s; cliVersion := cliVersion s;
     messages := messages s; toolCalls := toolCalls s; errors := errors s |}.

(** The summary [buildFileIndex] starts from. *)
Definition emptySummary (sessionId file : string) : SessionSummary :=
  {| s_id := JStr sessionId; s_file := file; startedAt := None; endedAt := None;
     durationSec := None; cwd := None; originator := None; cliVersion := None;
     messages := 0; toolCalls := 0; errors := 0 |}.

(** [a ?? b] on [string | null] *)
Definition or_else {A} (a b : option A) : option A :=
  match a with
  | Some _ => a
  | None => b
  end.

(** [v ?? d] where [d] is not nullish *)
Definition coalesce (v : option json) (d : json) : json :=
  match nullish_or v (Some d) with
  | Some x => x
  | None => d
  end.

(** The state of the loop of [buildFileIndex]. *)
Record FileIndexState := {
  summary : SessionSummary;
  tools : gmap string Z;
  callIdToToolName : gmap string string;
  firstTs : option string;
  lastTs : option string
}.

(** What [buildFileIndex] returns. *)
Record FileIndex := {
  fi_sessionId : string;
  fi_summary : SessionSummary;
  fi_tools : gmap string Z;
  fi_dailyKey : string
}.

(** [tools[name] = (tools[name] ?? 0) + n].  Names that are members of
    [Object.prototype] (constructor, toString and the like) are outside
    the model. *)
Definition bump (name : string) (n : Z) (t : gmap string Z) : gmap string Z :=
  <[name := default 0 (t !! name) + n]> t.

(** ** File Summarizer *)

Section Summarizer.
Context `{JsRuntime}.

(** [safeJsonParse] *)
Definition safeJsonParse (line : string) : option json := JSON_parse line.

(** [new Date(s).getTime()], [None] for NaN; time values beyond
    8.64e15 ms are clipped to NaN. *)
Definition Date_getTime (s : string) : option Z :=
  match Date_parse s with
  | Some t => if Z.abs t <=? 8640000000000000 then Some t else None
  | None => None
  end.

Definition toIso (ts : option json) : option string :=
  match ts with
  | Some (JStr s) =>
      match Date_getTime s with
      | Some t => Some (toISOString t)
      | None => None
      end
  | _ => None
  end.

Definition dayKeyFromIso (iso : option string) : string :=
  match iso with
  | Some s => if nonempty iso then slice0 10 s else "unknown"
  | None => "unknown"
  end.

Definition summarizeFromMeta (sessionId file : string) (meta : json) : SessionSummary :=
  let payload := Some (coalesce (get "payload" (Some meta)) (JObj [])) in
  {| s_id := coalesce (get "id" payload) (JStr sessionId);
     s_file := file;
     startedAt := or_else (toIso (get "timestamp" (Some meta)))
                          (toIso (get "timestamp" payload));
     endedAt := None;
     durationSec := None;
     cwd := as_string (get "cwd" payload);
     originator := as_string (get "originator" payload);
     cliVersion := as_string (get "cli_version" payload);
     messages := 0;
     toolCalls := 0;
     errors := 0 |}.

(** The exit-code test on the output of a tool call: the text starts
    with an opening brace, parses, and [parsed?.metadata?.exit_code] is
    a number other than zero. *)
Definition exitCodeError (out : string) : bool :=
  startsWith "{" out &&
  match JSON_parse out with
  | Some parsed =>
      match get "exit_code" (get "metadata" (Some parsed)) with
      | Some (JNum m e) => negb (num_is_zero m e)
      | _ => false
      end
  | None => false
  end.

(** The number of errors an output record adds. *)
Definition outputErrors (payload : json) : Z :=
  match as_string (get "output" (Some payload)) with
  | Some out =>
      if nonempty (Some out)
      then (if error_pattern out then 1 else 0) + (if exitCodeError out then 1 else 0)
      else 0
  | None => 0
  end.

Definition with_summary (f : SessionSummary -> SessionSummary) (st : FileIndexState)
  : FileIndexState :=
  {| summary := f (summary st); tools := tools st;
     callIdToToolName := callIdToToolName st;
     firstTs := firstTs st; lastTs := lastTs st |}.

(** Lines 148-152: first and last timestamp. *)
Definition stampRecord (obj : json) (st : FileIndexState) : FileIndexState :=
  let ts := toIso (get "timestamp" (Some obj)) in
  if nonempty ts then
    {| summary := summary st; tools := tools st;
       callIdToToolName := callIdToToolName st;
       firstTs := if nonempty (firstTs st) then firstTs st else ts;
       lastTs := ts |}
  else st.

(** Lines 154-157: a metadata record replaces the whole summary. *)
Definition metaRecord (sessionId file : string) (obj : json) (st : FileIndexState)
  : FileIndexState :=
  if is_str "session_meta" (get "type" (Some obj)) then
    let s := summarizeFromMeta sessionId file obj in
    {| summary := s; tools := tools st;
       callIdToToolName := callIdToToolName st;
       firstTs := if negb (nonempty (firstTs st)) && nonempty (startedAt s)
                  then startedAt s else firstTs st;
       lastTs := lastTs st |}
  else st.

(** Lines 159-162: an aborted turn. *)
Definition eventRecord (obj : json) (st : FileIndexState) : FileIndexState :=
  if is_str "event_msg" (get "type" (Some obj)) then
    if is_str "turn_aborted" (get "type" (get "payload" (Some obj)))
    then with_summary (add_errors 1) st else st
  else st.

(** Lines 164-197: messages, tool calls and their outputs. *)
Definition responseRecord (obj : json) (st : FileIndexState) : FileIndexState :=
  if is_str "response_item" (get "type" (Some obj)) then
    let payload := coalesce (get "payload" (Some obj)) (JObj []) in
    let pt := get "type" (Some payload) in
    if is_str "message" pt then
      let role := get "role" (Some payload) in
      if is_str "user" role || is_str "assistant" role
      then with_summary (add_messages 1) st else st
    else if is_str "function_call" pt || is_str "custom_tool_call" pt then
      let name := default "unknown" (as_string (get "name" (Some payload))) in
      let callId := as_string (get "call_id" (Some payload)) in
      {| summary := add_toolCalls 1 (summary st);
         tools := bump name 1 (tools st);
         callIdToToolName :=
           match callId with
           | Some c => if nonempty callId then <[c := name]> (callIdToToolName st)
                       else callIdToToolName st
           | None => callIdToToolName st
           end;
         firstTs := firstTs st; lastTs := lastTs st |}
    else if is_str "function_call_output" pt || is_str "custom_tool_call_output" pt then
      with_summary (add_errors (outputErrors payload)) st
    else st
  else st.

(** One turn of the loop on a decoded, truthy record. *)
Definition summarizeRecord (sessionId file : string) (st : FileIndexState) (obj : json)
  : FileIndexState :=
  responseRecord obj (eventRecord obj (metaRecord sessionId file obj (stampRecord obj st))).

(** One turn of the loop on a line. *)
Definition summarizeLine (sessionId file : string) (st : FileIndexState) (line : string)
  : FileIndexState :=
  match safeJsonParse line with
  | Some obj => if truthy obj then summarizeRecord sessionId file st obj else st
  | None => st
  end.

Definition initialState (sessionId file : string) : FileIndexState :=
  {| summary := emptySummary sessionId file; tools := ∅;
     callIdToToolName := ∅; firstTs := None; lastTs := None |}.

(** Lines 200-209: the times, the duration and the daily key. *)
Definition finishFileIndex (sessionId : string) (st : FileIndexState) : FileIndex :=
  let s := summary st in
  let sa := or_else (startedAt s) (firstTs st) in
  let ea := lastTs st in
  let d :=
    if nonempty sa && nonempty ea then
      match sa, ea with
      | Some a', Some b' =>
          match Date_getTime a', Date_getTime b' with
          | Some a, Some b => if a <=? b then Some ((b - a) / 1000) else durationSec s
          | _, _ => durationSec s
          end
      | _, _ => durationSec s
      end
    else durationSec s in
  {| fi_sessionId := sessionId;
     fi_summary := set_times sa ea d s;
     fi_tools := tools st;
     fi_dailyKey := dayKeyFromIso (or_else sa (firstTs st)) |}.

(** [buildFileIndex file], given the lines of the file. *)
Definition buildFileIndex (file : string) (lines : list string) : FileIndex :=
  let sessionId := basename file ".jsonl" in
  finishFileIndex sessionId
    (fold_left (summarizeLine sessionId file) lines (initialState sessionId file)).

(** The second condition of the specification on an output: the text
    parses as a JSON object whose [metadata] holds a numeric [exit_code]
    other than zero. *)
Definition exposesExitCode (out : string) : bool :=
  match JSON_parse out with
  | Some (JObj kvs) =>
      match get "exit_code" (get "metadata" (Some (JObj kvs))) with
      | Some (JNum m e) => negb (num_is_zero m e)
      | _ => false
      end
  | _ => false
  end.

(** A reading of the loop, record by record: which records are metadata
    records, and what a record counts for. *)
Definition isMeta (obj : json) : bool := is_str "session_meta" (get "type" (Some obj)).

Definition payloadType (obj : json) : option json :=
  get "type" (Some (coalesce (get "payload" (Some obj)) (JObj []))).

Definition isToolCall (obj : json) : bool :=
  is_str "response_item" (get "type" (Some obj)) &&
  (is_str "function_call" (payloadType obj) || is_str "custom_tool_call" (payloadType obj)).

Definition messageCount (obj : json) : Z :=
  let role := get "role" (Some (coalesce (get "payload" (Some obj)) (JObj []))) in
  if is_str "response_item" (get "type" (Some obj)) && is_str "message" (payloadType obj) &&
     (is_str "user" role || is_str "assistant" role)
  then 1 else 0.

Definition callCount (obj : json) : Z := if isToolCall obj then 1 else 0.

Definition errorCount (obj : json) : Z :=
  if is_str "event_msg" (get "type" (Some obj)) then
    if is_str "turn_aborted" (get "type" (get "payload" (Some obj))) then 1 else 0
  else if is_str "response_item" (get "type" (Some obj)) &&
          (is_str "function_call_output" (payloadType obj) ||
           is_str "custom_tool_call_output" (payloadType obj))
  then outputErrors (coalesce (get "payload" (Some obj)) (JObj []))
  else 0.

(** The records of a file: the lines that parse to a truthy value. *)
Definition decoded (lines : list string) : list json :=
  omap (fun line => match safeJsonParse line with
                    | Some obj => if truthy obj then Some obj else None
                    | None => None
                    end) lines.

(** The records after the last metadata record; all of them when there
    is none. *)
Fixpoint afterLastMeta (l : list json) : list json :=
  match l with
  | [] => []
  | o :: r => if existsb isMeta r then afterLastMeta r
              else if isMeta o then r else o :: r
  end.

Definition sumOver (f : json -> Z) (l : list json) : Z :=
  fold_right (fun o a => f o + a) 0 l.

End Summarizer.

(** ** A reference runtime

    [json_parse] follows the JSON grammar of ECMA-404 as [JSON.parse]
    does; [date_parse] reads the ECMAScript date-time format in UTC,
    [YYYY-MM-DDTHH:mm:ss.sssZ] or [YYYY-MM-DDTHH:mm:ssZ].  They serve to
    run the program on concrete log files. *)

Module Reference.

Definition is_ws (c : ascii) : bool :=
  let n := nat_of_ascii c in
  (Nat.eqb n 32 || Nat.eqb n 9 || Nat.eqb n 10 || Nat.eqb n 13)%bool.

Fixpoint skip_ws (cs : list ascii) : list ascii :=
  match cs with
  | c :: r => if is_ws c then skip_ws r else cs
  | [] => []
  end.

Definition digit_val (c : ascii) : option Z :=
  let n := nat_of_ascii c in
  if (Nat.leb 48 n && Nat.leb n 57)%bool then Some (Z.of_nat n - 48) else None.

Definition hex_val (c : ascii) : option Z :=
  let n := Z.of_nat (nat_of_ascii c) in
  if (48 <=? n) && (n <=? 57) then Some (n - 48)
  else if (65 <=? n) && (n <=? 70) then Some (n - 55)
  else if (97 <=? n) && (n <=? 102) then Some (n - 87)
  else None.

(** A run of digits: its value continued from [acc], its length, the
    rest. *)
Fixpoint digits (cs : list ascii) (acc : Z) (len : Z) : Z * Z * list ascii :=
  match cs with
  | c :: r =>
      match digit_val c with
      | Some d => digits r (10 * acc + d) (len + 1)
      | None => (acc, len, cs)
      end
  | [] => (acc, len, cs)
  end.

Definition byte (n : Z) : ascii := ascii_of_nat (Z.to_nat n).

(** UTF-8 of a code point. *)
Definition utf8 (cp : Z) : list ascii :=
  if cp <? 128 then [byte cp]
  else if cp <? 2048 then [byte (192 + cp / 64); byte (128 + cp mod 64)]
  else if cp <? 65536 then
    [byte (224 + cp / 4096); byte (128 + cp / 64 mod 64); byte (128 + cp mod 64)]
  else
    [byte (240 + cp / 262144); byte (128 + cp / 4096 mod 64);
     byte (128 + cp / 64 mod 64); byte (128 + cp mod 64)].

Definition hex4 (cs : list ascii) : option (Z * list ascii) :=
  match cs with
  | a :: b :: c :: d :: r =>
      match hex_val a, hex_val b, hex_val c, hex_val d with
      | Some a, Some b, Some c, Some d => Some (4096 * a + 256 * b + 16 * c + d, r)
      | _, _, _, _ => None
      end
  | _ => None
  end.

(** The body of a string literal, after the opening quote. *)
Fixpoint string_body (fuel : nat) (cs : list ascii) (acc : list ascii)
  : option (string * list ascii) :=
  match fuel with
  | O => None
  | S f =>
      match cs with
      | [] => None
      | "034"%char :: r => Some (string_of_list_ascii (rev acc), r)
      | "\"%char :: e :: r =>
          if Ascii.eqb e "u" then
            match hex4 r with
            | Some (hi, r1) =>
                match r1 with
                | "\"%char :: "u"%char :: r2 =>
                    match hex4 r2 with
                    | Some (lo, r3) =>
                        if (55296 <=? hi) && (hi <? 56320) && (56320 <=? lo) && (lo <? 57344)
                        then string_body f r3
                               (rev (utf8 (65536 + (hi - 55296) * 1024 + (lo - 56320))) ++ acc)
                        else string_body f r1 (rev (utf8 hi) ++ acc)
                    | None => string_body f r1 (rev (utf8 hi) ++ acc)
                    end
                | _ => string_body f r1 (rev (utf8 hi) ++ acc)
                end
            | None => None
            end
          else
            match
              (if Ascii.eqb e "034" then Some 34 else if Ascii.eqb e "\" then Some 92
               else if Ascii.eqb e "/" then Some 47 else if Ascii.eqb e "b" then Some 8
               else if Ascii.eqb e "f" then Some 12 else if Ascii.eqb e "n" then Some 10
               else if Ascii.eqb e "r" then Some 13 else if Ascii.eqb e "t" then Some 9
               else None)
            with
            | Some n => string_body f r (byte n :: acc)
            | None => None
            end
      | c :: r => if Nat.ltb (nat_of_ascii c) 32 then None else string_body f r (c :: acc)
      end
  end.

(** A number literal: sign, integer part, fraction, exponent. *)
Definition number (cs : list ascii) : option (json * list ascii) :=
  let '(neg, cs1) :=
    match cs with
    | "-"%char :: r => (true, r)
    | _ => (false, cs)
    end in
  let '(i, ilen, cs2) := digits cs1 0 0 in
  let leading_zero :=
    match cs1 with
    | "0"%char :: _ => 1 <? ilen
    | _ => false
    end in
  if (ilen =? 0) || leading_zero then None else
  let frac :=
    match cs2 with
    | "."%char :: r =>
        let '(m, flen, r') := digits r i 0 in
        if flen =? 0 then None else Some (m, flen, r')
    | _ => Some (i, 0, cs2)
    end in
  match frac with
  | None => None
  | Some (m, flen, cs3) =>
      let sgn := if neg then -1 else 1 in
      let is_e c := Ascii.eqb c "e" || Ascii.eqb c "E" in
      match cs3 with
      | e :: r =>
          if is_e e then
            let '(eneg, r1) :=
              match r with
              | "-"%char :: r' => (true, r')
              | "+"%char :: r' => (false, r')
              | _ => (false, r)
              end in
            let '(x, xlen, r2) := digits r1 0 0 in
            if xlen =? 0 then None
            else Some (JNum (sgn * m) ((if eneg then - x else x) - flen), r2)
          else Some (JNum (sgn * m) (- flen), cs3)
      | [] => Some (JNum (sgn * m) (- flen), cs3)
      end
  end.

Fixpoint value (fuel : nat) (cs : list ascii) : option (json * list ascii) :=
  match fuel with
  | O => None
  | S f =>
      let elements :=
        fix elements (n : nat) (cs : list ascii) (acc : list json) :=
          match n with
          | O => None
          | S n' =>
              match value f cs with
              | Some (v, r) =>
                  match skip_ws r with
                  | ","%char :: r' => elements n' r' (v :: acc)
                  | "]"%char :: r' => Some (JArr (rev (v :: acc)), r')
                  | _ => None
                  end
              | None => None
              end
          end in
      let members :=
        fix members (n : nat) (cs : list ascii) (acc : list (string * json)) :=
          match n with
          | O => None
          | S n' =>
              match skip_ws cs with
              | "034"%char :: r =>
                  match string_body (S (length r)) r [] with
                  | Some (k, r1) =>
                      match skip_ws r1 with
                      | ":"%char :: r2 =>
                          match value f r2 with
                          | Some (v, r3) =>
                              match skip_ws r3 with
                              | ","%char :: r4 => members n' r4 ((k, v) :: acc)
                              | "}"%char :: r4 => Some (JObj (rev ((k, v) :: acc)), r4)
                              | _ => None
                              end
                          | None => None
                          end
                      | _ => None
                      end
                  | None => None
                  end
              | _ => None
              end
          end in
      match skip_ws cs with
      | "n"%char :: "u"%char :: "l"%char :: "l"%char :: r => Some (JNull, r)
      | "t"%char :: "r"%char :: "u"%char :: "e"%char :: r => Some (JBool true, r)
      | "f"%char :: "a"%char :: "l"%char :: "s"%char :: "e"%char :: r => Some (JBool false, r)
      | "034"%char :: r =>
          match string_body (S (length r)) r [] with
          | Some (s, r') => Some (JStr s, r')
          | None => None
          end
      | "["%char :: r =>
          match skip_ws r with
          | "]"%char :: r' => Some (JArr [], r')
          | r' => elements (S (length r')) r' []
          end
      | "{"%char :: r =>
          match skip_ws r with
          | "}"%char :: r' => Some (JObj [], r')
          | r' => members (S (length r')) r' []
          end
      | cs' => number cs'
      end
  end.

Definition json_parse (s : string) : option json :=
  let cs := list_ascii_of_string s in
  match value (S (length cs)) cs with
  | Some (v, r) =>
      match skip_ws r with
      | [] => Some v
      | _ => None
      end
  | None => None
  end.

(** Day number of a civil date. *)
Definition days_from_civil (y m d : Z) : Z :=
  let y := if m <=? 2 then y - 1 else y in
  let era := y / 400 in
  let yoe := y mod 400 in
  let doy := (153 * (if 2 <? m then m - 3 else m + 9) + 2) / 5 + d - 1 in
  let doe := yoe * 365 + yoe / 4 - yoe / 100 + doy in
  era * 146097 + doe - 719468.

Definition fixed_digits (n : nat) (cs : list ascii) : option (Z * list ascii) :=
  let '(v, len, r) := digits (firstn n cs) 0 0 in
  if (len =? Z.of_nat n) then Some (v, skipn n cs) else None.

Definition expect (c : ascii) (cs : list ascii) : option (list ascii) :=
  match cs with
  | c' :: r => if Ascii.eqb c c' then Some r else None
  | [] => None
  end.

Definition date_parse (s : string) : option Z :=
  '(y, r) ← fixed_digits 4 (list_ascii_of_string s);
  r ← expect "-" r;
  '(mo, r) ← fixed_digits 2 r;
  r ← expect "-" r;
  '(d, r) ← fixed_digits 2 r;
  r ← expect "T" r;
  '(h, r) ← fixed_digits 2 r;
  r ← expect ":" r;
  '(mi, r) ← fixed_digits 2 r;
  r ← expect ":" r;
  '(sec, r) ← fixed_digits 2 r;
  '(ms, r) ← match r with
             | "."%char :: r' => fixed_digits 3 r'
             | _ => Some (0, r)
             end;
  r ← expect "Z" r;
  let t := days_from_civil y mo d * 86400000 + h * 3600000 + mi * 60000 + sec * 1000 + ms in
  if (match r with [] => true | _ => false end)
     && (1 <=? mo) && (mo <=? 12) && (1 <=? d) && (h <=? 23) && (mi <=? 59) && (sec <=? 59)
     && bool_decide (civil_from_days (days_from_civil y mo d) = (y, mo, d))
  then Some t else None.

#[export] Instance runtime : JsRuntime :=
  {| JSON_parse := json_parse; Date_parse := date_parse |}.

End Reference.

(** ** The file system and the persisted artifacts *)

(** The fingerprint [stat] gives: modification time and size. *)
Record Stats := { mtimeMs : Z; st_size : Z }.

(** [listJsonlFiles root] is the listing of the log files under [root],
    in discovery order; [fs_stat] is [None] when [fsp.stat] throws;
    [fs_lines] gives the lines of a file as [readline] delivers them.
    A file is there or it is not: one that [stat] finds can be opened
    and read, one that [stat] does not find cannot be opened
    ([fs.createReadStream] fails on it).  Permissions, and changes of
    the corpus between [stat] and the reading of a file, are outside
    the model. *)
Record FileSystem := {
  listJsonlFiles : string -> list string;
  fs_stat : string -> option Stats;
  fs_lines : string -> list string
}.

Record ManifestEntry := {
  e_mtimeMs : Z;
  e_size : Z;
  e_sessionId : string;
  e_summary : SessionSummary;
  e_tools : gmap string Z;
  e_dailyKey : string
}.

Record Manifest := {
  m_version : Z;
  m_sessionsDir : string;
  m_files : gmap string ManifestEntry
}.

Record DailyAgg := {
  d_sessions : Z;
  d_messages : Z;
  d_toolCalls : Z;
  d_errors : Z
}.

Record Totals := {
  t_files : Z;
  t_sessions : Z;
  t_messages : Z;
  t_toolCalls : Z;
  t_errors : Z
}.

Record IndexSnapshot := {
  i_version : Z;
  generatedAt : string;
  i_sessionsDir : string;
  i_cacheDir : string;
  totals : Totals;
  i_tools : gmap string Z;
  daily : gmap string DailyAgg;
  sessions : list SessionSummary
}.

Definition INDEX_VERSION : Z := 1.

Definition mergeDaily (target : gmap string DailyAgg) (key : string) (delta : DailyAgg)
  : gmap string DailyAgg :=
  let cur := default {| d_sessions := 0; d_messages := 0; d_toolCalls := 0; d_errors := 0 |}
                     (target !! key) in
  <[key := {| d_sessions := d_sessions cur + d_sessions delta;
              d_messages := d_messages cur + d_messages delta;
              d_toolCalls := d_toolCalls cur + d_toolCalls delta;
              d_errors := d_errors cur + d_errors delta |}]> target.

Definition mergeTools (target add : gmap string Z) : gmap string Z :=
  map_fold (fun k v t => bump k v t) target add.

(** The sum of the values of a histogram. *)
Definition histogramTotal (t : gmap string Z) : Z :=
  map_fold (fun _ v a => a + v) 0 t.

(** ** Index Builder *)

(** The variables of the loop of [buildOrUpdateIndex]; [b_reads] records
    the files handed to [buildFileIndex], in order. *)
Record BuildState := {
  b_files : gmap string ManifestEntry;
  b_daily : gmap string DailyAgg;
  b_tools : gmap string Z;
  b_sessions : list SessionSummary;
  b_reads : list string
}.

Record BuildResult := {
  snapshot : IndexSnapshot;
  manifest : Manifest;
  reads : list string
}.

Section IndexBuilder.
Context `{JsRuntime}.
Variable fs : FileSystem.

(** [prev.mtimeMs === st.mtimeMs && prev.size === st.size] *)
Definition reusable (prev : ManifestEntry) (st : Stats) : bool :=
  (e_mtimeMs prev =? mtimeMs st) && (e_size prev =? st_size st).

(** The three statements both branches share: push the summary, merge
    the histogram, merge the daily bucket. *)
Definition account (s : SessionSummary) (t : gmap string Z) (key : string)
    (b : BuildState) : BuildState :=
  {| b_files := b_files b;
     b_daily := mergeDaily (b_daily b) key
                  {| d_sessions := 1; d_messages := messages s;
                     d_toolCalls := toolCalls s; d_errors := errors s |};
     b_tools := mergeTools (b_tools b) t;
     b_sessions := b_sessions b ++ [s];
     b_reads := b_reads b |}.

(** The entry lines 278-285 write for a file that is summarized. *)
Definition builtEntry (file : string) (st : Stats) : ManifestEntry :=
  let built := buildFileIndex file (fs_lines fs file) in
  {| e_mtimeMs := mtimeMs st; e_size := st_size st;
     e_sessionId := fi_sessionId built;
     e_summary := fi_summary built;
     e_tools := fi_tools built;
     e_dailyKey := fi_dailyKey built |}.

(** Lines 268-285: summarize the file and overwrite its entry. *)
Definition rebuild (file : string) (st : Stats) (b : BuildState) : BuildState :=
  let e := builtEntry file st in
  let b' := account (e_summary e) (e_tools e) (e_dailyKey e) b in
  {| b_files := <[file := e]> (b_files b');
     b_daily := b_daily b';
     b_tools := b_tools b';
     b_sessions := b_sessions b';
     b_reads := b_reads b' ++ [file] |}.

(** One turn of the loop over the discovered files. *)
Definition indexFile (b : BuildState) (file : string) : BuildState :=
  match fs_stat fs file with
  | None => b
  | Some st =>
      match b_files b !! file with
      | Some prev =>
          if reusable prev st
          then account (e_summary prev) (e_tools prev) (e_dailyKey prev) b
          else rebuild file st b
      | None => rebuild file st b
      end
  end.

(** Lines 289-291 *)
Definition prune (files : list string) (m : gmap string ManifestEntry)
  : gmap string ManifestEntry :=
  filter (fun kv => kv.1 ∈ files) m.

Definition sum_by (f : SessionSummary -> Z) (l : list SessionSummary) : Z :=
  fold_left (fun a s => a + f s) l 0.

(** [buildOrUpdateIndex()]: [sessionsDir] and [cacheDir] are the
    configured directories, [now] the clock at line 303, [prevManifest]
    what [readJsonFile(manifestPath)] yields. *)
Definition buildOrUpdateIndex (sessionsDir cacheDir : string) (now : Z)
    (prevManifest : option Manifest) : BuildResult :=
  let files0 :=
    match prevManifest with
    | Some p => if (m_version p =? INDEX_VERSION) && String.eqb (m_sessionsDir p) sessionsDir
                then m_files p else ∅
    | None => ∅
    end in
  let files := listJsonlFiles fs sessionsDir in
  let b := fold_left indexFile files
             {| b_files := files0; b_daily := ∅; b_tools := ∅;
                b_sessions := []; b_reads := [] |} in
  let ss := b_sessions b in
  {| snapshot :=
       {| i_version := INDEX_VERSION;
          generatedAt := toISOString now;
          i_sessionsDir := sessionsDir;
          i_cacheDir := cacheDir;
          totals := {| t_files := Z.of_nat (length files);
                       t_sessions := Z.of_nat (length ss);
                       t_messages := sum_by messages ss;
                       t_toolCalls := sum_by toolCalls ss;
                       t_errors := sum_by errors ss |};
          i_tools := b_tools b;
          daily := b_daily b;
          sessions := ss |};
     manifest := {| m_version := INDEX_VERSION; m_sessionsDir := sessionsDir;
                    m_files := prune files (b_files b) |};
     reads := b_reads b |}.

(** A reading of the loop: the entry it ends up with for a file whose
    fingerprint is [st], starting from the entries [F]; what a file adds
    to the daily buckets, the histogram and the sessions. *)
Definition entryFor (F : gmap string ManifestEntry) (file : string) (st : Stats)
  : ManifestEntry :=
  match F !! file with
  | Some prev => if reusable prev st then prev else builtEntry file st
  | None => builtEntry file st
  end.

Definition contribution (F : gmap string ManifestEntry) (file : string)
  : option ManifestEntry :=
  match fs_stat fs file with
  | Some st => Some (entryFor F file st)
  | None => None
  end.

Definition aggregates (b : BuildState)
  : gmap string DailyAgg * gmap string Z * list SessionSummary :=
  (b_daily b, b_tools b, b_sessions b).

Definition addEntry (a : gmap string DailyAgg * gmap string Z * list SessionSummary)
    (e : ManifestEntry) : gmap string DailyAgg * gmap string Z * list SessionSummary :=
  let '(d, t, ss) := a in
  (mergeDaily d (e_dailyKey e)
     {| d_sessions := 1; d_messages := messages (e_summary e);
        d_toolCalls := toolCalls (e_summary e); d_errors := errors (e_summary e) |},
   mergeTools t (e_tools e),
   (ss ++ [e_summary e])%list).

End IndexBuilder.

(** The snapshot with another generation time. *)
Definition set_generatedAt (t : string) (i : IndexSnapshot) : IndexSnapshot :=
  {| i_version := i_version i; generatedAt := t; i_sessionsDir := i_sessionsDir i;
     i_cacheDir := i_cacheDir i; totals := totals i; i_tools := i_tools i;
     daily := daily i; sessions := sessions i |}.

(** ** Timeline Extractor *)

Inductive EventKind := user | assistant | tool_call | tool_output | error | other.

(** [ev_name] and [ev_text] are [None] when the field is absent (or
    [undefined], which serialization drops). *)
Record TimelineEvent := {
  ev_ts : string;
  ev_kind : EventKind;
  ev_name : option string;
  ev_text : option string
}.

Record SessionTimelineResponse := {
  r_summary : SessionSummary;
  truncated : bool;
  events : list TimelineEvent
}.

(** The variables of the loop of [buildTimeline]. *)
Record TimelineState := {
  tl_events : list TimelineEvent;
  callIdToName : gmap string string
}.

Definition push (e : TimelineEvent) (st : TimelineState) : TimelineState :=
  {| tl_events := tl_events st ++ [e]; callIdToName := callIdToName st |}.

(** [events[events.length - 1] = e] *)
Definition set_last (e : TimelineEvent) (st : TimelineState) : TimelineState :=
  {| tl_events := <[(length (tl_events st) - 1)%nat := e]> (tl_events st);
     callIdToName := callIdToName st |}.

Definition maxEvents : nat := Z.to_nat 5000.

Section Timeline.
Context `{JsRuntime}.

Definition extractMessageText (payload : option json) : option string :=
  match get "content" payload with
  | Some (JArr content) =>
      let parts :=
        fold_left
          (fun (parts : list string) c =>
             let ty := get "type" (Some c) in
             let text := as_string (get "text" (Some c)) in
             match text with
             | Some t =>
                 if is_str "input_text" ty then (parts ++ [t])%list
                 else if is_str "output_text" ty then (parts ++ [t])%list
                 else (parts ++ [t])%list
             | None => parts
             end)
          content [] in
      let txt := trim (join (String "010" "") parts) in
      if nonempty (Some txt) then Some txt else None
  | _ => None
  end.

(** Lines 379-411: the events of one decoded, truthy record. *)
Definition timelineRecord (st : TimelineState) (obj : json) : TimelineState :=
  let ts := default "" (toIso (get "timestamp" (Some obj))) in
  let ty := get "type" (Some obj) in
  let st :=
    if is_str "event_msg" ty && is_str "turn_aborted" (get "type" (get "payload" (Some obj)))
    then push {| ev_ts := ts; ev_kind := error; ev_name := None;
                 ev_text := Some "turn_aborted" |} st
    else st in
  if is_str "response_item" ty then
    let payload := coalesce (get "payload" (Some obj)) (JObj []) in
    let pt := get "type" (Some payload) in
    if is_str "message" pt then
      let role := get "role" (Some payload) in
      let text := default "" (extractMessageText (Some payload)) in
      let kind := if is_str "user" role then user
                  else if is_str "assistant" role then assistant else other in
      push {| ev_ts := ts; ev_kind := kind; ev_name := None; ev_text := Some text |} st
    else if is_str "function_call" pt || is_str "custom_tool_call" pt then
      let name := default "unknown" (as_string (get "name" (Some payload))) in
      let callId := as_string (get "call_id" (Some payload)) in
      let st :=
        match callId with
        | Some c =>
            if nonempty callId
            then {| tl_events := tl_events st;
                    callIdToName := <[c := name]> (callIdToName st) |}
            else st
        | None => st
        end in
      let args := as_string (get "arguments" (Some payload)) in
      let input := as_string (get "input" (Some payload)) in
      let st := push {| ev_ts := ts; ev_kind := tool_call; ev_name := Some name;
                        ev_text := Some (default "" args) |} st in
      match input with
      | Some i =>
          if negb (nonempty args) && nonempty input
          then set_last {| ev_ts := ts; ev_kind := tool_call; ev_name := Some name;
                           ev_text := Some i |} st
          else st
      | None => st
      end
    else if is_str "function_call_output" pt || is_str "custom_tool_call_output" pt then
      let callId := as_string (get "call_id" (Some payload)) in
      let name :=
        match as_string (get "name" (Some payload)) with
        | Some n => Some n
        | None =>
            match callId with
            | Some c => if nonempty callId then callIdToName st !! c else None
            | None => None
            end
        end in
      let out := default "" (as_string (get "output" (Some payload))) in
      push {| ev_ts := ts; ev_kind := tool_output; ev_name := name; ev_text := Some out |} st
    else st
  else st.

(** Lines 375-417: the loop, which leaves at the first record after
    which [cap] events or more are held. *)
Fixpoint timelineLoop (cap : nat) (lines : list string) (st : TimelineState)
  : TimelineState * bool :=
  match lines with
  | [] => (st, false)
  | line :: rest =>
      match safeJsonParse line with
      | Some obj =>
          if truthy obj then
            let st' := timelineRecord st obj in
            if (cap <=? length (tl_events st'))%nat then (st', true)
            else timelineLoop cap rest st'
          else timelineLoop cap rest st
      | None => timelineLoop cap rest st
      end
  end.

(** [buildTimeline(file, summary)], given the lines of the file. *)
Definition buildTimeline (lines : list string) (s : SessionSummary)
  : SessionTimelineResponse :=
  let '(st, trunc) := timelineLoop maxEvents lines
                        {| tl_events := []; callIdToName := ∅ |} in
  {| r_summary := s; truncated := trunc; events := tl_events st |}.

(** The time stamp every event of a record carries. *)
Definition recordTs (obj : json) : string :=
  match toIso (get "timestamp" (Some obj)) with
  | Some iso => iso
  | None => ""
  end.

(** One turn of the loop without the cap. *)
Definition timelineLine (st : TimelineState) (line : string) : TimelineState :=
  match safeJsonParse line with
  | Some obj => if truthy obj then timelineRecord st obj else st
  | None => st
  end.

(** The qualifying events of a file: what its records give rise to, in
    file order, when nothing stops the loop. *)
Definition qualifyingEvents (lines : list string) : list TimelineEvent :=
  tl_events (fold_left timelineLine lines {| tl_events := []; callIdToName := ∅ |}).

(** The text fragments of a message content, in order. *)
Definition textParts (content : list json) : list string :=
  omap (fun c => as_string (get "text" (Some c))) content.

(** The text fragments of a message payload: those of its content when
    that is an array, none otherwise (line 109). *)
Definition contentParts (payload : json) : list string :=
  match get "content" (Some payload) with
  | Some (JArr content) => textParts content
  | _ => []
  end.

End Timeline.

(** ** Timeline query *)

(** What a query throws: the failure of [fsp.stat] on a path, or of
    opening a path for reading. *)
Inductive exn :=
| StatFailed (path : string)
| OpenFailed (path : string).

Inductive result (A : Type) :=
| Return (a : A)
| Throw (e : exn).
Arguments Return {A} a.
Arguments Throw {A} e.

(** A cached timeline; the two fingerprint fields are optional in the
    file. *)
Record CachedTimeline := {
  c_summary : SessionSummary;
  c_truncated : bool;
  c_events : list TimelineEvent;
  fileMtimeMs : option Z;
  fileSize : option Z
}.

Definition hex_digit (n : nat) : ascii :=
  ascii_of_nat (if Nat.ltb n 10 then 48 + n else 55 + n).

Definition uri_unreserved (c : ascii) : bool :=
  let n := nat_of_ascii c in
  ((Nat.leb 48 n && Nat.leb n 57) || (Nat.leb 65 n && Nat.leb n 90) ||
   (Nat.leb 97 n && Nat.leb n 122) ||
   existsb (Nat.eqb n) [45; 95; 46; 33; 126; 42; 39; 40; 41]%nat)%bool.

(** [encodeURIComponent] on well-formed strings *)
Fixpoint encodeURIComponent (s : string) : string :=
  match s with
  | EmptyString => ""
  | String c r =>
      if uri_unreserved c then String c (encodeURIComponent r)
      else let n := nat_of_ascii c in
           String "%" (String (hex_digit (n / 16)) (String (hex_digit (n mod 16))
             (encodeURIComponent r)))
  end.

Definition SESSION_DIR : string := "session".

Definition timelineCachePath (cacheDir id : string) : string :=
  cacheDir ++ "/" ++ SESSION_DIR ++ "/" ++ encodeURIComponent id ++ ".json".

Section TimelineQuery.
Context `{JsRuntime}.
Variable fs : FileSystem.

(** Lines 353-362: the listed files are opened in turn, and the first
    one whose first line is a metadata record with the id is the
    result.  Opening is not guarded: a listed file that cannot be opened
    ends the search with its failure. *)
Fixpoint metaLookup (sessionId : string) (files : list string)
  : result (option string) :=
  match files with
  | [] => Return None
  | f :: rest =>
      match fs_stat fs f with
      | None => Throw (OpenFailed f)
      | Some _ =>
          match fs_lines fs f with
          | line :: _ =>
              let obj := safeJsonParse line in
              if is_str "session_meta" (get "type" obj) &&
                 is_str sessionId (get "id" (get "payload" obj))
              then Return (Some f) else metaLookup sessionId rest
          | [] => metaLookup sessionId rest
          end
      end
  end.

Definition findFileForSession (sessionsDir sessionId : string)
  : result (option string) :=
  let files := listJsonlFiles fs sessionsDir in
  match find (fun f => String.eqb (basename f ".jsonl") sessionId) files with
  | Some exact => if nonempty (Some exact) then Return (Some exact)
                  else metaLookup sessionId files
  | None => metaLookup sessionId files
  end.

(** Lines 425-426: the session of the snapshot, and the file. *)
Definition findSession (index : IndexSnapshot) (sessionId : string)
  : option SessionSummary :=
  find (fun s => is_str sessionId (Some (s_id s))) (sessions index).

Definition resolveFile (index : IndexSnapshot) (sessionsDir sessionId : string)
  : result (option string) :=
  match findSession index sessionId with
  | Some s => Return (Some (s_file s))
  | None => findFileForSession sessionsDir sessionId
  end.

(** The response of lines 429-445. *)
Definition notFound (sessionId : string) (now : Z) : SessionTimelineResponse :=
  {| r_summary :=
       {| s_id := JStr sessionId; s_file := ""; startedAt := None; endedAt := None;
          durationSec := None; cwd := None; originator := None; cliVersion := None;
          messages := 0; toolCalls := 0; errors := 1 |};
     truncated := false;
     events := [{| ev_ts := toISOString now; ev_kind := error; ev_name := None;
                   ev_text := Some "未找到对应 session 文件" |}] |}.

(** [getSessionTimeline(sessionId)]: [index] is the snapshot that
    [getIndex()] delivered, [sessionsDir] the configured directory,
    [now] the clock, [cache] the timeline cache files by path.  The
    result carries the cache after the call. *)
Definition getSessionTimeline (index : IndexSnapshot) (sessionsDir : string) (now : Z)
    (cache : gmap string CachedTimeline) (sessionId : string)
  : result (SessionTimelineResponse * gmap string CachedTimeline) :=
  let session := findSession index sessionId in
  match resolveFile index sessionsDir sessionId with
  | Throw e => Throw e
  | Return None => Return (notFound sessionId now, cache)
  | Return (Some file) =>
      if negb (nonempty (Some file)) then Return (notFound sessionId now, cache) else
      match fs_stat fs file with
      | None => Throw (StatFailed file)
      | Some st =>
          let cachePath := timelineCachePath (i_cacheDir index) sessionId in
          let hit :=
            match cache !! cachePath with
            | Some c =>
                if bool_decide (fileMtimeMs c = Some (mtimeMs st)) &&
                   bool_decide (fileSize c = Some (st_size st))
                then Some c else None
            | None => None
            end in
          match hit with
          | Some c =>
              Return ({| r_summary := c_summary c; truncated := c_truncated c;
                         events := c_events c |}, cache)
          | None =>
              let s := match session with
                       | Some s => s
                       | None => fi_summary (buildFileIndex file (fs_lines fs file))
                       end in
              let built := buildTimeline (fs_lines fs file) s in
              Return (built,
                      <[cachePath := {| c_summary := r_summary built;
                                        c_truncated := truncated built;
                                        c_events := events built;
                                        fileMtimeMs := Some (mtimeMs st);
                                        fileSize := Some (st_size st) |}]> cache)
          end
      end
  end.

End TimelineQuery.

(** ** Example log files

    Lines are written with apostrophes for double quotes, see [dq]. *)

Module Examples.

(** A user message whose only text fragment is blank. *)
Definition blank_message : string :=
  dq "{'timestamp':'2024-01-01T10:00:00.000Z','type':'response_item','payload':{'type':'message','role':'user','content':[{'type':'input_text','text':'  '}]}}".

(** A tool call without a time stamp. *)
Definition unstamped_call : string :=
  dq "{'type':'response_item','payload':{'type':'function_call','name':'shell','call_id':'1','arguments':'ls'}}".

(** An aborted turn with a time stamp that is no date. *)
Definition badstamp_abort : string :=
  dq "{'timestamp':'yesterday','type':'event_msg','payload':{'type':'turn_aborted'}}".

(** The output of a failed command: its text names an error and its
    wrapper holds exit code 2. *)
Definition failing_output : string :=
  dq "{'timestamp':'2024-01-01T10:00:03.000Z','type':'response_item','payload':{'type':'function_call_output','call_id':'1','output':'{\'stderr\':\'Error: boom\',\'metadata\':{\'exit_code\':2}}'}}".

(** An output whose JSON wrapper follows a space. *)
Definition spaced_output : string :=
  dq "{'timestamp':'2024-01-01T10:00:03.000Z','type':'response_item','payload':{'type':'custom_tool_call_output','call_id':'1','output':' {\'metadata\':{\'exit_code\':1}}'}}".

Definition user_hello : string :=
  dq "{'timestamp':'2024-01-01T10:00:01.000Z','type':'response_item','payload':{'type':'message','role':'user','content':[{'type':'input_text','text':'hello'}]}}".

Definition shell_call : string :=
  dq "{'timestamp':'2024-01-01T10:00:02.000Z','type':'response_item','payload':{'type':'function_call','name':'shell','call_id':'1','arguments':'ls'}}".

Definition abort : string :=
  dq "{'timestamp':'2024-01-01T10:00:04.000Z','type':'event_msg','payload':{'type':'turn_aborted'}}".

Definition late_meta : string :=
  dq "{'timestamp':'2024-01-01T10:00:05.000Z','type':'session_meta','payload':{'id':'abc','cwd':'/tmp','originator':'cli'}}".

Definition early_meta : string :=
  dq "{'timestamp':'2024-01-01T10:00:00.000Z','type':'session_meta','payload':{'id':'abc','cwd':'/tmp','originator':'cli'}}".

(** An output that is no string: an object that holds the word error. *)
Definition object_output : string :=
  dq "{'timestamp':'2024-01-01T10:00:03.000Z','type':'response_item','payload':{'type':'function_call_output','call_id':'1','output':{'stderr':'error'}}}".

(** A message whose content is a string, not an array of fragments. *)
Definition string_content_message : string :=
  dq "{'timestamp':'2024-01-01T10:00:01.000Z','type':'response_item','payload':{'type':'message','role':'assistant','content':'hello'}}".

Definition exit_output : string :=
  dq "{'timestamp':'2024-01-01T10:00:03.000Z','type':'response_item','payload':{'type':'function_call_output','call_id':'1','output':'{\'metadata\':{\'exit_code\':1}}'}}".

(** A log whose metadata record comes last. *)
Definition counted_records : list string := [user_hello; shell_call; abort].
Definition late_meta_file : list string := counted_records ++ [late_meta].

(** A corpus of one such log, never indexed before. *)
Definition late_meta_fs : FileSystem :=
  {| listJsonlFiles := fun _ => ["/logs/s.jsonl"];
     fs_stat := fun _ => Some {| mtimeMs := 1704103205000; st_size := 640 |};
     fs_lines := fun _ => late_meta_file |}.

(** The same listing and fingerprints, the content gone. *)
Definition same_fingerprint_fs : FileSystem :=
  {| listJsonlFiles := fun _ => ["/logs/s.jsonl"];
     fs_stat := fun _ => Some {| mtimeMs := 1704103205000; st_size := 640 |};
     fs_lines := fun _ => [] |}.

(** The record a line decodes to under the reference runtime. *)
Definition record (line : string) : json :=
  match Reference.json_parse line with
  | Some v => v
  | None => JNull
  end.

Definition payload_of (line : string) : json :=
  coalesce (get "payload" (Some (record line))) (JObj []).

Definition content_of (line : string) : list json :=
  match get "content" (Some (payload_of line)) with
  | Some (JArr c) => c
  | _ => []
  end.

Definition no_events : TimelineState := {| tl_events := []; callIdToName := ∅ |}.

(** A snapshot without sessions. *)
Definition empty_index : IndexSnapshot :=
  {| i_version := INDEX_VERSION; generatedAt := toISOString 0;
     i_sessionsDir := "/logs"; i_cacheDir := "/cache";
     totals := {| t_files := 0; t_sessions := 0; t_messages := 0;
                  t_toolCalls := 0; t_errors := 0 |};
     i_tools := ∅; daily := ∅; sessions := [] |}.

(** One log file is listed, and it is gone when it is examined. *)
Definition vanished_fs : FileSystem :=
  {| listJsonlFiles := fun _ => ["/logs/a.jsonl"];
     fs_stat := fun _ => None;
     fs_lines := fun _ => [] |}.

(** One log file is listed and can be read; it starts with the metadata
    of session abc. *)
Definition meta_first_fs : FileSystem :=
  {| listJsonlFiles := fun _ => ["/logs/a.jsonl"];
     fs_stat := fun _ => Some {| mtimeMs := 1704103205000; st_size := 320 |};
     fs_lines := fun _ => [early_meta; user_hello] |}.

End Examples.

(** The four records of the end-to-end example of the specification,
    with their time stamps as parameters. *)
Module EndToEnd.

Definition meta (T0 : string) : json :=
  JObj [("timestamp", JStr T0); ("type", JStr "session_meta");
        ("payload", JObj [("id", JStr "abc"); ("cwd", JStr "/tmp");
                          ("originator", JStr "cli")])].

Definition user_message (T1 : string) (content : json) : json :=
  JObj [("timestamp", JStr T1); ("type", JStr "response_item");
        ("payload", JObj [("type", JStr "message"); ("role", JStr "user");
                          ("content", content)])].

Definition shell_call (T2 args : string) : json :=
  JObj [("timestamp", JStr T2); ("type", JStr "response_item");
        ("payload", JObj [("type", JStr "function_call"); ("name", JStr "shell");
                          ("call_id", JStr "1"); ("arguments", JStr args)])].

Definition exit_text : string := dq "{'metadata':{'exit_code':1}}".

Definition exit_json : json := JObj [("metadata", JObj [("exit_code", JNum 1 0)])].

Definition shell_output (T3 : string) : json :=
  JObj [("timestamp", JStr T3); ("type", JStr "response_item");
        ("payload", JObj [("type", JStr "function_call_output"); ("call_id", JStr "1");
                          ("output", JStr exit_text)])].

(** The year of the date of a time value. *)
Definition year_of (t : Z) : Z := (civil_from_days (t / 86400000)).1.1.

End EndToEnd.

(** ** Further readings of the File Summarizer *)

Section SummarizerReadings.
Context `{JsRuntime}.

(** The time stamps of the records of a file that parse, in file order. *)
Definition stamps (l : list json) : list string :=
  omap (fun o => toIso (get "timestamp" (Some o))) l.

(** A [string | null] that is null or an ISO string. *)
Definition isoOrNull (o : option string) : Prop :=
  o = None \/ exists t, o = Some (toISOString t).

(** What the loop of [buildFileIndex] keeps true of the times it holds. *)
Definition timesKept (st : FileIndexState) : Prop :=
  isoOrNull (firstTs st) /\ isoOrNull (lastTs st) /\
  isoOrNull (startedAt (summary st)) /\
  (firstTs st = None -> lastTs st = None) /\
  durationSec (summary st) = None.

(** The identity and context fields of a summary. *)
Definition identity (s : SessionSummary)
  : json * option string * option string * option string :=
  (s_id s, cwd s, originator s, cliVersion s).

End SummarizerReadings.

(** A line that is no JSON text. *)
Definition broken_line : string := "{'timestamp': oops".

(** ** Further readings of the Index Builder *)

(** The sum of one field over the daily buckets. *)
Definition dailyTotal (f : DailyAgg -> Z) (d : gmap string DailyAgg) : Z :=
  map_fold (fun _ v a => a + f v) 0 d.

(** The listed files that [stat] finds. *)
Definition found (fs : FileSystem) (l : list string) : list string :=
  filter (fun f => is_Some (fs_stat fs f)) l.

(** The sum of [g] over a list of files. *)
Definition sumFiles (g : string -> Z) (l : list string) : Z :=
  fold_right (fun f a => g f + a) 0 l.

(** What the loop keeps true of the daily buckets, the histogram and the
    sessions it has gathered. *)
Definition aggregatesAgree
    (a : gmap string DailyAgg * gmap string Z * list SessionSummary) : Prop :=
  let '(d, t, ss) := a in
  dailyTotal d_sessions d = Z.of_nat (length ss) /\
  dailyTotal d_messages d = sum_by messages ss /\
  dailyTotal d_toolCalls d = sum_by toolCalls ss /\
  dailyTotal d_errors d = sum_by errors ss.

(** Two logs with distinct names, the second of which is later
    rewritten. *)
Module Corpus.

Definition listing : list string := ["/logs/a.jsonl"; "/logs/b.jsonl"].

Definition before : FileSystem :=
  {| listJsonlFiles := fun _ => listing;
     fs_stat := fun f => if String.eqb f "/logs/a.jsonl"
                         then Some {| mtimeMs := 1704103205000; st_size := 640 |}
                         else Some {| mtimeMs := 1704103206000; st_size := 320 |};
     fs_lines := fun f => if String.eqb f "/logs/a.jsonl"
                          then Examples.late_meta_file
                          else Examples.counted_records |}.

Definition after : FileSystem :=
  {| listJsonlFiles := fun _ => listing;
     fs_stat := fun f => if String.eqb f "/logs/a.jsonl"
                         then Some {| mtimeMs := 1704103205000; st_size := 640 |}
                         else Some {| mtimeMs := 1704103999000; st_size := 480 |};
     fs_lines := fun f => if String.eqb f "/logs/a.jsonl"
                          then Examples.late_meta_file
                          else (Examples.counted_records ++ [Examples.exit_output])%list |}.

End Corpus.

(** A previous manifest that the builder does not take over: none, or
    one of another version or of another source directory. *)
Definition unusable (sessionsDir : string) (prev : option Manifest) : Prop :=
  match prev with
  | None => True
  | Some p => m_version p <> INDEX_VERSION \/ m_sessionsDir p <> sessionsDir
  end.

(** A manifest of an older version. *)
Definition old_manifest : Manifest :=
  {| m_version := 0; m_sessionsDir := "/logs"; m_files := ∅ |}.

(** ** Further readings of the Timeline Extractor *)

#[global] Instance EventKind_eq_dec : EqDecision EventKind.
Proof. solve_decision. Defined.

(** The call id and the tool name of a tool-call record, as lines
    395-396 read them. *)
Definition callIdOf (obj : json) : option string :=
  as_string (get "call_id" (Some (coalesce (get "payload" (Some obj)) (JObj [])))).

Definition toolNameOf (obj : json) : string :=
  default "unknown"
    (as_string (get "name" (Some (coalesce (get "payload" (Some obj)) (JObj []))))).

Definition isToolOutput (obj : json) : bool :=
  is_str "response_item" (get "type" (Some obj)) &&
  (is_str "function_call_output" (payloadType obj) ||
   is_str "custom_tool_call_output" (payloadType obj)).

(** The kind of the event a record gives rise to, if any. *)
Definition eventKindOf (obj : json) : option EventKind :=
  let ty := get "type" (Some obj) in
  if is_str "event_msg" ty then
    if is_str "turn_aborted" (get "type" (get "payload" (Some obj))) then Some error
    else None
  else if is_str "response_item" ty then
    let role := get "role" (Some (coalesce (get "payload" (Some obj)) (JObj []))) in
    if is_str "message" (payloadType obj) then
      Some (if is_str "user" role then user
            else if is_str "assistant" role then assistant else other)
    else if isToolCall obj then Some tool_call
    else if isToolOutput obj then Some tool_output
    else None
  else None.

(** The number of events of a kind. *)
Definition countKind (k : EventKind) (evs : list TimelineEvent) : Z :=
  Z.of_nat (length (filter (fun e => ev_kind e = k) evs)).

(** What a record adds to the number of events of a kind. *)
Definition kindCount (k : EventKind) (obj : json) : Z :=
  if decide (eventKindOf obj = Some k) then 1 else 0.

(** An output that names its call but not its tool. *)
Definition unnamed_output : string :=
  dq "{'timestamp':'2024-01-01T10:00:03.000Z','type':'response_item','payload':{'type':'function_call_output','call_id':'1','output':'done'}}".

(** ** Further readings of the timeline query *)

Section QueryReadings.
Context `{JsRuntime}.

(** Whether the first line of a file is a metadata record with the id
    (line 359). *)
Definition startsWithMeta (fs : FileSystem) (sessionId f : string) : bool :=
  match fs_lines fs f with
  | line :: _ =>
      is_str "session_meta" (get "type" (safeJsonParse line)) &&
      is_str sessionId (get "id" (get "payload" (safeJsonParse line)))
  | [] => false
  end.

(** A listed file that the search for a metadata id opens and passes
    over. *)
Definition passedOver (fs : FileSystem) (sessionId f : string) : Prop :=
  is_Some (fs_stat fs f) /\ startsWithMeta fs sessionId f = false.

End QueryReadings.

(** Two logs are listed; the first starts with the metadata of session
    abc, the second is gone. *)
Definition half_gone_fs : FileSystem :=
  {| listJsonlFiles := fun _ => ["/logs/a.jsonl"; "/logs/b.jsonl"];
     fs_stat := fun f => if String.eqb f "/logs/a.jsonl"
                         then Some {| mtimeMs := 1704103205000; st_size := 320 |}
                         else None;
     fs_lines := fun f => if String.eqb f "/logs/a.jsonl"
                          then [Examples.early_meta; Examples.user_hello] else [] |}.

(** * Properties *)

Local Open Scope list_scope.

(** ** Facts about the builtins *)

Lemma is_str_eq (s : string) (v : option json) :
  is_str s v = true <-> v = Some (JStr s).
Proof.
  destruct v as [[]|]; simpl; try (split; [discriminate | congruence]).
  rewrite String.eqb_eq. split; congruence.
Qed.

Lemma is_str_other (s t : string) (v : option json) :
  is_str s v = true -> s <> t -> is_str t v = false.
Proof.
  intros Hs Hne. apply is_str_eq in Hs. subst v. simpl.
  apply String.eqb_neq. exact Hne.
Qed.

Lemma nonempty_empty (s : string) : nonempty (Some s) = false -> s = "".
Proof.
  simpl. intros Hs. apply negb_false_iff in Hs. now apply String.eqb_eq.
Qed.

Lemma append_nonempty (a : string) (c : ascii) (b : string) :
  nonempty (Some (a ++ String c b)%string) = true.
Proof. destruct a; reflexivity. Qed.

Lemma toISOString_nonempty (t : Z) : nonempty (Some (toISOString t)) = true.
Proof. unfold toISOString. apply append_nonempty. Qed.

(** ** The File Summarizer, record by record *)

Section SummarizerFacts.
Context `{JsRuntime}.

(** The exit-code test of the code is the condition of the
    specification behind a gate: the text must start with a brace. *)
Lemma exitCodeError_gate (out : string) :
  exitCodeError out = startsWith "{" out && exposesExitCode out.
Proof.
  unfold exitCodeError, exposesExitCode. f_equal.
  destruct (JSON_parse out) as [[]|]; reflexivity.
Qed.

(** On a response item only the time stamps and lines 164-197 act. *)
Lemma summarizeRecord_response (sessionId file : string) (st : FileIndexState) (obj : json) :
  get "type" (Some obj) = Some (JStr "response_item") ->
  summarizeRecord sessionId file st obj = responseRecord obj (stampRecord obj st).
Proof.
  intros Hty. unfold summarizeRecord, eventRecord, metaRecord. now rewrite Hty.
Qed.

Lemma stampRecord_summary (obj : json) (st : FileIndexState) :
  summary (stampRecord obj st) = summary st /\ tools (stampRecord obj st) = tools st.
Proof. unfold stampRecord. destruct (nonempty _); auto. Qed.

(** C3, as the code has it. An output record adds one error when its
    output is a string that contains 'error', 'exception' or 'traceback'
    in any letter case, and one more when it is a string that starts
    with a brace and parses as a JSON object whose metadata holds a
    numeric exit code other than zero: it adds nothing when neither
    holds, as when the output is no string, and two when both hold.  The
    message and tool-call counters and the histogram stay. *)
Theorem output_record_errors (sessionId file : string) (st : FileIndexState)
    (obj payload : json) :
  get "type" (Some obj) = Some (JStr "response_item") ->
  coalesce (get "payload" (Some obj)) (JObj []) = payload ->
  get "type" (Some payload) = Some (JStr "function_call_output") \/
  get "type" (Some payload) = Some (JStr "custom_tool_call_output") ->
  let st' := summarizeRecord sessionId file st obj in
  errors (summary st') =
    errors (summary st) +
    match get "output" (Some payload) with
    | Some (JStr out) =>
        (if error_pattern out then 1 else 0)
        + (if startsWith "{" out && exposesExitCode out then 1 else 0)
    | _ => 0
    end /\
  messages (summary st') = messages (summary st) /\
  toolCalls (summary st') = toolCalls (summary st) /\
  tools st' = tools st.
Proof.
  intros Hty Hp Hpt st'. subst st'.
  rewrite (summarizeRecord_response _ _ _ _ Hty).
  destruct (stampRecord_summary obj st) as [Hs Ht].
  unfold responseRecord. rewrite Hty, Hp.
  assert (Hbr : (is_str "message" (get "type" (Some payload)) = false) /\
                (is_str "function_call" (get "type" (Some payload)) ||
                 is_str "custom_tool_call" (get "type" (Some payload)) = false) /\
                (is_str "function_call_output" (get "type" (Some payload)) ||
                 is_str "custom_tool_call_output" (get "type" (Some payload)) = true)).
  { destruct Hpt as [-> | ->]; repeat split; reflexivity. }
  destruct Hbr as (-> & -> & ->). cbn [is_str String.eqb Ascii.eqb Bool.eqb].
  cbn [with_summary summary tools add_errors errors messages toolCalls].
  rewrite Hs, Ht. repeat split.
  f_equal. unfold outputErrors.
  destruct (get "output" (Some payload)) as [[| | | out | |]|]; try reflexivity.
  cbn [as_string]. rewrite <- exitCodeError_gate.
  destruct (nonempty (Some out)) eqn:Hne; [reflexivity|].
  apply nonempty_empty in Hne. subst out.
  unfold exitCodeError. reflexivity.
Qed.

(** A metadata record leaves the three counters at zero, whatever they
    were; the histogram is kept. *)
Lemma metaRecord_resets (sessionId file : string) (st : FileIndexState) (obj : json) :
  get "type" (Some obj) = Some (JStr "session_meta") ->
  let st' := summarizeRecord sessionId file st obj in
  messages (summary st') = 0 /\ toolCalls (summary st') = 0 /\
  errors (summary st') = 0 /\ tools st' = tools st.
Proof.
  intros Hty st'. subst st'.
  unfold summarizeRecord, responseRecord, eventRecord, metaRecord. rewrite Hty.
  cbn [is_str String.eqb Ascii.eqb Bool.eqb summary tools summarizeFromMeta
       messages toolCalls errors].
  repeat split. apply stampRecord_summary.
Qed.

Lemma histogramTotal_insert (name : string) (v : Z) (t : gmap string Z) :
  t !! name = None -> histogramTotal (<[name := v]> t) = histogramTotal t + v.
Proof.
  intros Hn. unfold histogramTotal.
  rewrite map_fold_insert_L; [reflexivity | intros; lia | exact Hn].
Qed.

Lemma histogramTotal_bump (name : string) (n : Z) (t : gmap string Z) :
  histogramTotal (bump name n t) = histogramTotal t + n.
Proof.
  unfold bump. destruct (t !! name) as [v|] eqn:Hl; simpl.
  - rewrite <- (insert_delete_id t name v Hl) at 2.
    rewrite <- insert_delete_eq.
    rewrite !histogramTotal_insert by apply lookup_delete_eq. lia.
  - now rewrite histogramTotal_insert.
Qed.

Lemma summarize_decoded (sessionId file : string) (lines : list string) (st : FileIndexState) :
  fold_left (summarizeLine sessionId file) lines st =
  fold_left (summarizeRecord sessionId file) (decoded lines) st.
Proof.
  revert st. induction lines as [|line r IH]; intros st; [reflexivity|].
  cbn [fold_left]. rewrite IH. unfold decoded. cbn [omap list_omap].
  unfold summarizeLine.
  destruct (safeJsonParse line) as [obj|]; [destruct (truthy obj)|]; reflexivity.
Qed.

(** What one record does to the histogram and to the three counters. *)
Lemma summarizeRecord_counters (sessionId file : string) (st : FileIndexState) (obj : json) :
  let st' := summarizeRecord sessionId file st obj in
  histogramTotal (tools st') = histogramTotal (tools st) + callCount obj /\
  messages (summary st') =
    (if isMeta obj then 0 else messages (summary st) + messageCount obj) /\
  toolCalls (summary st') =
    (if isMeta obj then 0 else toolCalls (summary st) + callCount obj) /\
  errors (summary st') =
    (if isMeta obj then 0 else errors (summary st) + errorCount obj).
Proof.
  destruct (stampRecord_summary obj st) as [Hs Ht].
  unfold summarizeRecord, isMeta, callCount, isToolCall, messageCount, errorCount,
    payloadType, responseRecord, eventRecord, metaRecord.
  set (st0 := stampRecord obj st) in *. clearbody st0.
  set (ty := get "type" (Some obj)).
  set (payload := coalesce (get "payload" (Some obj)) (JObj [])).
  set (pt := get "type" (Some payload)).
  destruct (is_str "session_meta" ty) eqn:Hm.
  - rewrite (is_str_other _ "event_msg" _ Hm) by discriminate.
    rewrite (is_str_other _ "response_item" _ Hm) by discriminate.
    cbn. rewrite Ht. repeat split. lia.
  - destruct (is_str "event_msg" ty) eqn:He.
    + rewrite (is_str_other _ "response_item" _ He) by discriminate.
      destruct (is_str "turn_aborted" _); cbn; rewrite <- ?Hs, ?Ht; repeat split; lia.
    + destruct (is_str "response_item" ty);
        [|cbn; rewrite <- Hs, Ht; repeat split; lia].
      destruct (is_str "message" pt) eqn:Hmsg.
      * rewrite (is_str_other _ "function_call" _ Hmsg) by discriminate.
        rewrite (is_str_other _ "custom_tool_call" _ Hmsg) by discriminate.
        rewrite (is_str_other _ "function_call_output" _ Hmsg) by discriminate.
        rewrite (is_str_other _ "custom_tool_call_output" _ Hmsg) by discriminate.
        destruct (_ || _); cbn; rewrite <- ?Hs, ?Ht; repeat split; lia.
      * destruct (is_str "function_call" pt) eqn:Hf.
        { rewrite (is_str_other _ "function_call_output" _ Hf) by discriminate.
          rewrite (is_str_other _ "custom_tool_call_output" _ Hf) by discriminate.
          cbn. rewrite histogramTotal_bump, <- Hs, Ht. repeat split; lia. }
        destruct (is_str "custom_tool_call" pt) eqn:Hc.
        { rewrite (is_str_other _ "function_call_output" _ Hc) by discriminate.
          rewrite (is_str_other _ "custom_tool_call_output" _ Hc) by discriminate.
          cbn. rewrite histogramTotal_bump, <- Hs, Ht. repeat split; lia. }
        cbn [orb andb]. destruct (_ || _); cbn; rewrite <- ?Hs, ?Ht; repeat split; lia.
Qed.

Lemma fold_histogram (sessionId file : string) (l : list json) (st : FileIndexState) :
  histogramTotal (tools (fold_left (summarizeRecord sessionId file) l st)) =
  histogramTotal (tools st) + sumOver callCount l.
Proof.
  unfold sumOver. revert st.
  induction l as [|o r IH]; intros st; cbn [fold_left fold_right].
  - lia.
  - rewrite IH. destruct (summarizeRecord_counters sessionId file st o) as [-> _]. lia.
Qed.

(** A counter that every metadata record puts back to zero and every
    other record raises by [f] ends as the sum of [f] over the records
    after the last metadata record. *)
Lemma fold_counter (sessionId file : string) (c : SessionSummary -> Z) (f : json -> Z) :
  (forall st obj, c (summary (summarizeRecord sessionId file st obj)) =
                  if isMeta obj then 0 else c (summary st) + f obj) ->
  forall l st,
    c (summary (fold_left (summarizeRecord sessionId file) l st)) =
    if existsb isMeta l then sumOver f (afterLastMeta l)
    else c (summary st) + sumOver f l.
Proof.
  intros Hstep. unfold sumOver. induction l as [|o r IH]; intros st;
    cbn [fold_left existsb afterLastMeta fold_right].
  - lia.
  - rewrite IH, Hstep.
    destruct (existsb isMeta r); [now rewrite orb_true_r|].
    rewrite orb_false_r. destruct (isMeta o); cbn [fold_right]; lia.
Qed.

Lemma afterLastMeta_none (l : list json) :
  existsb isMeta l = false -> afterLastMeta l = l.
Proof.
  induction l as [|o r IH]; [reflexivity|].
  cbn [existsb afterLastMeta]. intros He. apply orb_false_iff in He as [Ho Hr].
  now rewrite Hr, Ho.
Qed.

(** X1. What the File Summarizer counts.  The histogram counts every tool
    call of the file; the three counters of the summary count the
    records after the last metadata record only. *)
Theorem counters_after_last_meta (file : string) (lines : list string) :
  let r := buildFileIndex file lines in
  let rest := afterLastMeta (decoded lines) in
  histogramTotal (fi_tools r) = sumOver callCount (decoded lines) /\
  messages (fi_summary r) = sumOver messageCount rest /\
  toolCalls (fi_summary r) = sumOver callCount rest /\
  errors (fi_summary r) = sumOver errorCount rest.
Proof.
  unfold buildFileIndex, finishFileIndex.
  cbn [fi_tools fi_summary set_times messages toolCalls errors].
  rewrite summarize_decoded, fold_histogram.
  set (sid := basename file ".jsonl").
  rewrite (fold_counter sid file messages messageCount
             ltac:(intros; apply summarizeRecord_counters)).
  rewrite (fold_counter sid file toolCalls callCount
             ltac:(intros; apply summarizeRecord_counters)).
  rewrite (fold_counter sid file errors errorCount
             ltac:(intros; apply summarizeRecord_counters)).
  unfold initialState, emptySummary. cbn [tools summary messages toolCalls errors].
  split; [reflexivity|].
  destruct (existsb isMeta (decoded lines)) eqn:He; [repeat split|].
  rewrite (afterLastMeta_none _ He). repeat split.
Qed.

End SummarizerFacts.

(** ** The end-to-end example *)

Lemma length_pad (w : nat) (n : Z) (acc : string) :
  String.length (pad w n acc) = (w + String.length acc)%nat.
Proof.
  revert n acc. induction w as [|w IH]; intros n acc; simpl; [reflexivity|].
  rewrite IH. simpl. lia.
Qed.

Lemma length_append (a b : string) :
  String.length (a ++ b)%string = (String.length a + String.length b)%nat.
Proof. induction a as [|c a IH]; simpl; [reflexivity | now rewrite IH]. Qed.

Lemma slice0_append (a b : string) :
  slice0 (String.length a) (a ++ b)%string = a.
Proof.
  induction a as [|c a IH]; simpl.
  - destruct b; reflexivity.
  - now rewrite IH.
Qed.

(** For the years 0 to 9999 the first ten characters of the ISO string
    are the calendar date. *)
Lemma slice0_toISOString (t : Z) :
  0 <= EndToEnd.year_of t <= 9999 ->
  slice0 10 (toISOString t) = date_string t.
Proof.
  intros Hy. unfold toISOString.
  assert (Hlen : String.length (date_string t) = 10%nat).
  { unfold date_string, EndToEnd.year_of in *.
    destruct (civil_from_days (t / 86400000)) as [[y m] d]. simpl in Hy.
    unfold year_string.
    replace ((0 <=? y) && (y <=? 9999)) with true
      by (symmetry; apply andb_true_iff; split; apply Z.leb_le; lia).
    rewrite !length_append, !length_pad. reflexivity. }
  rewrite <- Hlen at 1. apply slice0_append.
Qed.

Section EndToEndFacts.
Context `{JsRuntime}.

Lemma toIso_parsed (T : string) (t : Z) :
  Date_parse T = Some t -> Z.abs t <= 8640000000000000 ->
  toIso (Some (JStr T)) = Some (toISOString t).
Proof.
  intros HT Hr. unfold toIso, Date_getTime. rewrite HT.
  now replace (Z.abs t <=? 8640000000000000) with true by (symmetry; apply Z.leb_le; lia).
Qed.

(** The time stamps of a record whose stamp parses. *)
Lemma stampRecord_parsed (obj : json) (T : string) (t : Z) (st : FileIndexState) :
  get "timestamp" (Some obj) = Some (JStr T) ->
  toIso (Some (JStr T)) = Some (toISOString t) ->
  stampRecord obj st =
    {| summary := summary st; tools := tools st;
       callIdToToolName := callIdToToolName st;
       firstTs := if nonempty (firstTs st) then firstTs st else Some (toISOString t);
       lastTs := Some (toISOString t) |}.
Proof.
  intros Hg Hi. unfold stampRecord. rewrite Hg, Hi.
  now rewrite toISOString_nonempty.
Qed.

Lemma Date_getTime_iso (t : Z) :
  Date_parse (toISOString t) = Some t -> Z.abs t <= 8640000000000000 ->
  Date_getTime (toISOString t) = Some t.
Proof.
  intros Hp Hr. unfold Date_getTime. rewrite Hp.
  now replace (Z.abs t <=? 8640000000000000) with true by (symmetry; apply Z.leb_le; lia).
Qed.

Lemma nonempty_String (c : ascii) (s : string) : nonempty (Some (String c s)) = true.
Proof. reflexivity. Qed.

Lemma bump_fresh (name : string) (n : Z) : bump name n ∅ = {[ name := n ]}.
Proof. unfold bump. rewrite lookup_empty. simpl. reflexivity. Qed.

(** C7. The log of four records, a metadata record (id abc, time T0,
    working directory /tmp, originator cli), a user message at T0 + 1 s,
    a call of the tool shell with call id 1 at T0 + 2 s and its output at
    T0 + 3 s whose text is the JSON object with metadata exit code 1, is
    summarized as one message, one tool call, one error, started at T0,
    ended at T0 + 3 s, lasting 3 seconds, with the histogram that maps
    shell to 1 and the calendar date of T0 (in UTC) as daily key.  The
    hypotheses say what the runtime makes of the four lines, of the
    output text and of the time stamps, that it reads back the ISO
    strings of T0 and T0 + 3 s, and keep T0 within the years 0 to 9999. *)
Theorem end_to_end_example (file l0 l1 l2 l3 T0 T1 T2 T3 args : string) (content : json) (t0 : Z) :
  JSON_parse l0 = Some (EndToEnd.meta T0) ->
  JSON_parse l1 = Some (EndToEnd.user_message T1 content) ->
  JSON_parse l2 = Some (EndToEnd.shell_call T2 args) ->
  JSON_parse l3 = Some (EndToEnd.shell_output T3) ->
  JSON_parse EndToEnd.exit_text = Some EndToEnd.exit_json ->
  Date_parse T0 = Some t0 ->
  Date_parse T1 = Some (t0 + 1000) ->
  Date_parse T2 = Some (t0 + 2000) ->
  Date_parse T3 = Some (t0 + 3000) ->
  Date_parse (toISOString t0) = Some t0 ->
  Date_parse (toISOString (t0 + 3000)) = Some (t0 + 3000) ->
  - 8640000000000000 <= t0 <= 8640000000000000 - 3000 ->
  0 <= EndToEnd.year_of t0 <= 9999 ->
  buildFileIndex file [l0; l1; l2; l3] =
    {| fi_sessionId := basename file ".jsonl";
       fi_summary :=
         {| s_id := JStr "abc"; s_file := file;
            startedAt := Some (toISOString t0);
            endedAt := Some (toISOString (t0 + 3000));
            durationSec := Some 3;
            cwd := Some "/tmp"; originator := Some "cli"; cliVersion := None;
            messages := 1; toolCalls := 1; errors := 1 |};
       fi_tools := {[ "shell" := 1 ]};
       fi_dailyKey := date_string t0 |}.
Proof.
  intros P0 P1 P2 P3 PX D0 D1 D2 D3 R0 R3 Hr Hy.
  assert (I0 := toIso_parsed T0 t0 D0 ltac:(lia)).
  assert (I1 := toIso_parsed T1 _ D1 ltac:(lia)).
  assert (I2 := toIso_parsed T2 _ D2 ltac:(lia)).
  assert (I3 := toIso_parsed T3 _ D3 ltac:(lia)).
  unfold buildFileIndex. cbn [fold_left].
  unfold summarizeLine, safeJsonParse. rewrite P0, P1, P2, P3.
  cbn [truthy EndToEnd.meta EndToEnd.user_message EndToEnd.shell_call EndToEnd.shell_output].
  set (sid := basename file ".jsonl").
  assert (G0 := Date_getTime_iso t0 R0 ltac:(lia)).
  assert (G3 := Date_getTime_iso (t0 + 3000) R3 ltac:(lia)).
  assert (X1 : nonempty (Some EndToEnd.exit_text) = true) by reflexivity.
  assert (X2 : error_pattern EndToEnd.exit_text = false) by (vm_compute; reflexivity).
  assert (X3 : exitCodeError EndToEnd.exit_text = true).
  { unfold exitCodeError. rewrite PX. reflexivity. }
  assert (X4 : (t0 <=? t0 + 3000) = true) by (apply Z.leb_le; lia).
  assert (X5 : (t0 + 3000 - t0) / 1000 = 3) by (now replace (t0 + 3000 - t0) with 3000 by lia).
  unfold summarizeRecord.
  rewrite (stampRecord_parsed (EndToEnd.meta T0) T0 _ _ eq_refl I0).
  rewrite (stampRecord_parsed (EndToEnd.user_message T1 content) T1 _ _ eq_refl I1).
  rewrite (stampRecord_parsed (EndToEnd.shell_call T2 args) T2 _ _ eq_refl I2).
  rewrite (stampRecord_parsed (EndToEnd.shell_output T3) T3 _ _ eq_refl I3).
  unfold finishFileIndex, dayKeyFromIso.
  repeat (progress (cbn -[toISOString nonempty Z.add Z.sub Z.div Z.leb Z.abs bump insert
                          error_pattern exitCodeError EndToEnd.exit_text toIso
                          date_string Date_getTime slice0];
                    change (nonempty None) with false;
                    rewrite ?I0, ?I1, ?I2, ?I3, ?toISOString_nonempty, ?nonempty_String,
                      ?X1, ?X2, ?X3, ?G0, ?G3, ?X4, ?X5)).
  rewrite bump_fresh, (slice0_toISOString t0 Hy).
  unfold summarizeFromMeta.
  change (get "timestamp" (Some (EndToEnd.meta T0))) with (Some (JStr T0)).
  rewrite I0. reflexivity.
Qed.

End EndToEndFacts.

(** ** The Timeline Extractor, record by record *)

Section TimelineFacts.
Context `{JsRuntime}.

(** Overwriting the event just pushed. *)
Lemma set_last_push (e e' : TimelineEvent) (st : TimelineState) :
  set_last e' (push e st) = push e' st.
Proof.
  unfold set_last, push. simpl. f_equal.
  rewrite length_app. simpl.
  replace (length (tl_events st) + 1 - 1)%nat with (length (tl_events st) + 0)%nat by lia.
  rewrite insert_app_r. reflexivity.
Qed.

(** A record adds no event or one event, at the end; the event bears
    the time stamp of the record and a text. *)
Lemma timelineRecord_events (st : TimelineState) (obj : json) :
  exists new : list TimelineEvent,
    tl_events (timelineRecord st obj) = tl_events st ++ new /\
    (length new <= 1)%nat /\
    Forall (fun e => ev_ts e = recordTs obj /\ exists t, ev_text e = Some t) new.
Proof.
  unfold timelineRecord, recordTs.
  set (ts := default "" (toIso (get "timestamp" (Some obj)))).
  assert (Hts : ts = match toIso (get "timestamp" (Some obj)) with
                     | Some iso => iso | None => "" end).
  { subst ts. destruct (toIso _); reflexivity. }
  rewrite <- Hts. clearbody ts. clear Hts.
  set (ty := get "type" (Some obj)).
  destruct (is_str "event_msg" ty) eqn:Hev.
  - assert (Hri : is_str "response_item" ty = false)
      by (eapply is_str_other; [exact Hev | discriminate]).
    rewrite Hri. simpl.
    destruct (is_str "turn_aborted" _).
    + eexists [_]. simpl. repeat split; [lia|]. repeat constructor. eauto.
    + exists []. rewrite app_nil_r. repeat split; [simpl; lia | constructor].
  - cbn [andb]. destruct (is_str "response_item" ty).
    2:{ exists []. rewrite app_nil_r. repeat split; [simpl; lia | constructor]. }
    set (payload := coalesce (get "payload" (Some obj)) (JObj [])).
    destruct (is_str "message" _).
    { eexists [_]. simpl. repeat split; [lia|]. repeat constructor. eauto. }
    destruct (_ || _).
    { match goal with |- context [push _ ?s] => set (st1 := s) end.
      assert (Hst1 : tl_events st1 = tl_events st).
      { subst st1. destruct (as_string (get "call_id" (Some payload))); [|reflexivity].
        destruct (nonempty _); reflexivity. }
      clearbody st1.
      destruct (as_string (get "input" (Some payload))) as [i|].
      - destruct (negb _ && _).
        + rewrite set_last_push. simpl. rewrite Hst1.
          eexists [_]. repeat split; [simpl; lia|]. repeat constructor. simpl. eauto.
        + simpl. rewrite Hst1.
          eexists [_]. repeat split; [simpl; lia|]. repeat constructor. simpl. eauto.
      - simpl. rewrite Hst1.
        eexists [_]. repeat split; [simpl; lia|]. repeat constructor. simpl. eauto. }
    destruct (_ || _).
    { eexists [_]. simpl. repeat split; [lia|]. repeat constructor. simpl. eauto. }
    exists []. rewrite app_nil_r. repeat split; [simpl; lia | constructor].
Qed.

Lemma timelineLine_events (st : TimelineState) (line : string) :
  exists new : list TimelineEvent,
    tl_events (timelineLine st line) = tl_events st ++ new /\ (length new <= 1)%nat.
Proof.
  unfold timelineLine.
  destruct (safeJsonParse line) as [obj|]; [destruct (truthy obj)|].
  - destruct (timelineRecord_events st obj) as (new & Hn & Hl & _). eauto.
  - exists []. rewrite app_nil_r. simpl. auto.
  - exists []. rewrite app_nil_r. simpl. auto.
Qed.

Lemma timelineAll_extends (lines : list string) (st : TimelineState) :
  exists more : list TimelineEvent,
    tl_events (fold_left timelineLine lines st) = tl_events st ++ more.
Proof.
  revert st. induction lines as [|line rest IH]; intros st; simpl.
  - exists []. now rewrite app_nil_r.
  - destruct (IH (timelineLine st line)) as (more & Hm).
    destruct (timelineLine_events st line) as (new & Hn & _).
    exists (new ++ more). rewrite Hm, Hn. now rewrite app_assoc.
Qed.

(** The capped loop against the uncapped one: either it stopped with
    exactly [cap] events, the first [cap] of all, or it ran to the end
    and fewer than [cap] events exist. *)
Lemma timelineLoop_spec (cap : nat) (lines : list string) (st : TimelineState) :
  (length (tl_events st) < cap)%nat ->
  let all := tl_events (fold_left timelineLine lines st) in
  let '(st', trunc) := timelineLoop cap lines st in
  (trunc = true /\ length (tl_events st') = cap /\ tl_events st' = firstn cap all) \/
  (trunc = false /\ tl_events st' = all /\ (length all < cap)%nat).
Proof.
  revert st. induction lines as [|line rest IH]; intros st Hlt; simpl.
  - right. auto.
  - pose proof (timelineLine_events st line) as (new & Hn & Hl).
    unfold timelineLine in *.
    destruct (safeJsonParse line) as [obj|]; [destruct (truthy obj)|].
    + destruct (Nat.leb_spec cap (length (tl_events (timelineRecord st obj)))) as [Hge|Hlt'].
      * left. assert (Hlen : length (tl_events (timelineRecord st obj)) = cap).
        { rewrite Hn, length_app in *. lia. }
        split; [reflexivity|]. split; [exact Hlen|].
        destruct (timelineAll_extends rest (timelineRecord st obj)) as (more & Hm).
        fold timelineLine. unfold timelineLine at 1 in Hm.
        unfold timelineLine. rewrite Hm.
        rewrite firstn_app, Hlen, Nat.sub_diag. simpl. rewrite app_nil_r.
        rewrite <- Hlen at 1. now rewrite firstn_all.
      * apply IH. exact Hlt'.
    + apply IH. exact Hlt.
    + apply IH. exact Hlt.
Qed.

(** A property of the events of every record holds of every event of
    the extracted timeline. *)
Lemma timelineLoop_Forall (P : TimelineEvent -> Prop) (cap : nat) :
  (forall st obj new, tl_events (timelineRecord st obj) = tl_events st ++ new ->
                      Forall P new) ->
  forall lines st, Forall P (tl_events st) ->
                   Forall P (tl_events (timelineLoop cap lines st).1).
Proof.
  intros HP. induction lines as [|line rest IH]; intros st Hst; simpl; [exact Hst|].
  destruct (safeJsonParse line) as [obj|]; [destruct (truthy obj)|]; try (apply IH; exact Hst).
  destruct (timelineRecord_events st obj) as (new & Hn & _).
  assert (Forall P (tl_events (timelineRecord st obj))).
  { rewrite Hn. apply Forall_app. split; [exact Hst | eapply HP; exact Hn]. }
  destruct (_ <=? _)%nat; [assumption | now apply IH].
Qed.

Lemma toIso_cases (v : option json) :
  toIso v = None \/ exists t, toIso v = Some (toISOString t).
Proof.
  unfold toIso. destruct v as [[]|]; auto.
  destruct (Date_getTime s); eauto.
Qed.

Lemma extractMessageText_parts (payload : option json) (content : list json) :
  get "content" payload = Some (JArr content) ->
  extractMessageText payload =
    let txt := trim (join (String "010" "") (textParts content)) in
    if nonempty (Some txt) then Some txt else None.
Proof.
  intros Hc. unfold extractMessageText. rewrite Hc.
  match goal with |- context [fold_left ?f content []] =>
    assert (Hparts : forall acc, fold_left f content acc = acc ++ textParts content)
  end.
  { clear Hc. induction content as [|c rest IH]; intros acc.
    - simpl. now rewrite app_nil_r.
    - cbn [fold_left]. rewrite IH. unfold textParts. cbn [omap list_omap].
      destruct (as_string (get "text" (Some c))) as [t|]; [|reflexivity].
      destruct (is_str "input_text" _); [|destruct (is_str "output_text" _)];
        now rewrite <- app_assoc. }
  rewrite Hparts. reflexivity.
Qed.

(** C4. Timeline extraction emits at most 5000 events.  When the file
    gives rise to more than 5000 qualifying events the response is marked
    truncated and holds exactly the first 5000 of them, in file order;
    when it gives rise to fewer than 5000, the response holds them all,
    in order, and is not marked truncated. *)
Theorem timeline_truncation (lines : list string) (s : SessionSummary) :
  let r := buildTimeline lines s in
  let all := qualifyingEvents lines in
  Z.of_nat (length (events r)) <= 5000 /\
  (5000 < Z.of_nat (length all) ->
   truncated r = true /\ Z.of_nat (length (events r)) = 5000 /\
   events r = firstn (Z.to_nat 5000) all) /\
  (Z.of_nat (length all) < 5000 -> truncated r = false /\ events r = all).
Proof.
  unfold buildTimeline, qualifyingEvents.
  pose proof (timelineLoop_spec maxEvents lines {| tl_events := []; callIdToName := ∅ |}) as Hl.
  assert (Hcap : Z.of_nat maxEvents = 5000) by (unfold maxEvents; lia).
  destruct (timelineLoop maxEvents lines _) as [st' trunc]. simpl in *.
  destruct Hl as [(Ht & Hlen & Hev) | (Ht & Hev & Hlen)]; [lia | |].
  - assert (Hall : (maxEvents <= length (tl_events
                      (fold_left timelineLine lines
                         {| tl_events := []; callIdToName := ∅ |})))%nat).
    { rewrite Hev, length_take in Hlen. lia. }
    split; [lia|]. split; [|intros; lia].
    intros _. split; [exact Ht|]. split; [lia | exact Hev].
  - rewrite Hev. split; [lia|]. split; [intros; lia|].
    intros _. split; [exact Ht | reflexivity].
Qed.

(** C10. Every event of the extracted timeline carries a time stamp that
    is an ISO string or the empty string; the events of a record whose
    time stamp is missing or does not parse carry the empty string. *)
Theorem timeline_ts_iso_or_empty (lines : list string) (s : SessionSummary) :
  Forall (fun e => ev_ts e = "" \/ exists t, ev_ts e = toISOString t)
         (events (buildTimeline lines s)) /\
  (forall st obj,
     toIso (get "timestamp" (Some obj)) = None ->
     exists new, tl_events (timelineRecord st obj) = tl_events st ++ new /\
                 Forall (fun e => ev_ts e = "") new).
Proof.
  split.
  - unfold buildTimeline.
    pose proof (timelineLoop_Forall
                  (fun e => ev_ts e = "" \/ exists t, ev_ts e = toISOString t) maxEvents) as HF.
    specialize (HF ltac:(
      intros st obj new Hn;
      destruct (timelineRecord_events st obj) as (new' & Hn' & _ & Hts);
      rewrite Hn' in Hn; apply app_inv_head in Hn; subst new';
      eapply Forall_impl; [exact Hts|];
      intros e [He _]; rewrite He; unfold recordTs;
      destruct (toIso_cases (get "timestamp" (Some obj))) as [-> | [t ->]]; eauto)).
    specialize (HF lines {| tl_events := []; callIdToName := ∅ |} (List.Forall_nil _)).
    destruct (timelineLoop maxEvents lines _) as [st' trunc]. exact HF.
  - intros st obj Hnone.
    destruct (timelineRecord_events st obj) as (new & Hn & _ & Hts).
    exists new. split; [exact Hn|].
    eapply Forall_impl; [exact Hts|].
    intros e [He _]. rewrite He. unfold recordTs. now rewrite Hnone.
Qed.

(** The text of the event of a message record: the fragments of its
    content, joined by newline and trimmed; a string in every case. *)
Lemma message_event_text (st : TimelineState) (obj payload : json) :
  get "type" (Some obj) = Some (JStr "response_item") ->
  coalesce (get "payload" (Some obj)) (JObj []) = payload ->
  get "type" (Some payload) = Some (JStr "message") ->
  exists e, tl_events (timelineRecord st obj) = tl_events st ++ [e] /\
            ev_text e = Some (trim (join (String "010" "") (contentParts payload))).
Proof.
  intros Hty Hp Hpt.
  unfold timelineRecord. rewrite Hty, Hp, Hpt. cbn [is_str String.eqb Ascii.eqb Bool.eqb andb].
  assert (Htext : default "" (extractMessageText (Some payload)) =
                  trim (join (String "010" "") (contentParts payload))).
  { unfold contentParts.
    destruct (get "content" (Some payload)) as [[| | | | content |]|] eqn:Hc;
      try (unfold extractMessageText; rewrite Hc; reflexivity).
    rewrite (extractMessageText_parts _ _ Hc). cbv zeta.
    destruct (nonempty _) eqn:Hne; [reflexivity|].
    apply nonempty_empty in Hne. now rewrite Hne. }
  destruct (is_str "user" _); [|destruct (is_str "assistant" _)];
    (eexists; split; [reflexivity|]; cbn [ev_text]; now rewrite <- Htext).
Qed.

(** C8, as the code has it. A message record whose text fragments, joined
    by newline and trimmed, are empty gives rise to one event whose text
    is the empty string; so does in particular a message record whose
    content is missing or is no array, which has no fragments. *)
Theorem empty_message_text (st : TimelineState) (obj payload : json) :
  get "type" (Some obj) = Some (JStr "response_item") ->
  coalesce (get "payload" (Some obj)) (JObj []) = payload ->
  get "type" (Some payload) = Some (JStr "message") ->
  trim (join (String "010" "") (contentParts payload)) = "" ->
  exists e, tl_events (timelineRecord st obj) = tl_events st ++ [e] /\
            ev_text e = Some "".
Proof.
  intros Hty Hp Hpt Hempty.
  destruct (message_event_text st obj payload Hty Hp Hpt) as (e & He & Ht).
  exists e. split; [exact He|]. now rewrite Ht, Hempty.
Qed.

End TimelineFacts.

(** ** The Index Builder *)

Section BuilderFacts.
Context `{JsRuntime}.

Lemma entryFor_reusable (fs : FileSystem) (F : gmap string ManifestEntry)
    (file : string) (st : Stats) :
  reusable (entryFor fs F file st) st = true.
Proof.
  unfold entryFor.
  assert (Hb : reusable (builtEntry fs file st) st = true).
  { unfold reusable, builtEntry. simpl. now rewrite !Z.eqb_refl. }
  destruct (F !! file) as [prev|]; [|exact Hb].
  destruct (reusable prev st) eqn:Hr; [exact Hr | exact Hb].
Qed.

(** Writing the entry of a file does not change what any file ends up
    with. *)
Lemma entryFor_insert (fs : FileSystem) (F : gmap string ManifestEntry)
    (f g : string) (st st' : Stats) :
  (g = f -> st' = st) ->
  entryFor fs (<[f := entryFor fs F f st]> F) g st' = entryFor fs F g st'.
Proof.
  intros Hfg. destruct (decide (g = f)) as [->|Hne].
  - rewrite (Hfg eq_refl). unfold entryFor at 1. rewrite lookup_insert_eq.
    now rewrite entryFor_reusable.
  - unfold entryFor at 1 3. rewrite lookup_insert_ne by congruence. reflexivity.
Qed.

(** One turn of the loop on a file that [stat] finds. *)
Lemma indexFile_found (fs : FileSystem) (b : BuildState) (file : string) (st : Stats) :
  fs_stat fs file = Some st ->
  let e := entryFor fs (b_files b) file st in
  b_files (indexFile fs b file) = <[file := e]> (b_files b) /\
  aggregates (indexFile fs b file) = addEntry (aggregates b) e.
Proof.
  intros Hst. unfold indexFile, entryFor. rewrite Hst.
  destruct (b_files b !! file) as [prev|] eqn:Hl; [destruct (reusable prev st)|].
  - split; [|reflexivity]. simpl. symmetry. now apply insert_id.
  - split; reflexivity.
  - split; reflexivity.
Qed.

Lemma contribution_insert (fs : FileSystem) (F : gmap string ManifestEntry)
    (f : string) (st : Stats) (l : list string) :
  fs_stat fs f = Some st ->
  omap (contribution fs (<[f := entryFor fs F f st]> F)) l = omap (contribution fs F) l.
Proof.
  intros Hst. apply list_omap_ext, Forall2_same_length_lookup. split; [reflexivity|].
  intros i g g' Hg Hg'. assert (g' = g) by congruence. subst g'.
  unfold contribution. destruct (fs_stat fs g) as [st'|] eqn:Hst'; [|reflexivity].
  f_equal. apply entryFor_insert. intros ->. congruence.
Qed.

(** The loop touches the entries of the files it goes through only. *)
Lemma indexFiles_other (fs : FileSystem) (f : string) (l : list string) (b : BuildState) :
  f ∉ l -> b_files (fold_left (indexFile fs) l b) !! f = b_files b !! f.
Proof.
  revert b. induction l as [|g r IH]; intros b Hn; [reflexivity|].
  cbn [fold_left]. rewrite IH by (intros ?; apply Hn; now right).
  unfold indexFile. destruct (fs_stat fs g) as [sg|]; [|reflexivity].
  assert (g <> f) by (intros ->; apply Hn; now left).
  destruct (b_files b !! g) as [prev|]; [destruct (reusable prev sg)|];
    simpl; try reflexivity; now rewrite lookup_insert_ne.
Qed.

(** The whole loop: its aggregates are those of the entries the files
    end up with, in discovery order, and these entries are what the
    manifest then holds. *)
Lemma indexFiles_spec (fs : FileSystem) (l : list string) (b : BuildState) :
  let b' := fold_left (indexFile fs) l b in
  aggregates b' = fold_left addEntry (omap (contribution fs (b_files b)) l) (aggregates b) /\
  (forall g st, g ∈ l -> fs_stat fs g = Some st ->
                b_files b' !! g = Some (entryFor fs (b_files b) g st)).
Proof.
  revert b. induction l as [|f r IH]; intros b; cbn [fold_left].
  - split; [reflexivity|]. intros g st Hg. inversion Hg.
  - destruct (IH (indexFile fs b f)) as [Hagg Hfiles].
    destruct (fs_stat fs f) as [st|] eqn:Hst.
    + destruct (indexFile_found fs b f st Hst) as [HF HA].
      rewrite HF in Hagg, Hfiles. rewrite HA in Hagg.
      rewrite (contribution_insert fs _ f st r Hst) in Hagg.
      assert (Hhd : contribution fs (b_files b) f = Some (entryFor fs (b_files b) f st))
        by (unfold contribution; now rewrite Hst).
      split.
      * rewrite Hagg. cbn [omap list_omap]. now rewrite Hhd.
      * intros g st' Hg Hst'.
        destruct (decide (g ∈ r)) as [Hin|Hnin].
        -- rewrite (Hfiles g st' Hin Hst'). f_equal. apply entryFor_insert.
           intros ->. congruence.
        -- apply elem_of_cons in Hg as [->|Hg]; [|contradiction].
           assert (st' = st) by congruence. subst st'.
           rewrite indexFiles_other by exact Hnin.
           rewrite HF. apply lookup_insert_eq.
    + assert (Hid : indexFile fs b f = b) by (unfold indexFile; now rewrite Hst).
      rewrite Hid in Hagg, Hfiles |- *.
      assert (Hhd : contribution fs (b_files b) f = None)
        by (unfold contribution; now rewrite Hst).
      split.
      * rewrite Hagg. cbn [omap list_omap]. now rewrite Hhd.
      * intros g st' Hg Hst'. apply elem_of_cons in Hg as [->|Hg]; [congruence|].
        now apply Hfiles.
Qed.

(** With an entry of matching fingerprint for every file that [stat]
    finds, the loop summarizes no file. *)
Lemma indexFiles_settled (fs : FileSystem) (l : list string) (b : BuildState) :
  (forall g st, g ∈ l -> fs_stat fs g = Some st ->
                exists e, b_files b !! g = Some e /\ reusable e st = true) ->
  b_reads (fold_left (indexFile fs) l b) = b_reads b.
Proof.
  revert b. induction l as [|f r IH]; intros b Hall; cbn [fold_left]; [reflexivity|].
  assert (Hstep : b_files (indexFile fs b f) = b_files b /\
                  b_reads (indexFile fs b f) = b_reads b).
  { unfold indexFile. destruct (fs_stat fs f) as [st|] eqn:Hst; [|auto].
    destruct (Hall f st ltac:(left) Hst) as (e & -> & ->). auto. }
  destruct Hstep as [HF HR]. rewrite IH, HR; [reflexivity|].
  intros g st Hg Hst. rewrite HF. apply Hall; [now right | exact Hst].
Qed.

(** The totals of a snapshot are the sums over its sessions. *)
Lemma totals_are_sums (fs : FileSystem) (sessionsDir cacheDir : string) (now : Z)
    (prev : option Manifest) :
  let snap := snapshot (buildOrUpdateIndex fs sessionsDir cacheDir now prev) in
  t_messages (totals snap) = sum_by messages (sessions snap) /\
  t_toolCalls (totals snap) = sum_by toolCalls (sessions snap) /\
  t_errors (totals snap) = sum_by errors (sessions snap) /\
  t_sessions (totals snap) = Z.of_nat (length (sessions snap)).
Proof. repeat split. Qed.

(** C6. Two runs of the index builder over a corpus whose listing and
    fingerprints are the same in both, the second run starting from the
    manifest the first one wrote: the second snapshot is the first one
    with the later generation time, and the second run hands no file to
    the summarizer, whatever the files hold by then. *)
Theorem rebuild_idempotent (fs1 fs2 : FileSystem) (sessionsDir cacheDir : string)
    (now1 now2 : Z) (prev : option Manifest) :
  listJsonlFiles fs2 sessionsDir = listJsonlFiles fs1 sessionsDir ->
  (forall f, f ∈ listJsonlFiles fs1 sessionsDir -> fs_stat fs2 f = fs_stat fs1 f) ->
  let run1 := buildOrUpdateIndex fs1 sessionsDir cacheDir now1 prev in
  let run2 := buildOrUpdateIndex fs2 sessionsDir cacheDir now2 (Some (manifest run1)) in
  snapshot run2 = set_generatedAt (toISOString now2) (snapshot run1) /\
  reads run2 = [].
Proof.
  intros Hlist Hstat run1 run2. subst run1 run2.
  unfold buildOrUpdateIndex. cbn [manifest m_version m_sessionsDir m_files snapshot reads].
  rewrite Hlist, Z.eqb_refl, String.eqb_refl. cbn [andb].
  set (l := listJsonlFiles fs1 sessionsDir) in *.
  match goal with |- context [fold_left (indexFile fs1) l ?b] => set (init1 := b) end.
  set (b1 := fold_left (indexFile fs1) l init1).
  match goal with |- context [fold_left (indexFile fs2) l ?b] => set (init2 := b) end.
  set (b2 := fold_left (indexFile fs2) l init2).
  destruct (indexFiles_spec fs1 l init1) as [Hagg1 Hfiles1]. fold b1 in Hagg1, Hfiles1.
  destruct (indexFiles_spec fs2 l init2) as [Hagg2 _]. fold b2 in Hagg2.
  assert (Hheld : forall g st, g ∈ l -> fs_stat fs2 g = Some st ->
            b_files init2 !! g = Some (entryFor fs1 (b_files init1) g st)).
  { intros g st Hg Hst. subst init2. cbn [b_files]. unfold prune.
    apply map_lookup_filter_Some_2; [|exact Hg].
    apply Hfiles1; [exact Hg|]. now rewrite <- Hstat. }
  assert (Hsame : omap (contribution fs2 (b_files init2)) l =
                  omap (contribution fs1 (b_files init1)) l).
  { apply list_omap_ext, Forall2_same_length_lookup. split; [reflexivity|].
    intros i g g' Hg Hg'. assert (g' = g) by congruence. subst g'.
    assert (Hin : g ∈ l) by (eapply list_elem_of_lookup_2; exact Hg).
    unfold contribution. rewrite <- (Hstat g Hin).
    destruct (fs_stat fs2 g) as [st|] eqn:Hst; [|reflexivity].
    f_equal. unfold entryFor at 1. rewrite (Hheld g st Hin Hst).
    now rewrite entryFor_reusable. }
  assert (Hagg : aggregates b2 = aggregates b1).
  { rewrite Hagg1, Hagg2, Hsame. reflexivity. }
  unfold aggregates in Hagg. injection Hagg as Hd Ht Hs.
  split.
  - unfold set_generatedAt. cbn. rewrite Hd, Ht, Hs. reflexivity.
  - subst b2. rewrite indexFiles_settled; [reflexivity|].
    intros g st Hg Hst. eexists. split; [apply Hheld; eassumption|].
    apply entryFor_reusable.
Qed.

End BuilderFacts.

(** ** The timeline query *)

Section QueryFacts.
Context `{JsRuntime}.
Variable fs : FileSystem.


(** C9. When the session id resolves to a file path and [stat] of that
    file fails, the query throws the failure of [stat]: no response is
    made up. *)
Theorem stat_failure_propagates (index : IndexSnapshot) (sessionsDir : string)
    (now : Z) (cache : gmap string CachedTimeline) (sessionId file : string) :
  resolveFile fs index sessionsDir sessionId = Return (Some file) ->
  file <> "" ->
  fs_stat fs file = None ->
  getSessionTimeline fs index sessionsDir now cache sessionId = Throw (StatFailed file).
Proof.
  intros Hres Hne Hstat. unfold getSessionTimeline. rewrite Hres, Hstat.
  assert (Hn : nonempty (Some file) = true).
  { simpl. apply negb_true_iff. now apply String.eqb_neq. }
  now rewrite Hn.
Qed.

End QueryFacts.

(** *** On concrete files *)

(** A file of three events is returned whole; a file of 5003 tool calls
    is cut to its first 5000 events and marked truncated. *)
Lemma timeline_truncation_witness :
  let s := emptySummary "s" "/logs/s.jsonl" in
  let short := [Examples.unstamped_call; Examples.badstamp_abort; Examples.blank_message] in
  let long := repeat Examples.unstamped_call (Z.to_nat 5003) in
  (truncated (@buildTimeline Reference.runtime short s) = false /\
   events (@buildTimeline Reference.runtime short s) =
     @qualifyingEvents Reference.runtime short) /\
  (truncated (@buildTimeline Reference.runtime long s) = true /\
   Z.of_nat (length (events (@buildTimeline Reference.runtime long s))) = 5000 /\
   events (@buildTimeline Reference.runtime long s) =
     firstn (Z.to_nat 5000) (@qualifyingEvents Reference.runtime long)).
Proof.
  intros s short long. split.
  - apply (proj2 (proj2 (@timeline_truncation Reference.runtime short s))).
    vm_compute. reflexivity.
  - apply (proj1 (proj2 (@timeline_truncation Reference.runtime long s))).
    vm_compute. reflexivity.
Defined.

Lemma timeline_ts_witness :
  exists new,
    tl_events (@timelineRecord Reference.runtime Examples.no_events
                 (Examples.record Examples.badstamp_abort)) =
    tl_events Examples.no_events ++ new /\
    Forall (fun e => ev_ts e = "") new.
Proof.
  apply (proj2 (@timeline_ts_iso_or_empty Reference.runtime [] (emptySummary "s" "/logs/s.jsonl"))).
  vm_compute. reflexivity.
Defined.

(** A message whose only fragment is blank, and a message whose
    content is a string. *)
Lemma empty_message_text_witness :
  (exists e,
     tl_events (@timelineRecord Reference.runtime Examples.no_events
                  (Examples.record Examples.blank_message)) =
     tl_events Examples.no_events ++ [e] /\ ev_text e = Some "") /\
  (exists e,
     tl_events (@timelineRecord Reference.runtime Examples.no_events
                  (Examples.record Examples.string_content_message)) =
     tl_events Examples.no_events ++ [e] /\ ev_text e = Some "").
Proof.
  split.
  - apply (@empty_message_text Reference.runtime Examples.no_events
             (Examples.record Examples.blank_message)
             (Examples.payload_of Examples.blank_message));
      vm_compute; reflexivity.
  - apply (@empty_message_text Reference.runtime Examples.no_events
             (Examples.record Examples.string_content_message)
             (Examples.payload_of Examples.string_content_message));
      vm_compute; reflexivity.
Defined.

(** C8 as stated fails: the blank user message has no text after
    trimming, and its event carries the empty string, not an absent
    text. *)
Lemma empty_message_text_not_absent :
  let line := Examples.blank_message in
  let r := @buildTimeline Reference.runtime [line] (emptySummary "s" "/logs/s.jsonl") in
  trim (join (String "010" "") (textParts (Examples.content_of line))) = "" /\
  extractMessageText (Some (Examples.payload_of line)) = None /\
  exists e, events r = [e] /\ ev_kind e = user /\ ev_text e = Some "" /\ ev_text e <> None.
Proof.
  vm_compute. repeat split. eexists. repeat split. discriminate.
Qed.



Lemma stat_failure_witness :
  @getSessionTimeline Reference.runtime Examples.vanished_fs Examples.empty_index
    "/logs" 1704103200000 ∅ "a" = Throw (StatFailed "/logs/a.jsonl").
Proof.
  apply (@stat_failure_propagates Reference.runtime Examples.vanished_fs).
  - vm_compute. reflexivity.
  - discriminate.
  - reflexivity.
Defined.

(** A failed command (both tests hold), an exit code after a space
    (neither holds) and an output that is an object (no string). *)
Lemma output_record_errors_witness :
  let st := initialState "s" "/logs/s.jsonl" in
  let counted (line : string) :=
    let st' := @summarizeRecord Reference.runtime "s" "/logs/s.jsonl" st
                 (Examples.record line) in
    errors (summary st') =
      errors (summary st) +
      match get "output" (Some (Examples.payload_of line)) with
      | Some (JStr out) =>
          (if error_pattern out then 1 else 0)
          + (if startsWith "{" out && @exposesExitCode Reference.runtime out then 1 else 0)
      | _ => 0
      end /\
    messages (summary st') = messages (summary st) /\
    toolCalls (summary st') = toolCalls (summary st) /\
    tools st' = tools st in
  counted Examples.failing_output /\ counted Examples.spaced_output /\
  counted Examples.object_output.
Proof.
  cbv zeta. split; [|split].
  - apply (@output_record_errors Reference.runtime "s" "/logs/s.jsonl"
             (initialState "s" "/logs/s.jsonl") (Examples.record Examples.failing_output)
             (Examples.payload_of Examples.failing_output));
      [vm_compute; reflexivity | vm_compute; reflexivity | left; vm_compute; reflexivity].
  - apply (@output_record_errors Reference.runtime "s" "/logs/s.jsonl"
             (initialState "s" "/logs/s.jsonl") (Examples.record Examples.spaced_output)
             (Examples.payload_of Examples.spaced_output));
      [vm_compute; reflexivity | vm_compute; reflexivity | right; vm_compute; reflexivity].
  - apply (@output_record_errors Reference.runtime "s" "/logs/s.jsonl"
             (initialState "s" "/logs/s.jsonl") (Examples.record Examples.object_output)
             (Examples.payload_of Examples.object_output));
      [vm_compute; reflexivity | vm_compute; reflexivity | left; vm_compute; reflexivity].
Defined.

(** C3 as stated fails: the output of the failed command meets both
    conditions, and the error counter goes up by two, not by one. *)
Lemma output_record_counted_twice :
  let st := initialState "s" "/logs/s.jsonl" in
  let obj := Examples.record Examples.failing_output in
  let out := dq "{'stderr':'Error: boom','metadata':{'exit_code':2}}" in
  Reference.json_parse Examples.failing_output = Some obj /\
  get "output" (Some (Examples.payload_of Examples.failing_output)) = Some (JStr out) /\
  error_pattern out = true /\
  @exposesExitCode Reference.runtime out = true /\
  errors (summary (@summarizeRecord Reference.runtime "s" "/logs/s.jsonl" st obj)) =
    errors (summary st) + 2 /\
  errors (summary (@summarizeRecord Reference.runtime "s" "/logs/s.jsonl" st obj)) <>
    errors (summary st) + 1.
Proof. vm_compute. repeat split. discriminate. Qed.

(** The gate on the exit-code test: a JSON object with exit code 1 that
    follows a space is not counted. *)
Lemma output_record_leading_space :
  let st := initialState "s" "/logs/s.jsonl" in
  let obj := Examples.record Examples.spaced_output in
  let out := String " " (dq "{'metadata':{'exit_code':1}}") in
  get "output" (Some (Examples.payload_of Examples.spaced_output)) = Some (JStr out) /\
  @exposesExitCode Reference.runtime out = true /\
  errors (summary (@summarizeRecord Reference.runtime "s" "/logs/s.jsonl" st obj)) =
    errors (summary st).
Proof. vm_compute. repeat split. Qed.

(** C1, which the code does not meet. In the log whose metadata record
    follows a user message, a tool call and an aborted turn, the summary
    ends with all three counters at zero, where the records before the
    metadata record count one message, one tool call and one error; the
    histogram still holds the tool call. *)
Lemma late_meta_resets_counters :
  let whole := @buildFileIndex Reference.runtime "/logs/s.jsonl" Examples.late_meta_file in
  let before := @buildFileIndex Reference.runtime "/logs/s.jsonl" Examples.counted_records in
  (messages (fi_summary before), toolCalls (fi_summary before), errors (fi_summary before))
    = (1, 1, 1) /\
  (messages (fi_summary whole), toolCalls (fi_summary whole), errors (fi_summary whole))
    = (0, 0, 0) /\
  s_id (fi_summary whole) = JStr "abc" /\
  fi_tools whole = {[ "shell" := 1 ]}.
Proof. vm_compute. repeat split. Qed.

Lemma rebuild_idempotent_witness :
  let run1 := @buildOrUpdateIndex Reference.runtime Examples.late_meta_fs
                "/logs" "/cache" 1704103300000 None in
  let run2 := @buildOrUpdateIndex Reference.runtime Examples.same_fingerprint_fs
                "/logs" "/cache" 1704103400000 (Some (manifest run1)) in
  snapshot run2 = set_generatedAt (toISOString 1704103400000) (snapshot run1) /\
  reads run2 = [].
Proof.
  apply (@rebuild_idempotent Reference.runtime Examples.late_meta_fs
           Examples.same_fingerprint_fs "/logs" "/cache").
  - reflexivity.
  - intros f _. reflexivity.
Defined.

(** C2, which the code does not meet. In the snapshot of the corpus that
    holds the log with the late metadata record, the total of tool calls
    is 0, as is the sum over the sessions, and the histogram sums to 1. *)
Lemma late_meta_breaks_histogram_total :
  let snap := snapshot (@buildOrUpdateIndex Reference.runtime Examples.late_meta_fs
                          "/logs" "/cache" 1704103300000 None) in
  t_toolCalls (totals snap) = 0 /\
  sum_by toolCalls (sessions snap) = 0 /\
  i_tools snap = {[ "shell" := 1 ]} /\
  histogramTotal (i_tools snap) = 1 /\
  histogramTotal (i_tools snap) <> t_toolCalls (totals snap).
Proof. vm_compute. repeat split. discriminate. Qed.

Lemma end_to_end_witness :
  let t0 := 1704103200000 in
  @buildFileIndex Reference.runtime "/logs/rollout-1.jsonl"
    [Examples.early_meta; Examples.user_hello; Examples.shell_call; Examples.exit_output] =
    {| fi_sessionId := basename "/logs/rollout-1.jsonl" ".jsonl";
       fi_summary :=
         {| s_id := JStr "abc"; s_file := "/logs/rollout-1.jsonl";
            startedAt := Some (toISOString t0);
            endedAt := Some (toISOString (t0 + 3000));
            durationSec := Some 3;
            cwd := Some "/tmp"; originator := Some "cli"; cliVersion := None;
            messages := 1; toolCalls := 1; errors := 1 |};
       fi_tools := {[ "shell" := 1 ]};
       fi_dailyKey := date_string t0 |}.
Proof.
  intros t0.
  apply (@end_to_end_example Reference.runtime "/logs/rollout-1.jsonl"
           Examples.early_meta Examples.user_hello Examples.shell_call Examples.exit_output
           "2024-01-01T10:00:00.000Z" "2024-01-01T10:00:01.000Z"
           "2024-01-01T10:00:02.000Z" "2024-01-01T10:00:03.000Z" "ls"
           (JArr [JObj [("type", JStr "input_text"); ("text", JStr "hello")]]) t0);
    try (vm_compute; reflexivity).
  - subst t0. lia.
  - vm_compute. split; discriminate.
Defined.

(** * Further properties *)

(** ** The File Summarizer on whole files *)

Section SummarizerWhole.
Context `{JsRuntime}.

Lemma summarizeLine_skip (sessionId file line : string) (st : FileIndexState) :
  safeJsonParse line = None \/
  (exists v, safeJsonParse line = Some v /\ truthy v = false) ->
  summarizeLine sessionId file st line = st.
Proof.
  unfold summarizeLine. intros [-> | (v & -> & ->)]; reflexivity.
Qed.

Lemma timelineLoop_skip (cap : nat) (pre post : list string) (bad : string)
    (st : TimelineState) :
  safeJsonParse bad = None \/
  (exists v, safeJsonParse bad = Some v /\ truthy v = false) ->
  timelineLoop cap (pre ++ bad :: post) st = timelineLoop cap (pre ++ post) st.
Proof.
  intros Hbad. revert st. induction pre as [|line pre IH]; intros st; cbn [app timelineLoop].
  - destruct Hbad as [-> | (v & -> & ->)]; reflexivity.
  - destruct (safeJsonParse line) as [obj|]; [destruct (truthy obj)|]; try apply IH.
    destruct (_ <=? _)%nat; [reflexivity | apply IH].
Qed.

(** X2. A line that does not parse, or parses to a falsy value, is
    dropped: wherever it stands in the file, the summary, the histogram
    and the daily key are those of the file without it, and so is the
    timeline. *)
Theorem broken_line_ignored (file : string) (pre post : list string) (bad : string)
    (s : SessionSummary) :
  safeJsonParse bad = None \/
  (exists v, safeJsonParse bad = Some v /\ truthy v = false) ->
  buildFileIndex file (pre ++ bad :: post) = buildFileIndex file (pre ++ post) /\
  buildTimeline (pre ++ bad :: post) s = buildTimeline (pre ++ post) s.
Proof.
  intros Hbad. split.
  - unfold buildFileIndex. rewrite !fold_left_app. cbn [fold_left].
    now rewrite (summarizeLine_skip _ _ _ _ Hbad).
  - unfold buildTimeline. now rewrite (timelineLoop_skip _ _ _ _ _ Hbad).
Qed.

End SummarizerWhole.

Section SummarizerTimes.
Context `{JsRuntime}.

(** Lines 159-197 touch the counters, the histogram and the call-id map
    only. *)
Lemma counting_keeps (obj : json) (st : FileIndexState) :
  let st' := responseRecord obj (eventRecord obj st) in
  firstTs st' = firstTs st /\ lastTs st' = lastTs st /\
  startedAt (summary st') = startedAt (summary st) /\
  durationSec (summary st') = durationSec (summary st) /\
  s_file (summary st') = s_file (summary st) /\
  identity (summary st') = identity (summary st).
Proof.
  unfold responseRecord, eventRecord, identity.
  repeat case_match; repeat split; reflexivity.
Qed.

Lemma stampRecord_times (obj : json) (st : FileIndexState) :
  let st' := stampRecord obj st in
  summary st' = summary st /\
  lastTs st' = match toIso (get "timestamp" (Some obj)) with
               | Some iso => Some iso
               | None => lastTs st
               end /\
  firstTs st' = match firstTs st with
                | Some f => if nonempty (Some f) then Some f
                            else or_else (toIso (get "timestamp" (Some obj))) (Some f)
                | None => toIso (get "timestamp" (Some obj))
                end.
Proof.
  unfold stampRecord.
  destruct (toIso_cases (get "timestamp" (Some obj))) as [-> | [t ->]].
  - cbn. repeat split. destruct (firstTs st) as [f|]; [|reflexivity].
    destruct (negb _); reflexivity.
  - rewrite toISOString_nonempty. cbn [summary lastTs firstTs]. repeat split.
    destruct (firstTs st) as [f|]; [|reflexivity]. cbn [or_else].
    destruct (nonempty (Some f)); reflexivity.
Qed.

Lemma isoOrNull_nonempty (o : option string) :
  isoOrNull o -> nonempty o = match o with Some _ => true | None => false end.
Proof. intros [-> | [t ->]]; [reflexivity | apply toISOString_nonempty]. Qed.

Lemma summarizeRecord_timesKept (sessionId file : string) (st : FileIndexState) (obj : json) :
  timesKept st -> timesKept (summarizeRecord sessionId file st obj).
Proof.
  intros (Hf & Hl & Hs & Hfl & Hd). unfold summarizeRecord, timesKept.
  destruct (counting_keeps obj (metaRecord sessionId file obj (stampRecord obj st)))
    as (-> & -> & -> & -> & _).
  destruct (stampRecord_times obj st) as (Es & El & Ef).
  set (st1 := stampRecord obj st) in *. clearbody st1.
  assert (Hf1 : isoOrNull (firstTs st1)).
  { rewrite Ef. destruct (firstTs st) as [f|]; [|apply toIso_cases].
    rewrite (isoOrNull_nonempty _ Hf). exact Hf. }
  assert (Hl1 : isoOrNull (lastTs st1)).
  { rewrite El. destruct (toIso_cases (get "timestamp" (Some obj))) as [-> | [t ->]];
      [exact Hl | right; eauto]. }
  assert (Hfl1 : firstTs st1 = None -> lastTs st1 = None).
  { rewrite Ef, El. destruct (firstTs st) as [f|].
    - rewrite (isoOrNull_nonempty _ Hf). discriminate.
    - intros ->. now apply Hfl. }
  unfold metaRecord. destruct (is_str "session_meta" _);
    [|rewrite Es; auto].
  cbn [firstTs lastTs summary startedAt durationSec summarizeFromMeta].
  set (sa := or_else _ _).
  assert (Hsa : isoOrNull sa).
  { subst sa. destruct (toIso_cases (get "timestamp" (Some obj))) as [-> | [t ->]];
      [apply toIso_cases | right; eauto]. }
  rewrite (isoOrNull_nonempty _ Hf1), (isoOrNull_nonempty _ Hsa).
  repeat split; try assumption.
  - destruct (firstTs st1), sa; assumption.
  - destruct (firstTs st1) as [f|] eqn:E1; [discriminate|].
    destruct sa; [discriminate | intros _; now apply Hfl1].
Qed.

Lemma fold_timesKept (sessionId file : string) (l : list json) (st : FileIndexState) :
  timesKept st -> timesKept (fold_left (summarizeRecord sessionId file) l st).
Proof.
  revert st. induction l as [|o r IH]; intros st Hst; [exact Hst|].
  cbn [fold_left]. apply IH, summarizeRecord_timesKept, Hst.
Qed.

Lemma fold_lastTs (sessionId file : string) (l : list json) (st : FileIndexState) :
  lastTs (fold_left (summarizeRecord sessionId file) l st) =
  match last (stamps l) with
  | Some iso => Some iso
  | None => lastTs st
  end.
Proof.
  revert st. induction l as [|o r IH]; intros st; [reflexivity|].
  cbn [fold_left]. rewrite IH. unfold stamps. cbn [omap list_omap].
  unfold summarizeRecord.
  destruct (counting_keeps o (metaRecord sessionId file o (stampRecord o st)))
    as (_ & -> & _).
  assert (Hm : lastTs (metaRecord sessionId file o (stampRecord o st)) =
               lastTs (stampRecord o st)).
  { unfold metaRecord. destruct (is_str _ _); reflexivity. }
  rewrite Hm. destruct (stampRecord_times o st) as (_ & -> & _).
  destruct (toIso (get "timestamp" (Some o))) as [iso|]; [|reflexivity].
  rewrite last_cons. destruct (last _); reflexivity.
Qed.

Lemma initialState_timesKept (sessionId file : string) :
  timesKept (initialState sessionId file).
Proof. unfold timesKept, isoOrNull. cbn. auto 10. Qed.

(** X3. The times of a file summary.  startedAt and endedAt are absent
    or ISO strings; endedAt is the time stamp of the last record that has
    one that parses, whatever the type of the record; a summary with an
    end has a start; the daily key is the first ten characters of
    startedAt, and the word unknown when startedAt is absent. *)
Theorem summary_times (file : string) (lines : list string) :
  let r := buildFileIndex file lines in
  isoOrNull (startedAt (fi_summary r)) /\
  isoOrNull (endedAt (fi_summary r)) /\
  endedAt (fi_summary r) = last (stamps (decoded lines)) /\
  (startedAt (fi_summary r) = None -> endedAt (fi_summary r) = None) /\
  fi_dailyKey r = match startedAt (fi_summary r) with
                  | Some s => slice0 10 s
                  | None => "unknown"
                  end.
Proof.
  unfold buildFileIndex. set (sid := basename file ".jsonl").
  rewrite summarize_decoded.
  pose proof (fold_timesKept sid file (decoded lines) _ (initialState_timesKept sid file))
    as (Hf & Hl & Hs & Hfl & Hd).
  pose proof (fold_lastTs sid file (decoded lines) (initialState sid file)) as Hlast.
  set (st := fold_left _ _ _) in *. clearbody st.
  unfold finishFileIndex. cbn [fi_summary fi_dailyKey set_times startedAt endedAt].
  set (sa := or_else (startedAt (summary st)) (firstTs st)).
  assert (Hsa : isoOrNull sa).
  { subst sa. destruct (startedAt (summary st)); assumption. }
  repeat split.
  - exact Hsa.
  - exact Hl.
  - rewrite Hlast. cbn [lastTs initialState]. destruct (last _); reflexivity.
  - subst sa. destruct (startedAt (summary st)); [discriminate|]. exact Hfl.
  - unfold dayKeyFromIso. destruct sa as [s|] eqn:Esa.
    + cbn [or_else]. now rewrite (isoOrNull_nonempty _ Hsa).
    + subst sa. destruct (startedAt (summary st)); [discriminate|].
      cbn [or_else] in Esa |- *. now rewrite Esa.
Qed.

(** X4. The duration of a file summary, when there is one, is not
    negative, and then both startedAt and endedAt are present with time
    values in order, the duration being the whole seconds between them. *)
Theorem duration_not_negative (file : string) (lines : list string) :
  let s := fi_summary (buildFileIndex file lines) in
  match durationSec s with
  | Some d =>
      0 <= d /\
      exists a b ta tb,
        startedAt s = Some a /\ endedAt s = Some b /\
        Date_getTime a = Some ta /\ Date_getTime b = Some tb /\
        ta <= tb /\ d = (tb - ta) / 1000
  | None => True
  end.
Proof.
  unfold buildFileIndex. set (sid := basename file ".jsonl").
  rewrite summarize_decoded.
  pose proof (fold_timesKept sid file (decoded lines) _ (initialState_timesKept sid file))
    as (_ & _ & _ & _ & Hd).
  set (st := fold_left _ _ _) in *. clearbody st.
  unfold finishFileIndex. cbn [fi_summary set_times durationSec startedAt endedAt].
  rewrite Hd.
  destruct (nonempty _ && nonempty _); [|exact I].
  destruct (or_else _ _) as [a|]; [|exact I].
  destruct (lastTs st) as [b|]; [|exact I].
  destruct (Date_getTime a) as [ta|] eqn:Ea; [|exact I].
  destruct (Date_getTime b) as [tb|] eqn:Eb; [|exact I].
  destruct (Z.leb_spec ta tb) as [Hle|]; [|exact I].
  split; [apply Z.div_pos; lia|].
  exists a, b, ta, tb. repeat split; assumption.
Qed.

End SummarizerTimes.

Section SummarizerIdentity.
Context `{JsRuntime}.

Lemma summarizeRecord_identity (sessionId file : string) (st : FileIndexState) (obj : json) :
  let st' := summarizeRecord sessionId file st obj in
  identity (summary st') =
    (if isMeta obj then identity (summarizeFromMeta sessionId file obj)
     else identity (summary st)) /\
  (s_file (summary st) = file -> s_file (summary st') = file) /\
  (isMeta obj = false -> startedAt (summary st') = startedAt (summary st)) /\
  (isMeta obj = false -> firstTs st' = firstTs (stampRecord obj st)).
Proof.
  unfold summarizeRecord.
  destruct (counting_keeps obj (metaRecord sessionId file obj (stampRecord obj st)))
    as (-> & _ & -> & _ & -> & ->).
  destruct (stampRecord_times obj st) as (Es & _).
  unfold metaRecord, isMeta. destruct (is_str "session_meta" _).
  - cbn. repeat split; discriminate.
  - rewrite Es. auto.
Qed.

Lemma fold_identity (sessionId file : string) (l : list json) (st : FileIndexState) :
  existsb isMeta l = false ->
  identity (summary (fold_left (summarizeRecord sessionId file) l st)) =
    identity (summary st) /\
  startedAt (summary (fold_left (summarizeRecord sessionId file) l st)) =
    startedAt (summary st).
Proof.
  revert st. induction l as [|o r IH]; intros st Hn; [split; reflexivity|].
  cbn [existsb] in Hn. apply orb_false_iff in Hn as [Ho Hr].
  cbn [fold_left]. destruct (IH (summarizeRecord sessionId file st o) Hr) as [-> ->].
  destruct (summarizeRecord_identity sessionId file st o) as (-> & _ & Hs & _).
  rewrite Ho. split; [reflexivity | now apply Hs].
Qed.

Lemma fold_s_file (sessionId file : string) (l : list json) (st : FileIndexState) :
  s_file (summary st) = file ->
  s_file (summary (fold_left (summarizeRecord sessionId file) l st)) = file.
Proof.
  revert st. induction l as [|o r IH]; intros st Hst; [exact Hst|].
  cbn [fold_left]. apply IH. now apply summarizeRecord_identity.
Qed.

Lemma fold_firstTs (sessionId file : string) (l : list json) (st : FileIndexState) :
  existsb isMeta l = false -> isoOrNull (firstTs st) ->
  firstTs (fold_left (summarizeRecord sessionId file) l st) =
  match firstTs st with
  | Some f => Some f
  | None => head (stamps l)
  end.
Proof.
  revert st. induction l as [|o r IH]; intros st Hn Hf.
  - cbn. destruct (firstTs st); reflexivity.
  - cbn [existsb] in Hn. apply orb_false_iff in Hn as [Ho Hr].
    cbn [fold_left].
    destruct (summarizeRecord_identity sessionId file st o) as (_ & _ & _ & Hfirst).
    specialize (Hfirst Ho).
    destruct (stampRecord_times o st) as (_ & _ & Ef). rewrite Ef in Hfirst.
    assert (Hf' : isoOrNull (firstTs (summarizeRecord sessionId file st o))).
    { rewrite Hfirst. destruct (firstTs st) as [f|]; [|apply toIso_cases].
      now rewrite (isoOrNull_nonempty _ Hf). }
    rewrite (IH _ Hr Hf'), Hfirst. unfold stamps. cbn [omap list_omap].
    destruct (firstTs st) as [f|].
    + now rewrite (isoOrNull_nonempty _ Hf).
    + destruct (toIso (get "timestamp" (Some o))); reflexivity.
Qed.

(** X5. The last metadata record wins.  When a file holds metadata
    records, the id, working directory, originator and version of its
    summary are those of the last one, whatever came before it and
    whatever follows it. *)
Theorem last_meta_wins (file : string) (lines : list string)
    (pre post : list json) (m : json) :
  decoded lines = pre ++ m :: post ->
  isMeta m = true ->
  existsb isMeta post = false ->
  identity (fi_summary (buildFileIndex file lines)) =
  identity (summarizeFromMeta (basename file ".jsonl") file m).
Proof.
  intros Hd Hm Hpost. unfold buildFileIndex. set (sid := basename file ".jsonl").
  rewrite summarize_decoded, Hd, fold_left_app. cbn [fold_left].
  unfold finishFileIndex. cbn [fi_summary].
  change (identity (set_times ?a ?b ?c ?s)) with (identity s).
  destruct (fold_identity sid file post
              (summarizeRecord sid file (fold_left (summarizeRecord sid file) pre
                                           (initialState sid file)) m) Hpost) as [-> _].
  destruct (summarizeRecord_identity sid file
              (fold_left (summarizeRecord sid file) pre (initialState sid file)) m)
    as (-> & _).
  now rewrite Hm.
Qed.

(** X6. A file without a metadata record.  The summary names the file
    it was built from and takes the file name without its extension as
    id; it has no working directory, originator or version, and it
    starts at the first time stamp of the file that parses. *)
Theorem summary_without_meta (file : string) (lines : list string) :
  existsb isMeta (decoded lines) = false ->
  let r := buildFileIndex file lines in
  s_file (fi_summary r) = file /\
  fi_sessionId r = basename file ".jsonl" /\
  identity (fi_summary r) = (JStr (basename file ".jsonl"), None, None, None) /\
  startedAt (fi_summary r) = head (stamps (decoded lines)).
Proof.
  intros Hn. unfold buildFileIndex. set (sid := basename file ".jsonl").
  rewrite summarize_decoded.
  pose proof (fold_s_file sid file (decoded lines) (initialState sid file) eq_refl) as Hfile.
  destruct (fold_identity sid file (decoded lines) (initialState sid file) Hn) as [Hid Hsa].
  pose proof (fold_firstTs sid file (decoded lines) (initialState sid file) Hn
                ltac:(left; reflexivity)) as Hft.
  set (st := fold_left _ _ _) in *. clearbody st.
  unfold finishFileIndex. cbn [fi_summary fi_sessionId set_times s_file startedAt].
  change (identity (set_times ?a ?b ?c ?s)) with (identity s).
  rewrite Hid, Hsa, Hft. repeat split; try assumption.
Qed.

Lemma sumOver_bounds (f : json -> Z) (hi : Z) (l : list json) :
  (forall o, 0 <= f o <= hi) -> 0 <= sumOver f l <= hi * Z.of_nat (length l).
Proof.
  intros Hf. unfold sumOver. induction l as [|o r IH]; cbn [fold_right length]; [lia|].
  specialize (Hf o). lia.
Qed.

Lemma length_afterLastMeta (l : list json) :
  (length (afterLastMeta l) <= length l)%nat.
Proof.
  induction l as [|o r IH]; cbn [afterLastMeta length]; [lia|].
  destruct (existsb isMeta r); [lia|]. destruct (isMeta o); cbn [length]; lia.
Qed.

Lemma length_decoded (lines : list string) :
  (length (decoded lines) <= length lines)%nat.
Proof.
  unfold decoded. induction lines as [|x r IH]; cbn [omap list_omap length]; [lia|].
  destruct (safeJsonParse x) as [o|]; [destruct (truthy o)|]; cbn [length]; lia.
Qed.

Lemma outputErrors_bounds (payload : json) : 0 <= outputErrors payload <= 2.
Proof.
  unfold outputErrors. destruct (as_string _) as [out|]; [|lia].
  destruct (nonempty _); [|lia].
  destruct (error_pattern out), (exitCodeError out); lia.
Qed.

(** X7. The counters of a file summary are bounded by the size of the
    file: messages and tool calls lie between 0 and the number of lines,
    errors between 0 and twice that number. *)
Theorem counters_bounded (file : string) (lines : list string) :
  let s := fi_summary (buildFileIndex file lines) in
  let n := Z.of_nat (length lines) in
  0 <= messages s <= n /\ 0 <= toolCalls s <= n /\ 0 <= errors s <= 2 * n.
Proof.
  unfold buildFileIndex, finishFileIndex.
  cbn [fi_summary set_times messages toolCalls errors].
  rewrite summarize_decoded.
  set (sid := basename file ".jsonl").
  rewrite (fold_counter sid file messages messageCount
             ltac:(intros; apply summarizeRecord_counters)).
  rewrite (fold_counter sid file toolCalls callCount
             ltac:(intros; apply summarizeRecord_counters)).
  rewrite (fold_counter sid file errors errorCount
             ltac:(intros; apply summarizeRecord_counters)).
  unfold initialState, emptySummary. cbn [summary messages toolCalls errors].
  assert (Hm : forall o, 0 <= messageCount o <= 1)
    by (intros o; unfold messageCount; destruct (_ && _); lia).
  assert (Hc : forall o, 0 <= callCount o <= 1)
    by (intros o; unfold callCount; destruct (isToolCall o); lia).
  assert (He : forall o, 0 <= errorCount o <= 2).
  { intros o. unfold errorCount. destruct (is_str "event_msg" _).
    - destruct (is_str _ _); lia.
    - destruct (_ && _); [apply outputErrors_bounds | lia]. }
  pose proof (length_decoded lines) as Hd.
  pose proof (length_afterLastMeta (decoded lines)) as Ha.
  pose proof (fun f hi Hf => sumOver_bounds f hi (decoded lines) Hf) as B1.
  pose proof (fun f hi Hf => sumOver_bounds f hi (afterLastMeta (decoded lines)) Hf) as B2.
  pose proof (B1 _ _ Hm). pose proof (B1 _ _ Hc). pose proof (B1 _ _ He).
  pose proof (B2 _ _ Hm). pose proof (B2 _ _ Hc). pose proof (B2 _ _ He).
  destruct (existsb isMeta (decoded lines)); repeat split; lia.
Qed.

End SummarizerIdentity.

(** ** The Index Builder on whole corpora *)

Lemma mergeTools_lookup (a b : gmap string Z) (k : string) :
  mergeTools a b !! k =
  match b !! k with
  | Some v => Some (default 0 (a !! k) + v)
  | None => a !! k
  end.
Proof.
  unfold mergeTools.
  apply (map_fold_weak_ind
           (fun r m => r !! k = match m !! k with
                                | Some v => Some (default 0 (a !! k) + v)
                                | None => a !! k
                                end)).
  - now rewrite lookup_empty.
  - intros i x m r Hi IH. unfold bump. destruct (decide (i = k)) as [->|Hne].
    + rewrite !lookup_insert_eq, IH, Hi. reflexivity.
    + rewrite !lookup_insert_ne by exact Hne. exact IH.
Qed.

Lemma histogramTotal_mergeTools (a b : gmap string Z) :
  histogramTotal (mergeTools a b) = histogramTotal a + histogramTotal b.
Proof.
  unfold mergeTools.
  apply (map_fold_weak_ind
           (fun r m => histogramTotal r = histogramTotal a + histogramTotal m)).
  - change (histogramTotal ∅) with 0. lia.
  - intros i x m r Hi IH. rewrite histogramTotal_bump, IH, histogramTotal_insert by exact Hi.
    lia.
Qed.

(** X8. Merging histograms adds them entry by entry: a name of the
    added histogram gets its count added to the count the target has for
    it, or to 0; every other name keeps its entry; and the sums of the
    values add up. *)
Theorem mergeTools_adds (a b : gmap string Z) :
  (forall k, mergeTools a b !! k =
             match b !! k with
             | Some v => Some (default 0 (a !! k) + v)
             | None => a !! k
             end) /\
  histogramTotal (mergeTools a b) = histogramTotal a + histogramTotal b.
Proof. split; [intros k; apply mergeTools_lookup | apply histogramTotal_mergeTools]. Qed.

Lemma dailyTotal_insert (f : DailyAgg -> Z) (k : string) (v : DailyAgg)
    (d : gmap string DailyAgg) :
  d !! k = None -> dailyTotal f (<[k := v]> d) = dailyTotal f d + f v.
Proof.
  intros Hn. unfold dailyTotal.
  rewrite map_fold_insert_L; [reflexivity | intros; lia | exact Hn].
Qed.

Lemma dailyTotal_mergeDaily (f : DailyAgg -> Z) (d : gmap string DailyAgg)
    (k : string) (delta : DailyAgg) :
  (forall x y, f {| d_sessions := d_sessions x + d_sessions y;
                    d_messages := d_messages x + d_messages y;
                    d_toolCalls := d_toolCalls x + d_toolCalls y;
                    d_errors := d_errors x + d_errors y |} = f x + f y) ->
  f {| d_sessions := 0; d_messages := 0; d_toolCalls := 0; d_errors := 0 |} = 0 ->
  dailyTotal f (mergeDaily d k delta) = dailyTotal f d + f delta.
Proof.
  intros Hadd Hzero. unfold mergeDaily.
  destruct (d !! k) as [cur|] eqn:Hl; cbn [default].
  - rewrite <- (insert_delete_id d k cur Hl) at 2.
    rewrite <- insert_delete_eq.
    rewrite !dailyTotal_insert by apply lookup_delete_eq. rewrite Hadd. unfold id. lia.
  - rewrite dailyTotal_insert by exact Hl. rewrite Hadd, Hzero. lia.
Qed.

Lemma sum_by_snoc (f : SessionSummary -> Z) (l : list SessionSummary) (s : SessionSummary) :
  sum_by f (l ++ [s]) = sum_by f l + f s.
Proof. unfold sum_by. now rewrite fold_left_app. Qed.

Lemma addEntry_agrees
    (a : gmap string DailyAgg * gmap string Z * list SessionSummary) (e : ManifestEntry) :
  aggregatesAgree a -> aggregatesAgree (addEntry a e).
Proof.
  destruct a as [[d t] ss]. intros (Hs & Hm & Hc & He).
  unfold aggregatesAgree, addEntry.
  rewrite !sum_by_snoc, length_app, !dailyTotal_mergeDaily by reflexivity.
  cbn [length d_sessions d_messages d_toolCalls d_errors]. lia.
Qed.

Lemma fold_addEntry_agrees (es : list ManifestEntry)
    (a : gmap string DailyAgg * gmap string Z * list SessionSummary) :
  aggregatesAgree a -> aggregatesAgree (fold_left addEntry es a).
Proof.
  revert a. induction es as [|e r IH]; intros a Ha; [exact Ha|].
  cbn [fold_left]. apply IH, addEntry_agrees, Ha.
Qed.

Lemma fold_addEntry_parts (es : list ManifestEntry)
    (a : gmap string DailyAgg * gmap string Z * list SessionSummary) :
  (fold_left addEntry es a).2 = a.2 ++ map e_summary es /\
  histogramTotal (fold_left addEntry es a).1.2 =
    histogramTotal a.1.2 + fold_right (fun e n => histogramTotal (e_tools e) + n) 0 es.
Proof.
  revert a. induction es as [|e r IH]; intros [[d t] ss]; cbn [fold_left fold_right map].
  - rewrite app_nil_r. split; [reflexivity | lia].
  - destruct (IH (addEntry (d, t, ss) e)) as [-> ->]. cbn [addEntry fst snd].
    rewrite histogramTotal_mergeTools, <- app_assoc. split; [reflexivity | lia].
Qed.

Section BuilderWhole.
Context `{JsRuntime}.

(** X9. In every snapshot the daily buckets add up to the totals: their
    session counts to totals.sessions, their message, tool-call and error
    counts to totals.messages, totals.toolCalls and totals.errors. *)
Theorem daily_adds_up (fs : FileSystem) (sessionsDir cacheDir : string) (now : Z)
    (prev : option Manifest) :
  let snap := snapshot (buildOrUpdateIndex fs sessionsDir cacheDir now prev) in
  dailyTotal d_sessions (daily snap) = t_sessions (totals snap) /\
  dailyTotal d_messages (daily snap) = t_messages (totals snap) /\
  dailyTotal d_toolCalls (daily snap) = t_toolCalls (totals snap) /\
  dailyTotal d_errors (daily snap) = t_errors (totals snap).
Proof.
  unfold buildOrUpdateIndex. cbn [snapshot daily totals t_sessions t_messages
    t_toolCalls t_errors].
  match goal with |- context [fold_left (indexFile fs) ?l ?b] =>
    destruct (indexFiles_spec fs l b) as [Hagg _];
    set (b' := fold_left (indexFile fs) l b) in *;
    pose proof (fold_addEntry_agrees (omap (contribution fs (b_files b)) l) (aggregates b)
                  ltac:(repeat split)) as Hinv
  end.
  rewrite <- Hagg in Hinv. exact Hinv.
Qed.

End BuilderWhole.

Lemma prune_lookup (l : list string) (m : gmap string ManifestEntry) (g : string) :
  prune l m !! g = if decide (g ∈ l) then m !! g else None.
Proof.
  unfold prune. rewrite map_lookup_filter.
  destruct (m !! g) as [e|]; cbn; [|now destruct (decide _)].
  destruct (decide (g ∈ l)) as [Hin|Hout].
  - now rewrite option_guard_True.
  - now rewrite option_guard_False.
Qed.

Section BuilderRuns.
Context `{JsRuntime}.

Lemma unusable_ignored (fs : FileSystem) (sessionsDir cacheDir : string) (now : Z)
    (prev : option Manifest) :
  unusable sessionsDir prev ->
  buildOrUpdateIndex fs sessionsDir cacheDir now prev =
  buildOrUpdateIndex fs sessionsDir cacheDir now None.
Proof.
  destruct prev as [p|]; [|reflexivity]. unfold unusable, buildOrUpdateIndex.
  intros Hu.
  assert (Hc : (m_version p =? INDEX_VERSION) && String.eqb (m_sessionsDir p) sessionsDir
               = false).
  { destruct Hu as [Hv|Hd].
    - apply Z.eqb_neq in Hv. now rewrite Hv.
    - apply String.eqb_neq in Hd. rewrite Hd. apply andb_false_r. }
  now rewrite Hc.
Qed.

Lemma buildFileIndex_s_file (file : string) (lines : list string) :
  s_file (fi_summary (buildFileIndex file lines)) = file.
Proof.
  unfold buildFileIndex, finishFileIndex. cbn [fi_summary set_times s_file].
  rewrite summarize_decoded. now apply fold_s_file.
Qed.

Lemma buildFileIndex_histogram (file : string) (lines : list string) :
  histogramTotal (fi_tools (buildFileIndex file lines)) = sumOver callCount (decoded lines).
Proof.
  unfold buildFileIndex, finishFileIndex. cbn [fi_tools].
  rewrite summarize_decoded, fold_histogram. unfold initialState. cbn [tools].
  change (histogramTotal ∅) with 0. lia.
Qed.

Lemma contribution_fresh (fs : FileSystem) (f : string) :
  contribution fs ∅ f = builtEntry fs f <$> fs_stat fs f.
Proof.
  unfold contribution, entryFor. rewrite lookup_empty. now destruct (fs_stat fs f).
Qed.

Lemma found_cons (fs : FileSystem) (f : string) (r : list string) :
  found fs (f :: r) = match fs_stat fs f with
                      | Some _ => f :: found fs r
                      | None => found fs r
                      end.
Proof.
  unfold found. rewrite filter_cons.
  destruct (fs_stat fs f) as [st|]; destruct (decide _) as [Hs|Hs]; try reflexivity.
  - exfalso. apply Hs. eauto.
  - destruct Hs as [? Hs]. discriminate.
Qed.

Lemma length_contributions (fs : FileSystem) (F : gmap string ManifestEntry)
    (l : list string) :
  length (omap (contribution fs F) l) = length (found fs l).
Proof.
  induction l as [|f r IH]; [reflexivity|].
  cbn [omap list_omap]. rewrite found_cons. unfold contribution at 1.
  destruct (fs_stat fs f); cbn [length]; now rewrite IH.
Qed.

(** X10. A build that takes over no manifest.  The snapshot holds one
    session per listed file that stat finds, in discovery order, each
    naming its file; and its tool histogram sums to the number of
    tool-call records in these files. *)
Theorem fresh_build (fs : FileSystem) (sessionsDir cacheDir : string) (now : Z)
    (prev : option Manifest) :
  unusable sessionsDir prev ->
  let snap := snapshot (buildOrUpdateIndex fs sessionsDir cacheDir now prev) in
  let files := found fs (listJsonlFiles fs sessionsDir) in
  map s_file (sessions snap) = files /\
  histogramTotal (i_tools snap) =
    sumFiles (fun f => sumOver callCount (decoded (fs_lines fs f))) files.
Proof.
  intros Hu. rewrite (unusable_ignored _ _ _ _ _ Hu).
  unfold buildOrUpdateIndex. cbn [snapshot sessions i_tools].
  set (l := listJsonlFiles fs sessionsDir).
  match goal with |- context [fold_left (indexFile fs) l ?b] =>
    destruct (indexFiles_spec fs l b) as [Hagg _];
    destruct (fold_addEntry_parts (omap (contribution fs (b_files b)) l) (aggregates b))
      as [Hss Ht];
    set (b' := fold_left (indexFile fs) l b) in *
  end.
  rewrite <- Hagg in Hss, Ht. cbn [aggregates fst snd b_files b_tools b_sessions] in Hss, Ht.
  rewrite Hss, Ht. change (histogramTotal ∅) with 0. cbn [app]. clear.
  induction l as [|f r [IH1 IH2]]; [split; reflexivity|].
  cbn [omap list_omap]. rewrite found_cons, contribution_fresh.
  destruct (fs_stat fs f) as [st|]; cbn [fmap option_fmap option_map map fold_right sumFiles].
  - unfold builtEntry. cbn [e_summary e_tools].
    rewrite buildFileIndex_s_file, buildFileIndex_histogram, IH1.
    split; [reflexivity|]. unfold sumFiles in IH2. lia.
  - split; [exact IH1 | exact IH2].
Qed.

Lemma indexFiles_fresh_reads (fs : FileSystem) (l : list string) (b : BuildState) :
  NoDup l -> (forall g, g ∈ l -> b_files b !! g = None) ->
  b_reads (fold_left (indexFile fs) l b) = b_reads b ++ found fs l.
Proof.
  revert b. induction l as [|f r IH]; intros b Hnd Hnone.
  - cbn. now rewrite app_nil_r.
  - apply NoDup_cons in Hnd as [Hf Hnd]. cbn [fold_left]. rewrite found_cons.
    unfold indexFile at 2. destruct (fs_stat fs f) as [st|].
    + rewrite (Hnone f ltac:(left)). rewrite IH; [|exact Hnd|].
      * cbn [rebuild b_reads account]. now rewrite <- app_assoc.
      * intros g Hg. cbn [rebuild b_files account].
        rewrite lookup_insert_ne by (intros ->; contradiction).
        apply Hnone. now right.
    + apply IH; [exact Hnd|]. intros g Hg. apply Hnone. now right.
Qed.

(** X11. A build that takes over no manifest hands every listed file
    that stat finds to the summarizer, once and in discovery order (the
    listing holding no path twice). *)
Theorem fresh_build_reads (fs : FileSystem) (sessionsDir cacheDir : string) (now : Z)
    (prev : option Manifest) :
  unusable sessionsDir prev ->
  NoDup (listJsonlFiles fs sessionsDir) ->
  reads (buildOrUpdateIndex fs sessionsDir cacheDir now prev) =
  found fs (listJsonlFiles fs sessionsDir).
Proof.
  intros Hu Hnd. rewrite (unusable_ignored _ _ _ _ _ Hu).
  unfold buildOrUpdateIndex. cbn [reads].
  rewrite indexFiles_fresh_reads; [reflexivity | exact Hnd |].
  intros g _. apply lookup_empty.
Qed.

(** The loop leaves alone the entry of a file that stat does not find. *)
Lemma indexFiles_unfound (fs : FileSystem) (g : string) (l : list string) (b : BuildState) :
  fs_stat fs g = None -> b_files (fold_left (indexFile fs) l b) !! g = b_files b !! g.
Proof.
  intros Hg. revert b. induction l as [|f r IH]; intros b; [reflexivity|].
  cbn [fold_left]. rewrite IH. unfold indexFile.
  destruct (fs_stat fs f) as [st|] eqn:Hst; [|reflexivity].
  assert (f <> g) by congruence.
  destruct (b_files b !! f) as [prev|]; [destruct (reusable prev st)|];
    cbn [account rebuild b_files]; try reflexivity; now rewrite lookup_insert_ne.
Qed.

(** The entry the manifest holds for a listed file after the loop. *)
Lemma indexFiles_entry (fs : FileSystem) (g : string) (l : list string) (b : BuildState) :
  g ∈ l ->
  b_files (fold_left (indexFile fs) l b) !! g =
  match fs_stat fs g with
  | Some st => Some (entryFor fs (b_files b) g st)
  | None => b_files b !! g
  end.
Proof.
  intros Hg. destruct (fs_stat fs g) as [st|] eqn:Hst.
  - now apply indexFiles_spec.
  - now apply indexFiles_unfound.
Qed.

(** X12. The manifest a build writes.  It holds no entry for a path
    that is not listed, and for every listed file that stat finds it
    holds an entry with the modification time and size stat gave. *)
Theorem manifest_written (fs : FileSystem) (sessionsDir cacheDir : string) (now : Z)
    (prev : option Manifest) :
  let m := m_files (manifest (buildOrUpdateIndex fs sessionsDir cacheDir now prev)) in
  let l := listJsonlFiles fs sessionsDir in
  (forall g, g ∉ l -> m !! g = None) /\
  (forall g st, g ∈ l -> fs_stat fs g = Some st ->
     exists e, m !! g = Some e /\ e_mtimeMs e = mtimeMs st /\ e_size e = st_size st).
Proof.
  unfold buildOrUpdateIndex. cbn [manifest m_files]. split.
  - intros g Hg. rewrite prune_lookup. now destruct (decide _).
  - intros g st Hg Hst. rewrite prune_lookup. destruct (decide _); [|contradiction].
    rewrite (indexFiles_entry fs g _ _ Hg), Hst. eexists. split; [reflexivity|].
    pose proof (entryFor_reusable fs
      (b_files {| b_files := match prev with
                             | Some p => if (m_version p =? INDEX_VERSION) &&
                                            String.eqb (m_sessionsDir p) sessionsDir
                                         then m_files p else ∅
                             | None => ∅
                             end;
                  b_daily := ∅; b_tools := ∅; b_sessions := []; b_reads := [] |})
      g st) as Hr.
    unfold reusable in Hr. apply andb_true_iff in Hr as [H1 H2].
    apply Z.eqb_eq in H1, H2. split; assumption.
Qed.

(** X13. The snapshot holds one session per listed file that stat
    finds: a file that vanished between the listing and stat is skipped,
    it still counts in totals.files, and totals.sessions never exceeds
    totals.files. *)
Theorem sessions_per_found_file (fs : FileSystem) (sessionsDir cacheDir : string) (now : Z)
    (prev : option Manifest) :
  let snap := snapshot (buildOrUpdateIndex fs sessionsDir cacheDir now prev) in
  let l := listJsonlFiles fs sessionsDir in
  length (sessions snap) = length (found fs l) /\
  t_sessions (totals snap) = Z.of_nat (length (found fs l)) /\
  t_files (totals snap) = Z.of_nat (length l) /\
  t_sessions (totals snap) <= t_files (totals snap).
Proof.
  unfold buildOrUpdateIndex. cbn [snapshot sessions totals t_sessions t_files].
  set (l := listJsonlFiles fs sessionsDir).
  match goal with |- context [fold_left (indexFile fs) l ?b] =>
    destruct (indexFiles_spec fs l b) as [Hagg _];
    destruct (fold_addEntry_parts (omap (contribution fs (b_files b)) l) (aggregates b))
      as [Hss _];
    set (b' := fold_left (indexFile fs) l b) in *
  end.
  rewrite <- Hagg in Hss. cbn [aggregates snd b_sessions app] in Hss.
  rewrite Hss, length_map, length_contributions.
  assert (length (found fs l) <= length l)%nat by (unfold found; apply length_filter).
  repeat split; lia.
Qed.

End BuilderRuns.

Section BuilderIncremental.
Context `{JsRuntime}.

Lemma indexFile_reads (fs : FileSystem) (b : BuildState) (f : string) :
  b_reads (indexFile fs b f) = b_reads b \/ b_reads (indexFile fs b f) = b_reads b ++ [f].
Proof.
  unfold indexFile. destruct (fs_stat fs f) as [st|]; [|now left].
  destruct (b_files b !! f) as [prev|]; [destruct (reusable prev st)|]; auto.
Qed.

(** With a matching entry for every found file but [f0], the loop hands
    no file but [f0] to the summarizer. *)
Lemma indexFiles_reads_only (fs : FileSystem) (f0 : string) (l : list string)
    (b : BuildState) :
  (forall g st, g ∈ l -> g <> f0 -> fs_stat fs g = Some st ->
     exists e, b_files b !! g = Some e /\ reusable e st = true) ->
  Forall (fun g => g = f0) (b_reads b) ->
  Forall (fun g => g = f0) (b_reads (fold_left (indexFile fs) l b)).
Proof.
  revert b. induction l as [|f r IH]; intros b Hall Hr; [exact Hr|].
  cbn [fold_left]. destruct (decide (f = f0)) as [->|Hne].
  - apply IH.
    + intros g st Hg Hgne Hst.
      destruct (fs_stat fs f0) as [st0|] eqn:Hst0.
      * destruct (indexFile_found fs b f0 st0 Hst0) as [-> _].
        rewrite lookup_insert_ne by congruence. apply Hall; [now right | assumption..].
      * assert (Hid : indexFile fs b f0 = b) by (unfold indexFile; now rewrite Hst0).
        rewrite Hid. apply Hall; [now right | assumption..].
    + destruct (indexFile_reads fs b f0) as [-> | ->]; [exact Hr|].
      apply Forall_app. split; [exact Hr | repeat constructor].
  - assert (Hstep : b_files (indexFile fs b f) = b_files b /\
                    b_reads (indexFile fs b f) = b_reads b).
    { unfold indexFile. destruct (fs_stat fs f) as [st|] eqn:Hst; [|auto].
      destruct (Hall f st ltac:(left) Hne Hst) as (e & -> & ->). auto. }
    destruct Hstep as [HF HR]. apply IH.
    + intros g st Hg Hgne Hst. rewrite HF. apply Hall; [now right | assumption..].
    + now rewrite HR.
Qed.

(** X14. Incremental rebuild.  When, between two builds, the listing
    stays the same and stat answers the same for every listed file but
    one, the second build, starting from the manifest of the first, hands
    no other file than that one to the summarizer, and the manifest
    entries of all other files are those of the first build. *)
Theorem incremental_rebuild (fs1 fs2 : FileSystem) (sessionsDir cacheDir : string)
    (now1 now2 : Z) (prev : option Manifest) (f0 : string) :
  listJsonlFiles fs2 sessionsDir = listJsonlFiles fs1 sessionsDir ->
  (forall g, g ∈ listJsonlFiles fs1 sessionsDir -> g <> f0 ->
             fs_stat fs2 g = fs_stat fs1 g) ->
  let run1 := buildOrUpdateIndex fs1 sessionsDir cacheDir now1 prev in
  let run2 := buildOrUpdateIndex fs2 sessionsDir cacheDir now2 (Some (manifest run1)) in
  Forall (fun g => g = f0) (reads run2) /\
  (forall g, g <> f0 ->
     m_files (manifest run2) !! g = m_files (manifest run1) !! g).
Proof.
  intros Hlist Hstat run1 run2. subst run1 run2.
  unfold buildOrUpdateIndex. cbn [manifest m_version m_sessionsDir m_files snapshot reads].
  rewrite Hlist, Z.eqb_refl, String.eqb_refl. cbn [andb].
  set (l := listJsonlFiles fs1 sessionsDir) in *.
  match goal with |- context [fold_left (indexFile fs1) l ?b] => set (init1 := b) end.
  set (b1 := fold_left (indexFile fs1) l init1).
  match goal with |- context [fold_left (indexFile fs2) l ?b] => set (init2 := b) end.
  assert (Hheld : forall g, g ∈ l -> g <> f0 ->
            b_files init2 !! g =
            match fs_stat fs2 g with
            | Some st => Some (entryFor fs1 (b_files init1) g st)
            | None => b_files init1 !! g
            end).
  { intros g Hg Hne. subst init2. cbn [b_files]. rewrite prune_lookup.
    destruct (decide _); [|contradiction].
    subst b1. rewrite (indexFiles_entry fs1 g l init1 Hg).
    now rewrite (Hstat g Hg Hne). }
  split.
  - apply indexFiles_reads_only; [|constructor].
    intros g st Hg Hne Hst. rewrite (Hheld g Hg Hne), Hst.
    eexists. split; [reflexivity | apply entryFor_reusable].
  - intros g Hne. rewrite !prune_lookup. destruct (decide (g ∈ l)) as [Hg|]; [|reflexivity].
    rewrite (indexFiles_entry fs2 g l init2 Hg).
    fold b1. unfold b1 at 1. rewrite (indexFiles_entry fs1 g l init1 Hg).
    rewrite <- (Hstat g Hg Hne).
    destruct (fs_stat fs2 g) as [st|] eqn:Hst.
    + f_equal. unfold entryFor at 1. rewrite (Hheld g Hg Hne), Hst.
      now rewrite entryFor_reusable.
    + rewrite (Hheld g Hg Hne), Hst. reflexivity.
Qed.

End BuilderIncremental.

(** ** The Timeline Extractor on whole files *)

Section TimelineWhole.
Context `{JsRuntime}.

Lemma timeline_decoded (lines : list string) (st : TimelineState) :
  fold_left timelineLine lines st = fold_left timelineRecord (decoded lines) st.
Proof.
  revert st. induction lines as [|line r IH]; intros st; [reflexivity|].
  cbn [fold_left]. rewrite IH. unfold decoded. cbn [omap list_omap].
  unfold timelineLine.
  destruct (safeJsonParse line) as [obj|]; [destruct (truthy obj)|]; reflexivity.
Qed.

(** The kind of the event of a record, and what the record does to the
    call-id map. *)
Lemma timelineRecord_shape (st : TimelineState) (obj : json) :
  (exists new, tl_events (timelineRecord st obj) = tl_events st ++ new /\
               map ev_kind new = option_list (eventKindOf obj)) /\
  callIdToName (timelineRecord st obj) =
    (if isToolCall obj then
       match callIdOf obj with
       | Some c => if nonempty (Some c) then <[c := toolNameOf obj]> (callIdToName st)
                   else callIdToName st
       | None => callIdToName st
       end
     else callIdToName st).
Proof.
  unfold timelineRecord, eventKindOf, isToolCall, isToolOutput, payloadType, callIdOf,
    toolNameOf.
  set (ts := default "" _). clearbody ts.
  set (ty := get "type" (Some obj)).
  set (payload := coalesce (get "payload" (Some obj)) (JObj [])).
  set (pt := get "type" (Some payload)).
  destruct (is_str "event_msg" ty) eqn:Hev.
  - rewrite (is_str_other _ "response_item" _ Hev) by discriminate. cbn [andb].
    destruct (is_str "turn_aborted" _); split; try reflexivity.
    + eexists [_]. split; reflexivity.
    + exists []. now rewrite app_nil_r.
  - cbn [andb]. destruct (is_str "response_item" ty).
    2:{ split; [|reflexivity]. exists []. now rewrite app_nil_r. }
    destruct (is_str "message" pt) eqn:Hmsg.
    { rewrite (is_str_other _ "function_call" _ Hmsg) by discriminate.
      rewrite (is_str_other _ "custom_tool_call" _ Hmsg) by discriminate.
      split; [|reflexivity]. eexists [_]. split; reflexivity. }
    cbn [andb].
    destruct (is_str "function_call" pt || is_str "custom_tool_call" pt) eqn:Hcall.
    { match goal with |- context [push _ ?s] => set (st1 := s) end.
      assert (Hst1 : tl_events st1 = tl_events st /\
                     callIdToName st1 =
                       match as_string (get "call_id" (Some payload)) with
                       | Some c => if nonempty (Some c)
                                   then <[c := default "unknown"
                                                 (as_string (get "name" (Some payload)))]>
                                          (callIdToName st)
                                   else callIdToName st
                       | None => callIdToName st
                       end).
      { subst st1. destruct (as_string (get "call_id" (Some payload))); [|auto].
        destruct (nonempty _); auto. }
      destruct Hst1 as [He Hm]. clearbody st1.
      destruct (as_string (get "input" (Some payload))) as [i|].
      - destruct (negb _ && _).
        + rewrite set_last_push. cbn [push tl_events callIdToName]. rewrite He, Hm.
          split; [|reflexivity]. eexists [_]. split; reflexivity.
        + cbn [push tl_events callIdToName]. rewrite He, Hm.
          split; [|reflexivity]. eexists [_]. split; reflexivity.
      - cbn [push tl_events callIdToName]. rewrite He, Hm.
        split; [|reflexivity]. eexists [_]. split; reflexivity. }
    destruct (is_str "function_call_output" pt || is_str "custom_tool_call_output" pt);
      split; try reflexivity.
    + eexists [_]. split; reflexivity.
    + exists []. now rewrite app_nil_r.
Qed.


Lemma countKind_app (k : EventKind) (a b : list TimelineEvent) :
  countKind k (a ++ b) = countKind k a + countKind k b.
Proof. unfold countKind. rewrite filter_app, length_app. lia. Qed.

Lemma fold_countKind (k : EventKind) (l : list json) (st : TimelineState) :
  countKind k (tl_events (fold_left timelineRecord l st)) =
  countKind k (tl_events st) + sumOver (kindCount k) l.
Proof.
  unfold sumOver. revert st.
  induction l as [|o r IH]; intros st; cbn [fold_left fold_right]; [lia|].
  rewrite IH. destruct (timelineRecord_shape st o) as [(new & -> & Hk) _].
  rewrite countKind_app.
  assert (countKind k new = kindCount k o); [|lia].
  unfold kindCount. destruct (eventKindOf o) as [k'|]; cbn [option_list] in Hk.
  - destruct new as [|e [|? ?]]; try discriminate. injection Hk as Hk.
    unfold countKind. rewrite filter_cons, filter_nil.
    destruct (decide (ev_kind e = k)), (decide (Some k' = Some k)); try reflexivity;
      congruence.
  - destruct new; [|discriminate]. destruct (decide _); [discriminate|reflexivity].
Qed.

Lemma sumOver_ext (f g : json -> Z) (l : list json) :
  (forall o, f o = g o) -> sumOver f l = sumOver g l.
Proof.
  intros E. unfold sumOver. induction l as [|o r IH]; cbn [fold_right]; [reflexivity|].
  now rewrite IH, E.
Qed.

Lemma sumOver_plus (f g : json -> Z) (l : list json) :
  sumOver (fun o => f o + g o) l = sumOver f l + sumOver g l.
Proof.
  unfold sumOver. induction l as [|o r IH]; cbn [fold_right]; [reflexivity|].
  rewrite IH. lia.
Qed.

Lemma kindCount_call (obj : json) : kindCount tool_call obj = callCount obj.
Proof.
  unfold kindCount, callCount, eventKindOf, isToolCall, payloadType.
  set (ty := get "type" (Some obj)).
  set (pt := get "type" (Some _)).
  destruct (is_str "event_msg" ty) eqn:Hev.
  - rewrite (is_str_other _ "response_item" _ Hev) by discriminate. cbn [andb].
    destruct (is_str "turn_aborted" _); destruct (decide _); congruence.
  - destruct (is_str "response_item" ty); cbn [andb].
    2:{ destruct (decide _); congruence. }
    destruct (is_str "message" pt) eqn:Hmsg.
    { rewrite (is_str_other _ "function_call" _ Hmsg) by discriminate.
      rewrite (is_str_other _ "custom_tool_call" _ Hmsg) by discriminate.
      cbn [orb]. destruct (is_str "user" _); [|destruct (is_str "assistant" _)];
        destruct (decide _); congruence. }
    destruct (is_str "function_call" pt || is_str "custom_tool_call" pt).
    { destruct (decide _); congruence. }
    destruct (isToolOutput obj); destruct (decide _); congruence.
Qed.

Lemma kindCount_message (obj : json) :
  kindCount user obj + kindCount assistant obj = messageCount obj.
Proof.
  unfold kindCount, messageCount, eventKindOf, isToolCall, payloadType.
  set (ty := get "type" (Some obj)).
  set (pt := get "type" (Some _)).
  set (role := get "role" (Some _)).
  destruct (is_str "event_msg" ty) eqn:Hev.
  - rewrite (is_str_other _ "response_item" _ Hev) by discriminate. cbn [andb].
    destruct (is_str "turn_aborted" _); repeat destruct (decide _); solve [congruence | reflexivity].
  - destruct (is_str "response_item" ty); cbn [andb].
    2:{ repeat destruct (decide _); solve [congruence | reflexivity]. }
    destruct (is_str "message" pt) eqn:Hmsg; cbn [andb].
    { destruct (is_str "user" role) eqn:Hu.
      - cbn [orb]. repeat destruct (decide _); solve [congruence | reflexivity].
      - cbn [orb]. destruct (is_str "assistant" role);
          repeat destruct (decide _); solve [congruence | reflexivity]. }
    destruct (is_str "function_call" pt || is_str "custom_tool_call" pt).
    { repeat destruct (decide _); solve [congruence | reflexivity]. }
    destruct (isToolOutput obj); repeat destruct (decide _); solve [congruence | reflexivity].
Qed.

Lemma sumOver_afterLastMeta_le (f : json -> Z) (l : list json) :
  (forall o, 0 <= f o) -> 0 <= sumOver f (afterLastMeta l) <= sumOver f l.
Proof.
  intros Hf. unfold sumOver.
  assert (Hn : forall l, 0 <= fold_right (fun o a => f o + a) 0 l).
  { intros l0. induction l0 as [|o r IH]; cbn [fold_right]; [lia|].
    specialize (Hf o). lia. }
  induction l as [|o r IH]; cbn [afterLastMeta fold_right]; [lia|].
  specialize (Hf o). specialize (Hn r).
  destruct (existsb isMeta r); [lia|].
  destruct (isMeta o); cbn [fold_right]; lia.
Qed.

Lemma length_qualifyingEvents (lines : list string) (st : TimelineState) :
  (length (tl_events (fold_left timelineLine lines st)) <=
   length (tl_events st) + length lines)%nat.
Proof.
  revert st. induction lines as [|line r IH]; intros st; cbn [fold_left length]; [lia|].
  specialize (IH (timelineLine st line)).
  destruct (timelineLine_events st line) as (new & Hn & Hl).
  rewrite Hn, length_app in IH. lia.
Qed.

Lemma buildTimeline_whole (lines : list string) (s : SessionSummary) :
  truncated (buildTimeline lines s) = false ->
  events (buildTimeline lines s) = qualifyingEvents lines.
Proof.
  unfold buildTimeline, qualifyingEvents.
  pose proof (timelineLoop_spec maxEvents lines {| tl_events := []; callIdToName := ∅ |})
    as Hspec.
  destruct (timelineLoop _ _ _) as [st trunc]. cbn [truncated events].
  intros ->. destruct Hspec as [(Ht & _)|(_ & He & _)]; [|discriminate|exact He].
  cbn [tl_events length]. unfold maxEvents. lia.
Qed.

(** X15. When the timeline of a log is not truncated, it agrees with
    the summary of the same log: it has one tool_call event per call of
    the histogram, at least as many user and assistant events as the
    summary counts messages, exactly as many as the log has such
    messages, and no more events than the log has lines. *)
Theorem timeline_agrees_with_index (file : string) (lines : list string)
    (s : SessionSummary) :
  truncated (buildTimeline lines s) = false ->
  let evs := events (buildTimeline lines s) in
  let r := buildFileIndex file lines in
  countKind tool_call evs = histogramTotal (fi_tools r) /\
  countKind user evs + countKind assistant evs = sumOver messageCount (decoded lines) /\
  messages (fi_summary r) <= countKind user evs + countKind assistant evs /\
  (length evs <= length lines)%nat.
Proof.
  intros Ht. cbn zeta. rewrite (buildTimeline_whole lines s Ht).
  unfold qualifyingEvents. rewrite timeline_decoded, !fold_countKind.
  cbn [tl_events]. change (countKind _ []) with 0.
  assert (Hmsg : sumOver (kindCount user) (decoded lines) +
                 sumOver (kindCount assistant) (decoded lines) =
                 sumOver messageCount (decoded lines)).
  { rewrite <- sumOver_plus. apply sumOver_ext, kindCount_message. }
  repeat split.
  - rewrite (sumOver_ext _ _ _ kindCount_call).
    unfold buildFileIndex, finishFileIndex. cbn [fi_tools].
    rewrite summarize_decoded, fold_histogram. unfold initialState. cbn [tools].
    change (histogramTotal ∅) with 0. lia.
  - lia.
  - unfold buildFileIndex, finishFileIndex. cbn [fi_summary set_times messages].
    rewrite summarize_decoded.
    rewrite (fold_counter (basename file ".jsonl") file messages messageCount)
      by (intros st obj; apply summarizeRecord_counters).
    assert (Hf : forall o, 0 <= messageCount o).
    { intros o. unfold messageCount. destruct (_ && _); lia. }
    pose proof (sumOver_afterLastMeta_le messageCount (decoded lines) Hf).
    destruct (existsb isMeta (decoded lines)); [lia|].
    unfold initialState, emptySummary. cbn [summary messages]. lia.
  - rewrite <- timeline_decoded.
    pose proof (length_qualifyingEvents lines {| tl_events := []; callIdToName := ∅ |}) as Hl.
    cbn [tl_events length] in Hl. lia.
Qed.

End TimelineWhole.

(** ** Outputs and the calls they answer *)

Section Correlation.
Context `{JsRuntime}.

Lemma is_str_truthy (s k : string) (obj : json) :
  is_str s (get k (Some obj)) = true -> truthy obj = true.
Proof. destruct obj; try discriminate. reflexivity. Qed.

Lemma isToolCall_truthy (obj : json) : isToolCall obj = true -> truthy obj = true.
Proof.
  unfold isToolCall. intros [Ht _]%andb_true_iff. exact (is_str_truthy _ _ _ Ht).
Qed.

Lemma isToolOutput_truthy (obj : json) : isToolOutput obj = true -> truthy obj = true.
Proof.
  unfold isToolOutput. intros [Ht _]%andb_true_iff. exact (is_str_truthy _ _ _ Ht).
Qed.

Lemma nonempty_Some (c : string) : c <> ""%string -> nonempty (Some c) = true.
Proof.
  intros Hc. cbn [nonempty]. destruct (String.eqb_spec c ""); [contradiction|reflexivity].
Qed.

(** The calls of other ids leave the name of an id in place. *)
Lemma fold_callIdToName (c : string) (l : list json) (st : TimelineState) :
  (forall o, o ∈ l -> isToolCall o = true -> callIdOf o <> Some c) ->
  callIdToName (fold_left timelineRecord l st) !! c = callIdToName st !! c.
Proof.
  revert st. induction l as [|o r IH]; intros st Hl; cbn [fold_left]; [reflexivity|].
  rewrite IH by (intros o' Ho'; apply Hl; now right).
  destruct (timelineRecord_shape st o) as [_ ->].
  destruct (isToolCall o) eqn:Hcall; [|reflexivity].
  pose proof (Hl o ltac:(left) Hcall) as Hne.
  destruct (callIdOf o) as [c'|]; [|reflexivity].
  destruct (nonempty _); [|reflexivity].
  apply lookup_insert_ne. congruence.
Qed.

(** The event of an output that carries a call id and no name. *)
Lemma timelineRecord_output (st : TimelineState) (obj : json) (c : string) :
  isToolOutput obj = true -> callIdOf obj = Some c -> c <> ""%string ->
  as_string (get "name" (Some (coalesce (get "payload" (Some obj)) (JObj [])))) = None ->
  exists e, tl_events (timelineRecord st obj) = tl_events st ++ [e] /\
            ev_kind e = tool_output /\ ev_name e = callIdToName st !! c /\
            ev_text e = Some (default ""
              (as_string (get "output"
                 (Some (coalesce (get "payload" (Some obj)) (JObj [])))))).
Proof.
  unfold isToolOutput, callIdOf, payloadType, timelineRecord.
  set (ts := default "" _). clearbody ts.
  set (ty := get "type" (Some obj)).
  set (payload := coalesce (get "payload" (Some obj)) (JObj [])).
  set (pt := get "type" (Some payload)).
  intros [Hty Hpt]%andb_true_iff Hc Hne Hname.
  rewrite (is_str_other _ "event_msg" _ Hty) by discriminate.
  rewrite Hty. cbn [andb].
  assert (Hm : is_str "message" pt = false /\ is_str "function_call" pt = false /\
               is_str "custom_tool_call" pt = false).
  { apply orb_true_iff in Hpt as [Hp|Hp];
      repeat split; apply (is_str_other _ _ _ Hp); discriminate. }
  destruct Hm as (-> & -> & ->). cbn [orb]. rewrite Hpt, Hname, Hc, (nonempty_Some c Hne).
  eexists. cbn [push tl_events]. split; [reflexivity|]. cbn. auto.
Qed.

(** The correlation in the loop without the cap. *)
Lemma output_event_named (pre mid : list string) (callLine outLine : string)
    (call out : json) (c : string) :
  safeJsonParse callLine = Some call -> isToolCall call = true ->
  callIdOf call = Some c -> c <> ""%string ->
  safeJsonParse outLine = Some out -> isToolOutput out = true ->
  callIdOf out = Some c ->
  as_string (get "name" (Some (coalesce (get "payload" (Some out)) (JObj [])))) = None ->
  (forall o, o ∈ decoded mid -> isToolCall o = true -> callIdOf o <> Some c) ->
  exists e,
    qualifyingEvents (pre ++ callLine :: mid ++ [outLine]) =
      qualifyingEvents (pre ++ callLine :: mid) ++ [e] /\
    ev_kind e = tool_output /\ ev_name e = Some (toolNameOf call).
Proof.
  intros Hcl Hcall Hcid Hne Hol Hout Hoid Hname Hmid.
  unfold qualifyingEvents.
  replace (pre ++ callLine :: mid ++ [outLine]) with ((pre ++ callLine :: mid) ++ [outLine])
    by (now rewrite <- app_assoc).
  rewrite (fold_left_app _ (pre ++ callLine :: mid) [outLine]). cbn [fold_left].
  rewrite (fold_left_app _ pre (callLine :: mid)). cbn [fold_left].
  set (st1 := fold_left timelineLine pre _).
  unfold timelineLine at 1. rewrite Hol, (isToolOutput_truthy out Hout).
  destruct (timelineRecord_output (fold_left timelineLine mid (timelineLine st1 callLine))
              out c Hout Hoid Hne Hname) as (e & He & Hk & Hn & _).
  exists e. split; [exact He|]. split; [exact Hk|].
  rewrite Hn, timeline_decoded, (fold_callIdToName c (decoded mid)) by exact Hmid.
  unfold timelineLine. rewrite Hcl, (isToolCall_truthy call Hcall).
  destruct (timelineRecord_shape st1 call) as [_ ->].
  rewrite Hcall, Hcid, (nonempty_Some c Hne). apply lookup_insert_eq.
Qed.

(** A timeline that is not truncated holds all events of the log, fewer
    than the cap, and so does the timeline of every initial part of the
    log. *)
Lemma buildTimeline_short (lines : list string) (s : SessionSummary) :
  truncated (buildTimeline lines s) = false <->
  (length (qualifyingEvents lines) < maxEvents)%nat.
Proof.
  unfold buildTimeline, qualifyingEvents.
  pose proof (timelineLoop_spec maxEvents lines {| tl_events := []; callIdToName := ∅ |})
    as Hspec.
  destruct (timelineLoop _ _ _) as [st trunc]. cbn [truncated].
  assert (H0 : (length (tl_events {| tl_events := []; callIdToName := ∅ |}) < maxEvents)%nat)
    by (cbn [tl_events length]; unfold maxEvents; lia).
  destruct (Hspec H0) as [(Ht & Hlen & Hev)|(Ht & _ & Hlen)]; subst trunc.
  - split; [discriminate|]. intros Hlt. rewrite Hev, length_take in Hlen. lia.
  - split; [intros _; exact Hlen | reflexivity].
Qed.

Lemma buildTimeline_initial (a b : list string) (s : SessionSummary) :
  truncated (buildTimeline (a ++ b) s) = false ->
  truncated (buildTimeline a s) = false.
Proof.
  rewrite !buildTimeline_short. unfold qualifyingEvents. rewrite fold_left_app.
  destruct (timelineAll_extends b
              (fold_left timelineLine a {| tl_events := []; callIdToName := ∅ |}))
    as (more & ->).
  rewrite length_app. lia.
Qed.

(** X16. Call-id correlation.  In a timeline that is not truncated, an
    output record that carries a call id and no tool name of its own
    gives a tool_output event named after the latest earlier call with
    that id (unknown when that call has no name), whatever else the log
    holds before the call and between the two. *)
Theorem output_named_after_call (pre mid : list string) (callLine outLine : string)
    (call out : json) (c : string) (s : SessionSummary) :
  safeJsonParse callLine = Some call -> isToolCall call = true ->
  callIdOf call = Some c -> c <> ""%string ->
  safeJsonParse outLine = Some out -> isToolOutput out = true ->
  callIdOf out = Some c ->
  as_string (get "name" (Some (coalesce (get "payload" (Some out)) (JObj [])))) = None ->
  (forall o, o ∈ decoded mid -> isToolCall o = true -> callIdOf o <> Some c) ->
  truncated (buildTimeline (pre ++ callLine :: mid ++ [outLine]) s) = false ->
  exists e,
    events (buildTimeline (pre ++ callLine :: mid ++ [outLine]) s) =
      events (buildTimeline (pre ++ callLine :: mid) s) ++ [e] /\
    ev_kind e = tool_output /\ ev_name e = Some (toolNameOf call).
Proof.
  intros Hcl Hcall Hcid Hne Hol Hout Hoid Hname Hmid Ht.
  assert (Ht' : truncated (buildTimeline (pre ++ callLine :: mid) s) = false).
  { apply (buildTimeline_initial _ [outLine]). now rewrite <- app_assoc. }
  rewrite (buildTimeline_whole _ s Ht), (buildTimeline_whole _ s Ht').
  exact (output_event_named pre mid callLine outLine call out c
           Hcl Hcall Hcid Hne Hol Hout Hoid Hname Hmid).
Qed.

End Correlation.

(** ** The timeline query *)

Section QueryFacts.
Context `{JsRuntime}.

(** X17. A timeline is served from its cache file.  Once a query for a
    session has answered, a second query for it gives the same answer
    and leaves the cache as it is, as long as the session resolves to
    the same file and the file has the same modification time and size:
    the content of the file is not looked at again. *)
Theorem timeline_served_from_cache (fs1 fs2 : FileSystem) (index : IndexSnapshot)
    (sessionsDir : string) (now1 now2 : Z) (cache cache' : gmap string CachedTimeline)
    (sessionId file : string) (r : SessionTimelineResponse) :
  resolveFile fs1 index sessionsDir sessionId = Return (Some file) ->
  resolveFile fs2 index sessionsDir sessionId = Return (Some file) ->
  file <> ""%string ->
  fs_stat fs2 file = fs_stat fs1 file ->
  getSessionTimeline fs1 index sessionsDir now1 cache sessionId = Return (r, cache') ->
  getSessionTimeline fs2 index sessionsDir now2 cache' sessionId = Return (r, cache').
Proof.
  intros Hr1 Hr2 Hne Hst. unfold getSessionTimeline.
  rewrite Hr1, Hr2, Hst.
  replace (nonempty (Some file)) with true
    by (cbn [nonempty]; now destruct (String.eqb_spec file "")).
  cbn [negb]. destruct (fs_stat fs1 file) as [st|]; [|discriminate].
  set (cachePath := timelineCachePath _ _).
  destruct (cache !! cachePath) as [c|] eqn:Hc.
  - destruct (bool_decide _ && bool_decide _) eqn:Hfp.
    + intros [= <- <-]. now rewrite Hc, Hfp.
    + intros [= <- <-]. rewrite lookup_insert_eq. cbn [fileMtimeMs fileSize].
      rewrite !bool_decide_eq_true_2 by reflexivity.
      cbn [andb c_summary c_truncated c_events].
      now destruct (buildTimeline _ _).
  - intros [= <- <-]. rewrite lookup_insert_eq. cbn [fileMtimeMs fileSize].
    rewrite !bool_decide_eq_true_2 by reflexivity.
    cbn [andb c_summary c_truncated c_events].
    now destruct (buildTimeline _ _).
Qed.

Lemma metaLookup_found (fs : FileSystem) (sessionId : string) (files : list string)
    (f : string) :
  metaLookup fs sessionId files = Return (Some f) ->
  f ∈ files /\
  exists line rest,
    fs_lines fs f = line :: rest /\
    get "type" (safeJsonParse line) = Some (JStr "session_meta") /\
    get "id" (get "payload" (safeJsonParse line)) = Some (JStr sessionId).
Proof.
  induction files as [|g files IH]; cbn [metaLookup]; [discriminate|].
  destruct (fs_stat fs g); [|discriminate].
  assert (Hrest : metaLookup fs sessionId files = Return (Some f) ->
                  f ∈ g :: files /\
                  exists line rest,
                    fs_lines fs f = line :: rest /\
                    get "type" (safeJsonParse line) = Some (JStr "session_meta") /\
                    get "id" (get "payload" (safeJsonParse line)) = Some (JStr sessionId)).
  { intros Hs. destruct (IH Hs) as [Hin Hl]. split; [now right | exact Hl]. }
  destruct (fs_lines fs g) as [|line rest] eqn:Hg; [exact Hrest|].
  cbv zeta.
  destruct (is_str "session_meta" _ && is_str sessionId _) eqn:Hp; [|exact Hrest].
  intros [= <-]. split; [left|].
  apply andb_true_iff in Hp as [Ht Hi].
  exists line, rest. split; [exact Hg|]. split; now apply is_str_eq.
Qed.

(** X18. The file found for a session id is a file of the listing, and
    either its name without the extension is the id, or its first line
    is a metadata record with that id. *)
Theorem found_file_listed (fs : FileSystem) (sessionsDir sessionId f : string) :
  findFileForSession fs sessionsDir sessionId = Return (Some f) ->
  f ∈ listJsonlFiles fs sessionsDir /\
  (basename f ".jsonl" = sessionId \/
   exists line rest,
     fs_lines fs f = line :: rest /\
     get "type" (safeJsonParse line) = Some (JStr "session_meta") /\
     get "id" (get "payload" (safeJsonParse line)) = Some (JStr sessionId)).
Proof.
  unfold findFileForSession. cbv zeta.
  destruct (find (fun f => String.eqb (basename f ".jsonl") sessionId) _) as [exact|] eqn:He.
  - destruct (nonempty (Some exact)).
    + intros [= <-]. apply find_some in He as [Hin Hp].
      cbn beta in Hp. split; [now apply list_elem_of_In|]. left. now apply String.eqb_eq.
    + intros Hs. apply metaLookup_found in Hs as [? ?]. auto.
  - intros Hs. apply metaLookup_found in Hs as [? ?]. auto.
Qed.

Lemma metaLookup_passed (fs : FileSystem) (sessionId : string) (pre rest : list string) :
  Forall (passedOver fs sessionId) pre ->
  metaLookup fs sessionId (pre ++ rest) = metaLookup fs sessionId rest.
Proof.
  induction 1 as [|g pre [[st Hst] Hm] _ IH]; [reflexivity|].
  cbn [app metaLookup]. rewrite Hst. unfold startsWithMeta in Hm.
  destruct (fs_lines fs g) as [|line ?]; [exact IH|].
  cbv zeta. now rewrite Hm.
Qed.

Lemma find_nowhere {A} (p : A -> bool) (l : list A) :
  Forall (fun y => p y = false) l -> find p l = None.
Proof.
  induction 1 as [|a l Ha _ IH]; [reflexivity|]. cbn [find]. now rewrite Ha.
Qed.

(** X22. The failure of the lookup reaches the caller.  When no session
    of the snapshot has the id and no listed file is named after it, the
    listed files are opened in turn; if one of them cannot be opened,
    and every file listed before it was opened and passed over, the
    query throws the failure of opening that file: it neither returns
    the response for an unknown session nor looks at the files listed
    after it. *)
Theorem lookup_failure_propagates (fs : FileSystem) (index : IndexSnapshot)
    (sessionsDir : string) (now : Z) (cache : gmap string CachedTimeline)
    (sessionId : string) (pre post : list string) (f : string) :
  findSession index sessionId = None ->
  listJsonlFiles fs sessionsDir = pre ++ f :: post ->
  Forall (fun g => basename g ".jsonl" <> sessionId) (pre ++ f :: post) ->
  Forall (passedOver fs sessionId) pre ->
  fs_stat fs f = None ->
  getSessionTimeline fs index sessionsDir now cache sessionId = Throw (OpenFailed f).
Proof.
  intros Hs Hl Hn Hpre Hf.
  unfold getSessionTimeline, resolveFile, findFileForSession. rewrite Hs, Hl. cbv zeta.
  rewrite find_nowhere.
  - rewrite (metaLookup_passed fs sessionId pre (f :: post) Hpre).
    cbn [metaLookup]. now rewrite Hf.
  - eapply Forall_impl; [exact Hn|]. intros g Hg. cbn beta. now apply String.eqb_neq.
Qed.

(** The first element that [find] meets. *)
Lemma find_first {A} (p : A -> bool) (l : list A) (x : A) :
  find p l = Some x ->
  exists pre post, l = pre ++ x :: post /\ p x = true /\ Forall (fun y => p y = false) pre.
Proof.
  induction l as [|a l IH]; cbn [find]; [discriminate|].
  destruct (p a) eqn:Hp.
  - intros [= <-]. exists [], l. repeat split; [exact Hp | constructor].
  - intros Hf. destruct (IH Hf) as (pre & post & -> & Hx & Hpre).
    exists (a :: pre), post. repeat split; [exact Hx | now constructor].
Qed.

(** X19. A file named after the session id is preferred: when the
    listing holds one, the result is the first listed file of that name,
    and no file is opened to look for a metadata id: the result is the
    same whatever the files hold and whether or not they can be
    opened. *)
Theorem exact_file_preferred (fs : FileSystem) (sessionsDir sessionId g : string) :
  g ∈ listJsonlFiles fs sessionsDir ->
  basename g ".jsonl" = sessionId ->
  sessionId <> ""%string ->
  exists pre f post,
    listJsonlFiles fs sessionsDir = pre ++ f :: post /\
    Forall (fun h => basename h ".jsonl" <> sessionId) pre /\
    basename f ".jsonl" = sessionId /\
    findFileForSession fs sessionsDir sessionId = Return (Some f).
Proof.
  intros Hg Hb Hne. unfold findFileForSession. cbv zeta.
  destruct (find (fun f => String.eqb (basename f ".jsonl") sessionId) _) as [exact|] eqn:He.
  - apply find_first in He as (pre & post & Hl & Hp & Hpre).
    apply String.eqb_eq in Hp.
    assert (Hex : nonempty (Some exact) = true).
    { cbn [nonempty]. destruct (String.eqb_spec exact ""); [|reflexivity].
      subst exact. exfalso. apply Hne. rewrite <- Hp. reflexivity. }
    rewrite Hex. exists pre, exact, post. split; [exact Hl|].
    split; [|split; [exact Hp | reflexivity]].
    eapply Forall_impl; [exact Hpre|]. intros h Hh. cbn beta in Hh.
    now apply String.eqb_neq.
  - apply list_elem_of_In in Hg.
    pose proof (find_none _ _ He g Hg) as Hf. cbn beta in Hf.
    rewrite Hb, String.eqb_refl in Hf. discriminate.
Qed.

End QueryFacts.

(** ** Cache files *)

Lemma hex_digit_inj (n m : nat) :
  (n < 16)%nat -> (m < 16)%nat -> hex_digit n = hex_digit m -> n = m.
Proof.
  unfold hex_digit. intros Hn Hm E.
  apply (f_equal nat_of_ascii) in E.
  rewrite !nat_ascii_embedding in E
    by (destruct (Nat.ltb_spec n 10), (Nat.ltb_spec m 10); lia).
  destruct (Nat.ltb_spec n 10), (Nat.ltb_spec m 10); lia.
Qed.

Lemma hex_digit_range (n : nat) :
  (n < 16)%nat ->
  let k := nat_of_ascii (hex_digit n) in
  (48 <= k <= 57 \/ 65 <= k <= 70)%nat.
Proof.
  unfold hex_digit. intros Hn. cbn zeta.
  rewrite nat_ascii_embedding by (destruct (Nat.ltb_spec n 10); lia).
  destruct (Nat.ltb_spec n 10); lia.
Qed.

Lemma escape_inj (c c' : ascii) :
  hex_digit (nat_of_ascii c / 16) = hex_digit (nat_of_ascii c' / 16) ->
  hex_digit (nat_of_ascii c mod 16) = hex_digit (nat_of_ascii c' mod 16) ->
  c = c'.
Proof.
  intros Eh El.
  pose proof (nat_ascii_bounded c) as Hc. pose proof (nat_ascii_bounded c') as Hc'.
  apply hex_digit_inj in Eh; [|apply Nat.Div0.div_lt_upper_bound; lia ..].
  apply hex_digit_inj in El; [|apply Nat.mod_upper_bound; lia ..].
  rewrite <- (ascii_nat_embedding c), <- (ascii_nat_embedding c').
  f_equal.
  rewrite (Nat.div_mod_eq (nat_of_ascii c) 16), (Nat.div_mod_eq (nat_of_ascii c') 16).
  now rewrite Eh, El.
Qed.

Lemma encodeURIComponent_inj (a b : string) :
  encodeURIComponent a = encodeURIComponent b -> a = b.
Proof.
  revert b. induction a as [|c r IH]; intros [|c' r']; cbn [encodeURIComponent].
  - reflexivity.
  - destruct (uri_unreserved c'); discriminate.
  - destruct (uri_unreserved c); discriminate.
  - pose proof (nat_ascii_bounded c) as Hc. pose proof (nat_ascii_bounded c') as Hc'.
    destruct (uri_unreserved c) eqn:Uc, (uri_unreserved c') eqn:Uc'.
    + intros [= -> E]. now rewrite (IH _ E).
    + intros [= -> _]. discriminate.
    + intros [= <- _]. discriminate.
    + intros [= Eh El E]. rewrite (IH _ E). f_equal. exact (escape_inj c c' Eh El).
Qed.

Lemma append_inj_l (p a b : string) : (p ++ a)%string = (p ++ b)%string -> a = b.
Proof. induction p as [|c p IH]; cbn; [auto|]. intros [= E]. auto. Qed.

Lemma append_inj_r (a b s : string) : (a ++ s)%string = (b ++ s)%string -> a = b.
Proof.
  revert b. induction a as [|c a IH]; intros [|c' b]; cbn.
  - reflexivity.
  - intros E. apply (f_equal String.length) in E.
    rewrite !length_append in E. cbn [String.length] in E. lia.
  - intros E. apply (f_equal String.length) in E.
    rewrite !length_append in E. cbn [String.length] in E. lia.
  - intros [= -> E]. now rewrite (IH _ E).
Qed.

(** X20. Two sessions never share a cache file: timeline cache paths
    of different session ids in one cache directory differ. *)
Theorem cache_path_distinct (cacheDir a b : string) :
  a <> b -> timelineCachePath cacheDir a <> timelineCachePath cacheDir b.
Proof.
  intros Hab E. apply Hab. unfold timelineCachePath in E.
  do 4 apply append_inj_l in E.
  apply append_inj_r in E. now apply encodeURIComponent_inj.
Qed.

Lemma encodeURIComponent_flat (s : string) :
  Forall (fun c => c <> "/"%char) (list_ascii_of_string (encodeURIComponent s)).
Proof.
  induction s as [|c r IH]; cbn [encodeURIComponent list_ascii_of_string].
  - constructor.
  - pose proof (nat_ascii_bounded c) as Hc.
    destruct (uri_unreserved c) eqn:Uc; cbn [list_ascii_of_string].
    + constructor; [|exact IH]. intros ->. discriminate.
    + assert (Hh : forall n, (n < 16)%nat -> hex_digit n <> "/"%char).
      { intros n Hn E. pose proof (hex_digit_range n Hn) as Hr. cbn zeta in Hr.
        rewrite E in Hr. change (nat_of_ascii "/") with 47%nat in Hr. lia. }
      constructor; [discriminate|].
      constructor; [exact (Hh (nat_of_ascii c / 16)%nat
                              ltac:(apply Nat.Div0.div_lt_upper_bound; lia))|].
      constructor; [exact (Hh (nat_of_ascii c mod 16)%nat
                              ltac:(apply Nat.mod_upper_bound; lia))|].
      exact IH.
Qed.

(** X21. The cache file of a session lies directly in the session
    directory of the cache: whatever the id holds, slashes included,
    the path is that directory followed by a file name without a
    slash that ends in .json. *)
Theorem cache_file_in_session_dir (cacheDir id : string) :
  exists name,
    timelineCachePath cacheDir id = (cacheDir ++ "/session/" ++ name ++ ".json")%string /\
    Forall (fun c => c <> "/"%char) (list_ascii_of_string (name ++ ".json")).
Proof.
  exists (encodeURIComponent id). split.
  - reflexivity.
  - assert (Happ : forall a b, list_ascii_of_string (a ++ b) =
                               list_ascii_of_string a ++ list_ascii_of_string b).
    { intros a b. induction a as [|c a IH]; [reflexivity|].
      change (list_ascii_of_string (String c a ++ b)%string)
        with (c :: list_ascii_of_string (a ++ b)%string).
      now rewrite IH. }
    rewrite Happ. apply Forall_app. split; [apply encodeURIComponent_flat|].
    cbn. repeat constructor; discriminate.
Qed.

(** ** The further properties on concrete logs *)

Lemma broken_line_ignored_witness :
  let s := emptySummary "s" "/logs/s.jsonl" in
  @buildFileIndex Reference.runtime "/logs/s.jsonl"
    ([Examples.user_hello] ++ broken_line :: [Examples.shell_call]) =
  @buildFileIndex Reference.runtime "/logs/s.jsonl"
    ([Examples.user_hello] ++ [Examples.shell_call]) /\
  @buildTimeline Reference.runtime
    ([Examples.user_hello] ++ broken_line :: [Examples.shell_call]) s =
  @buildTimeline Reference.runtime ([Examples.user_hello] ++ [Examples.shell_call]) s.
Proof.
  intros s.
  apply (@broken_line_ignored Reference.runtime "/logs/s.jsonl"
           [Examples.user_hello] [Examples.shell_call] broken_line s).
  left. vm_compute. reflexivity.
Defined.

Lemma last_meta_wins_witness :
  identity (fi_summary (@buildFileIndex Reference.runtime "/logs/s.jsonl"
                          Examples.late_meta_file)) =
  identity (@summarizeFromMeta Reference.runtime (basename "/logs/s.jsonl" ".jsonl")
              "/logs/s.jsonl" (Examples.record Examples.late_meta)).
Proof.
  apply (@last_meta_wins Reference.runtime "/logs/s.jsonl" Examples.late_meta_file
           (map Examples.record Examples.counted_records)
           [] (Examples.record Examples.late_meta));
    vm_compute; reflexivity.
Defined.

Lemma summary_without_meta_witness :
  let r := @buildFileIndex Reference.runtime "/logs/s.jsonl" Examples.counted_records in
  s_file (fi_summary r) = "/logs/s.jsonl" /\
  fi_sessionId r = basename "/logs/s.jsonl" ".jsonl" /\
  identity (fi_summary r) = (JStr (basename "/logs/s.jsonl" ".jsonl"), None, None, None) /\
  startedAt (fi_summary r) =
    head (@stamps Reference.runtime (@decoded Reference.runtime Examples.counted_records)).
Proof.
  apply (@summary_without_meta Reference.runtime "/logs/s.jsonl" Examples.counted_records).
  vm_compute. reflexivity.
Defined.

Lemma fresh_build_witness :
  let snap := snapshot (@buildOrUpdateIndex Reference.runtime Corpus.before "/logs" "/cache"
                          1704103300000 (Some old_manifest)) in
  let files := found Corpus.before (listJsonlFiles Corpus.before "/logs") in
  map s_file (sessions snap) = files /\
  histogramTotal (i_tools snap) =
    sumFiles (fun f => sumOver callCount
                         (@decoded Reference.runtime (fs_lines Corpus.before f))) files.
Proof.
  apply (@fresh_build Reference.runtime Corpus.before "/logs" "/cache" 1704103300000
           (Some old_manifest)).
  left. discriminate.
Defined.

Lemma fresh_build_reads_witness :
  reads (@buildOrUpdateIndex Reference.runtime Corpus.before "/logs" "/cache"
           1704103300000 (Some old_manifest)) =
  found Corpus.before (listJsonlFiles Corpus.before "/logs").
Proof.
  apply (@fresh_build_reads Reference.runtime Corpus.before "/logs" "/cache" 1704103300000
           (Some old_manifest)).
  - left. discriminate.
  - apply (bool_decide_unpack (NoDup _)). vm_compute. exact I.
Defined.

Lemma incremental_rebuild_witness :
  let run1 := @buildOrUpdateIndex Reference.runtime Corpus.before "/logs" "/cache"
                1704103300000 None in
  let run2 := @buildOrUpdateIndex Reference.runtime Corpus.after "/logs" "/cache"
                1704104000000 (Some (manifest run1)) in
  Forall (fun g => g = "/logs/b.jsonl") (reads run2) /\
  (forall g, g <> "/logs/b.jsonl" ->
     m_files (manifest run2) !! g = m_files (manifest run1) !! g).
Proof.
  apply (@incremental_rebuild Reference.runtime Corpus.before Corpus.after
           "/logs" "/cache").
  - reflexivity.
  - intros g Hg Hne. cbn in Hg.
    apply elem_of_cons in Hg as [->|Hg]; [reflexivity|].
    apply elem_of_cons in Hg as [->|Hg]; [contradiction|].
    inversion Hg.
Defined.

Lemma timeline_agrees_with_index_witness :
  let s := emptySummary "s" "/logs/s.jsonl" in
  let evs := events (@buildTimeline Reference.runtime Examples.late_meta_file s) in
  let r := @buildFileIndex Reference.runtime "/logs/s.jsonl" Examples.late_meta_file in
  countKind tool_call evs = histogramTotal (fi_tools r) /\
  countKind user evs + countKind assistant evs =
    sumOver messageCount (@decoded Reference.runtime Examples.late_meta_file) /\
  messages (fi_summary r) <= countKind user evs + countKind assistant evs /\
  (length evs <= length Examples.late_meta_file)%nat.
Proof.
  apply (@timeline_agrees_with_index Reference.runtime "/logs/s.jsonl"
           Examples.late_meta_file (emptySummary "s" "/logs/s.jsonl")).
  vm_compute. reflexivity.
Defined.

Lemma output_named_after_call_witness :
  let s := emptySummary "s" "/logs/s.jsonl" in
  exists e,
    events (@buildTimeline Reference.runtime
      ([Examples.user_hello] ++ Examples.shell_call :: [Examples.abort] ++ [unnamed_output]) s) =
    events (@buildTimeline Reference.runtime
      ([Examples.user_hello] ++ Examples.shell_call :: [Examples.abort]) s) ++ [e] /\
    ev_kind e = tool_output /\
    ev_name e = Some (toolNameOf (Examples.record Examples.shell_call)).
Proof.
  apply (@output_named_after_call Reference.runtime [Examples.user_hello] [Examples.abort]
           Examples.shell_call unnamed_output
           (Examples.record Examples.shell_call) (Examples.record unnamed_output) "1"
           (emptySummary "s" "/logs/s.jsonl"));
    try (vm_compute; reflexivity).
  - discriminate.
  - intros o Ho Hcall.
    assert (E : @decoded Reference.runtime [Examples.abort] =
                [Examples.record Examples.abort]) by (vm_compute; reflexivity).
    rewrite E in Ho. apply list_elem_of_singleton in Ho as ->.
    vm_compute in Hcall. discriminate.
Defined.

Lemma timeline_served_from_cache_witness :
  let index := snapshot (@buildOrUpdateIndex Reference.runtime Examples.late_meta_fs
                           "/logs" "/cache" 1704103300000 None) in
  exists r c,
    @getSessionTimeline Reference.runtime Examples.late_meta_fs index "/logs"
      1704103400000 ∅ "abc" = Return (r, c) /\
    @getSessionTimeline Reference.runtime Examples.same_fingerprint_fs index "/logs"
      1704103500000 c "abc" = Return (r, c).
Proof.
  cbv zeta. eexists _, _. split.
  - vm_compute. reflexivity.
  - apply (@timeline_served_from_cache Reference.runtime Examples.late_meta_fs
             Examples.same_fingerprint_fs _ "/logs" 1704103400000 1704103500000 ∅ _
             "abc" "/logs/s.jsonl").
    + vm_compute. reflexivity.
    + vm_compute. reflexivity.
    + discriminate.
    + reflexivity.
    + vm_compute. reflexivity.
Defined.

Lemma found_file_listed_witness :
  "/logs/a.jsonl" ∈ listJsonlFiles Examples.meta_first_fs "/logs" /\
  (basename "/logs/a.jsonl" ".jsonl" = "abc" \/
   exists line rest,
     fs_lines Examples.meta_first_fs "/logs/a.jsonl" = line :: rest /\
     get "type" (@safeJsonParse Reference.runtime line) = Some (JStr "session_meta") /\
     get "id" (get "payload" (@safeJsonParse Reference.runtime line)) = Some (JStr "abc")).
Proof.
  apply (@found_file_listed Reference.runtime Examples.meta_first_fs "/logs" "abc"
           "/logs/a.jsonl").
  vm_compute. reflexivity.
Defined.

Lemma exact_file_preferred_witness :
  (exists pre f post,
     listJsonlFiles Corpus.before "/logs" = pre ++ f :: post /\
     Forall (fun h => basename h ".jsonl" <> "b") pre /\
     basename f ".jsonl" = "b" /\
     @findFileForSession Reference.runtime Corpus.before "/logs" "b" = Return (Some f)) /\
  (exists pre f post,
     listJsonlFiles Examples.vanished_fs "/logs" = pre ++ f :: post /\
     Forall (fun h => basename h ".jsonl" <> "a") pre /\
     basename f ".jsonl" = "a" /\
     @findFileForSession Reference.runtime Examples.vanished_fs "/logs" "a" =
       Return (Some f)).
Proof.
  split.
  - apply (@exact_file_preferred Reference.runtime Corpus.before "/logs" "b"
             "/logs/b.jsonl").
    + right. left.
    + vm_compute. reflexivity.
    + discriminate.
  - apply (@exact_file_preferred Reference.runtime Examples.vanished_fs "/logs" "a"
             "/logs/a.jsonl").
    + left.
    + vm_compute. reflexivity.
    + discriminate.
Defined.

Lemma lookup_failure_propagates_witness :
  @getSessionTimeline Reference.runtime half_gone_fs Examples.empty_index
    "/logs" 1704103200000 ∅ "zzz" = Throw (OpenFailed "/logs/b.jsonl").
Proof.
  apply (@lookup_failure_propagates Reference.runtime half_gone_fs
           Examples.empty_index "/logs" 1704103200000 ∅ "zzz" ["/logs/a.jsonl"] []).
  - reflexivity.
  - reflexivity.
  - repeat constructor; vm_compute; discriminate.
  - constructor; [split; [eexists; reflexivity | vm_compute; reflexivity] | constructor].
  - reflexivity.
Defined.

Lemma cache_path_distinct_witness :
  timelineCachePath "/cache" "a/b" <> timelineCachePath "/cache" "a%2Fb".
Proof. apply cache_path_distinct. discriminate. Defined.
